(** * Token lifecycle of the auth service

    The development follows the Go packages of the service:

    - [time], [hex]: the two standard-library pieces the token code
      computes with (instants and the hexadecimal codec);
    - [domain]: the entities [User] and [RefreshToken] and the error
      values of [errors.go];
    - the environment [Env] and the monad [M] in which the stateful code
      runs (database tables, wall clock, collaborators' answers, and a
      log of the collaborator calls);
    - [jwt]: the [JWTManager];
    - [repository]: the two repository interfaces and their
      database-backed implementations;
    - [usecase]: the [authUseCase] methods;
    - [strings], [fiber], [http]: the middleware, the handlers and the
      routes of the HTTP delivery;
    - [config]: the configuration read from the process environment.

    The definitions come first; the properties of the token lifecycle
    (validity, rotation on refresh, revocation, error kinds) follow,
    and then further properties of the accounts, of the repositories,
    of the access-token claims, of the HTTP delivery and of the
    configuration. *)

From Stdlib Require Import ZArith NArith String Ascii List Lia.
From Stdlib.Strings Require Import Byte.
From stdpp Require Import base decidable option list strings gmap.

Local Open Scope Z_scope.

(** ** Package time

    An instant is a number of nanoseconds since the Unix epoch and a
    duration a number of nanoseconds.  Instants read from the database
    carry no monotonic clock reading, so comparisons are comparisons of
    wall-clock instants. *)
Module time.

Definition Time : Type := Z.
Definition Duration : Type := Z.

Definition Second : Duration := 1000000000.

(** [time.Time{}]: January 1, year 1, 00:00:00 UTC. *)
Definition zero : Time := -62135596800 * Second.

(** [t.After(u)] reports whether the instant [t] is after [u]. *)
Definition After (t u : Time) : bool := u <? t.

(** [t.Add(d)]. *)
Definition Add (t : Time) (d : Duration) : Time := t + d.

(** [t.Truncate(d)]: [t] rounded down to a multiple of [d] since the
    zero time; [t] itself when [d <= 0]. *)
Definition Truncate (t : Time) (d : Duration) : Time :=
  if d <=? 0 then t else t - (t - zero) mod d.

(** The float64 nearest to the rational [n / d] (for [d] positive), ties
    to even, as a fraction whose denominator is a power of two: the
    quotient is scaled by a power of two into the range of a 53-bit
    significand and rounded there.  The values met below lie far from
    the subnormal and the overflow range. *)
Definition float64_round (n d : Z) : Z * Z :=
  if n <=? 0 then (0, 1) else
  let scaled (k : Z) :=
    if 0 <=? k then (n, d * 2 ^ k) else (n * 2 ^ (- k), d) in
  let k0 := Z.log2 n - Z.log2 d - 52 in
  let k := if (scaled k0).1 / (scaled k0).2 <? 2 ^ 52 then k0 - 1 else k0 in
  let q := (scaled k).1 / (scaled k).2 in
  let r := (scaled k).1 mod (scaled k).2 in
  let m := if 2 * r <? (scaled k).2 then q
           else if (scaled k).2 <? 2 * r then q + 1
           else if Z.even q then q else q + 1 in
  if 0 <=? k then (m * 2 ^ k, 1) else (m, 2 ^ (- k)).

(** [d.Seconds()] for [d] not negative:
    [float64(sec) + float64(nsec)/1e9] with [sec = d / Second] and
    [nsec = d % Second].  The two conversions are exact, the division
    and the sum are each rounded to the nearest float64. *)
Definition Seconds (d : Duration) : Z * Z :=
  let sec := d / Second in
  let nsec := d mod Second in
  let quotient := float64_round nsec 1000000000 in
  float64_round (sec * quotient.2 + quotient.1) quotient.2.

(** [int(d.Seconds())]: the float64 truncated toward zero.  The integer
    division and the remainder of Go truncate toward zero and rounding
    to nearest is symmetric, so a negative duration gives the opposite
    of what its absolute value gives.  Because of the two roundings the
    result is one more than the whole seconds of [d] for some durations
    of 2^24 seconds and more whose fraction is close to a second. *)
Definition Seconds_int (d : Duration) : Z :=
  Z.sgn d * ((Seconds (Z.abs d)).1 / (Seconds (Z.abs d)).2).

End time.

(** ** Package encoding/hex *)
Module hex.

Definition hextable : string := "0123456789abcdef".

(** [hextable[i]]; the index is always below 16 where it is used. *)
Definition index (i : N) : ascii :=
  match String.get (N.to_nat i) hextable with
  | Some c => c
  | None => "0"%char
  end.

(** [hex.EncodeToString]: two digits per byte, the high nibble
    [v >> 4] first, then the low nibble [v & 0x0f]. *)
Fixpoint EncodeToString (src : list byte) : string :=
  match src with
  | [] => EmptyString
  | v :: rest =>
      String (index (N.shiftr (Byte.to_N v) 4))
        (String (index (N.land (Byte.to_N v) 15))
           (EncodeToString rest))
  end.

(** The value of a hexadecimal digit, to read an encoding back. *)
Definition fromHexChar (c : ascii) : option N :=
  let n := N_of_ascii c in
  if (48 <=? n)%N && (n <=? 57)%N then Some (n - 48)%N
  else if (97 <=? n)%N && (n <=? 102)%N then Some (n - 97 + 10)%N
  else if (65 <=? n)%N && (n <=? 70)%N then Some (n - 65 + 10)%N
  else None.

(** [hex.DecodeString]: [None] stands for the two decoding errors
    (odd length, invalid digit). *)
Fixpoint DecodeString (s : string) : option (list byte) :=
  match s with
  | EmptyString => Some []
  | String _ EmptyString => None
  | String a (String b rest) =>
      match fromHexChar a, fromHexChar b, DecodeString rest with
      | Some hi, Some lo, Some bs =>
          match Byte.of_N (N.lor (N.shiftl hi 4) lo) with
          | Some v => Some (v :: bs)
          | None => None
          end
      | _, _, _ => None
      end
  end.

(** The characters of [hextable]. *)
Definition is_hex_digit (c : ascii) : bool :=
  bool_decide (c ∈ list_ascii_of_string hextable).

Fixpoint all_hex (s : string) : bool :=
  match s with
  | EmptyString => true
  | String c rest => is_hex_digit c && all_hex rest
  end.

End hex.

(** ** Package domain: entities and error values *)
Module domain.

(** [domain.User].  [User_ID] is the [ID] of the embedded
    [models.BaseModelNanoID]; [DeletedAt] is [None] for a live row
    (gorm's soft-delete marker). *)
Record User : Type := {
  User_ID : string;
  Email : string;
  Password : string;
  Name : string;
  User_CreatedAt : time.Time;
  User_UpdatedAt : time.Time;
  DeletedAt : option time.Time
}.

(** [domain.RefreshToken].  The [User] relation field is never filled
    by the code and is left out. *)
Record RefreshToken : Type := {
  ID : N;
  UserID : string;
  Token : string;
  ExpiresAt : time.Time;
  IsRevoked : bool;
  CreatedAt : time.Time;
  UpdatedAt : time.Time
}.

(** Error values.  The first eight are the variables of [errors.go];
    each is a distinct value, compared with [==] by identity.
    [gorm_ErrRecordNotFound] is gorm's sentinel, [library_error] an
    error value produced by a library or the database driver, and
    [Errorf prefix err] is [fmt.Errorf("prefix: %w", err)]. *)
Inductive error : Type :=
| ErrUserNotFound
| ErrUserAlreadyExists
| ErrInvalidCredentials
| ErrRefreshTokenNotFound
| ErrRefreshTokenExpired
| ErrRefreshTokenRevoked
| ErrInvalidToken
| ErrUnauthorized
| gorm_ErrRecordNotFound
| library_error (text : string)
| Errorf (prefix : string) (err : error).

(** [err.Error()]. *)
Fixpoint Error (e : error) : string :=
  match e with
  | ErrUserNotFound => "user not found"
  | ErrUserAlreadyExists => "user already exists"
  | ErrInvalidCredentials => "invalid credentials"
  | ErrRefreshTokenNotFound => "refresh token not found"
  | ErrRefreshTokenExpired => "refresh token expired"
  | ErrRefreshTokenRevoked => "refresh token revoked"
  | ErrInvalidToken => "invalid token"
  | ErrUnauthorized => "unauthorized"
  | gorm_ErrRecordNotFound => "record not found"
  | library_error text => text
  | Errorf prefix err => prefix +:+ ": " +:+ Error err
  end.

Fixpoint error_eqb (a b : error) : bool :=
  match a, b with
  | ErrUserNotFound, ErrUserNotFound
  | ErrUserAlreadyExists, ErrUserAlreadyExists
  | ErrInvalidCredentials, ErrInvalidCredentials
  | ErrRefreshTokenNotFound, ErrRefreshTokenNotFound
  | ErrRefreshTokenExpired, ErrRefreshTokenExpired
  | ErrRefreshTokenRevoked, ErrRefreshTokenRevoked
  | ErrInvalidToken, ErrInvalidToken
  | ErrUnauthorized, ErrUnauthorized
  | gorm_ErrRecordNotFound, gorm_ErrRecordNotFound => true
  | library_error s, library_error t => String.eqb s t
  | Errorf p e, Errorf q f => String.eqb p q && error_eqb e f
  | _, _ => false
  end.

End domain.

(** A pointer result paired with an error (a method returning a pointer
    and an error): either the value and a nil error, or nil and the
    error. *)
Inductive result (A : Type) : Type :=
| Ok (a : A)
| Err (e : domain.error).
Arguments Ok {A} a.
Arguments Err {A} e.

(** ** Package jwt: the types *)
Module jwt.

(** [jwt.Claims] with the registered claims the code fills in.  The
    numeric dates are instants truncated to the second. *)
Record Claims : Type := {
  UserID : string;
  Email : string;
  ExpiresAt : time.Time;
  IssuedAt : time.Time;
  NotBefore : time.Time;
  Issuer : string;
  Subject : string
}.

(** [jwt.NewNumericDate]. *)
Definition NewNumericDate (t : time.Time) : time.Time :=
  time.Truncate t time.Second.

(** [jwt.JWTManager].  The key pair is fixed at construction; what
    signing with it returns is an answer of the environment
    ([rsa_sign] below). *)
Record JWTManager : Type := {
  accessTokenDuration : time.Duration;
  refreshTokenDuration : time.Duration
}.

End jwt.

(** ** The world the code runs in *)

(** The database: the two tables in insertion order and the sequence
    behind [refresh_tokens.id]. *)
Record DB : Type := {
  users : list domain.User;
  refresh_tokens : list domain.RefreshToken;
  refresh_tokens_id_seq : N
}.

Definition empty_db : DB :=
  {| users := []; refresh_tokens := []; refresh_tokens_id_seq := 0 |}.

(** The calls the use case makes to its collaborators, logged in the
    order in which they are made. *)
Inductive Call : Type :=
| UserRepository_Create (email : string)
| UserRepository_FindByID (id : string)
| UserRepository_FindByEmail (email : string)
| UserRepository_Delete (id : string)
| RefreshTokenRepository_Create (token : string)
| RefreshTokenRepository_FindByToken (token : string)
| RefreshTokenRepository_FindByUserID (userID : string)
| RefreshTokenRepository_Revoke (token : string)
| RefreshTokenRepository_RevokeAllByUserID (userID : string)
| RefreshTokenRepository_DeleteExpired
| JWTManager_GenerateAccessToken (userID email : string)
| JWTManager_GenerateRefreshToken (userID : string)
| JWTManager_ValidateToken (token : string).

(** What the outside answers during one call of a use-case method:
    - [clock k]: the [k]-th reading of [time.Now()];
    - [db_fault c]: the driver error with which the statement behind the
      repository call [c] fails, [None] when the database executes it;
    - [entropy]: the stream [crypto/rand] reads from, [None] when
      reading fails;
    - [rsa_sign]: what signing a claim set with the private key
      returns;
    - [rsa_verify]: what parsing and verifying an access token returns;
    - [bcrypt_GenerateFromPassword], [bcrypt_CompareHashAndPassword]:
      the password hash ([inr] is the error text; [None] on comparison
      means the password matches);
    - [gonanoid_Generate]: the identifier for a new account (empty when
      generation fails, the error being dropped by the hook). *)
Record Env : Type := {
  clock : nat → time.Time;
  db_fault : Call → option string;
  entropy : option (nat → byte);
  rsa_sign : jwt.Claims → string + string;
  rsa_verify : string → jwt.Claims + string;
  bcrypt_GenerateFromPassword : string → string + string;
  bcrypt_CompareHashAndPassword : string → string → option string;
  gonanoid_Generate : string
}.

Record World : Type := {
  db : DB;
  reads : nat;
  trace : list Call
}.

(** Computations: read the environment, pass the world along.  An error
    is an ordinary return value, as in Go: what a failing call has
    already written stays written. *)
Definition M (A : Type) : Type := Env → World → A * World.

#[global] Instance M_ret : MRet M := λ A a _ w, (a, w).
#[global] Instance M_bind : MBind M :=
  λ A B f m e w, let '(a, w') := m e w in f a e w'.

Definition ask : M Env := λ e w, (e, w).
Definition get_db : M DB := λ _ w, (db w, w).
Definition put_db (d : DB) : M unit :=
  λ _ w, (tt, {| db := d; reads := reads w; trace := trace w |}).

(** [time.Now()]. *)
Definition time_Now : M time.Time :=
  λ e w, (clock e (reads w),
          {| db := db w; reads := S (reads w); trace := trace w |}).

(** Entering a collaborator's method. *)
Definition called (c : Call) : M unit :=
  λ _ w, (tt, {| db := db w; reads := reads w; trace := trace w ++ [c] |}).

(** [rand.Read(b)] on a buffer of [n] bytes: the buffer is filled
    completely or the read fails. *)
Definition rand_Read (n : nat) : M (list byte + domain.error) :=
  e ← ask;
  mret (match entropy e with
        | Some src => inl (map src (seq 0 n))
        | None => inr (domain.library_error "crypto/rand: read failed")
        end).

(** One call of a method, from a database state: the return value, the
    database afterwards and the collaborator calls made. *)
Definition run {A : Type} (m : M A) (e : Env) (d : DB) : A * DB * list Call :=
  let '(a, w) := m e {| db := d; reads := 0; trace := [] |} in
  (a, db w, trace w).

(** ** Methods of domain.RefreshToken *)
Module RefreshToken.

(** [IsExpired]: [time.Now().After(rt.ExpiresAt)]. *)
Definition IsExpired (rt : domain.RefreshToken) : M bool :=
  now ← time_Now;
  mret (time.After now (domain.ExpiresAt rt)).

(** [IsValid]: [!rt.IsExpired() && !rt.IsRevoked]. *)
Definition IsValid (rt : domain.RefreshToken) : M bool :=
  expired ← IsExpired rt;
  mret (negb expired && negb (domain.IsRevoked rt)).

End RefreshToken.

(** ** Methods of jwt.JWTManager *)
Module JWTManager.

Definition GenerateAccessToken (m : jwt.JWTManager) (userID email : string)
  : M (string * option domain.error) :=
  called (JWTManager_GenerateAccessToken userID email);;
  t_exp ← time_Now;
  t_iat ← time_Now;
  t_nbf ← time_Now;
  let claims :=
    {| jwt.UserID := userID;
       jwt.Email := email;
       jwt.ExpiresAt :=
         jwt.NewNumericDate (time.Add t_exp (jwt.accessTokenDuration m));
       jwt.IssuedAt := jwt.NewNumericDate t_iat;
       jwt.NotBefore := jwt.NewNumericDate t_nbf;
       jwt.Issuer := "auth-service";
       jwt.Subject := userID |} in
  e ← ask;
  mret (match rsa_sign e claims with
        | inl signed => (signed, None)
        | inr text => (EmptyString, Some (domain.library_error text))
        end).

(** [GenerateRefreshToken]: 32 random bytes, hex-encoded, expiring
    [refreshTokenDuration] after the clock reading. *)
Definition GenerateRefreshToken (m : jwt.JWTManager) (userID : string)
  : M (string * time.Time * option domain.error) :=
  called (JWTManager_GenerateRefreshToken userID);;
  r ← rand_Read 32;
  match r with
  | inr err =>
      mret (EmptyString, time.zero,
            Some (domain.Errorf "failed to generate random token" err))
  | inl tokenBytes =>
      let tokenString := hex.EncodeToString tokenBytes in
      now ← time_Now;
      let expiresAt := time.Add now (jwt.refreshTokenDuration m) in
      mret (tokenString, expiresAt, None)
  end.

(** [ValidateToken]: parsing, the check of the signing method, of the
    signature and of the dates are the library's; its verdict is the
    environment's [rsa_verify]. *)
Definition ValidateToken (m : jwt.JWTManager) (tokenString : string)
  : M (result jwt.Claims) :=
  called (JWTManager_ValidateToken tokenString);;
  e ← ask;
  mret (match rsa_verify e tokenString with
        | inl claims => Ok claims
        | inr text => Err (domain.library_error text)
        end).

Definition GetAccessTokenDuration (m : jwt.JWTManager) : time.Duration :=
  jwt.accessTokenDuration m.

End JWTManager.

(** ** Package repository: the interfaces *)
Module repository.

Module UserRepository.
(** [Create] also returns the entity as the call leaves it behind
    the pointer ([Update] is called nowhere and is left out). *)
Record t : Type := {
  Create : domain.User → M (domain.User * option domain.error);
  FindByID : string → M (result domain.User);
  FindByEmail : string → M (result domain.User);
  Delete : string → M (option domain.error)
}.
End UserRepository.

Module RefreshTokenRepository.
Record t : Type := {
  Create : domain.RefreshToken
           → M (domain.RefreshToken * option domain.error);
  FindByToken : string → M (result domain.RefreshToken);
  FindByUserID : string → M (list domain.RefreshToken * option domain.error);
  Revoke : string → M (option domain.error);
  RevokeAllByUserID : string → M (option domain.error);
  DeleteExpired : M (option domain.error)
}.
End RefreshTokenRepository.

End repository.

(** ** The database behind the repositories

    Rows are kept in insertion order.  The statements the repositories
    issue are functions on the tables; instants are stored as given. *)

Definition unique_violation (constraint : string) : domain.error :=
  domain.library_error
    ("ERROR: duplicate key value violates unique constraint "
       +:+ constraint +:+ " (SQLSTATE 23505)").

Definition foreign_key_violation (constraint : string) : domain.error :=
  domain.library_error
    ("ERROR: insert or update on table violates foreign key constraint "
       +:+ constraint +:+ " (SQLSTATE 23503)").

(** A model with a [DeletedAt] field is queried with
    [deleted_at IS NULL] added to the condition. *)
Definition live (u : domain.User) : bool :=
  match domain.DeletedAt u with None => true | Some _ => false end.

(** The time-tracking fields are set on creation when they are zero. *)
Definition stamp (now field : time.Time) : time.Time :=
  if field =? time.zero then now else field.

(** [SELECT * FROM users WHERE id = ? AND deleted_at IS NULL ... LIMIT 1]
    and its siblings.  Each selects on a uniquely indexed column, so at
    most one row qualifies and the ordering by primary key does not
    show. *)
Definition user_by_id (d : DB) (id : string) : option domain.User :=
  List.find (λ u, String.eqb (domain.User_ID u) id && live u) (users d).

Definition user_by_email (d : DB) (email : string) : option domain.User :=
  List.find (λ u, String.eqb (domain.Email u) email && live u) (users d).

Definition token_by_value (d : DB) (token : string)
  : option domain.RefreshToken :=
  List.find (λ r, String.eqb (domain.Token r) token) (refresh_tokens d).

(** [INSERT INTO users]: the primary key and the unique index on
    [email] (which cover deleted rows too) are checked. *)
Definition insert_user (user : domain.User) (d : DB)
  : DB * option domain.error :=
  if existsb (λ u, String.eqb (domain.User_ID u) (domain.User_ID user))
       (users d)
  then (d, Some (unique_violation "users_pkey"))
  else if existsb (λ u, String.eqb (domain.Email u) (domain.Email user))
            (users d)
  then (d, Some (unique_violation "idx_users_email"))
  else ({| users := users d ++ [user];
           refresh_tokens := refresh_tokens d;
           refresh_tokens_id_seq := refresh_tokens_id_seq d |}, None).

(** [INSERT INTO refresh_tokens ... RETURNING id]: a zero [ID] takes the
    next value of the sequence, which stays consumed when the insertion
    then fails on the primary key, on the unique index on [token] or on
    the foreign key to [users]. *)
Definition insert_refresh_token (token : domain.RefreshToken) (d : DB)
  : DB * (domain.RefreshToken * option domain.error) :=
  let seq' := if (domain.ID token =? 0)%N
              then N.succ (refresh_tokens_id_seq d)
              else refresh_tokens_id_seq d in
  let row :=
    {| domain.ID := if (domain.ID token =? 0)%N then seq' else domain.ID token;
       domain.UserID := domain.UserID token;
       domain.Token := domain.Token token;
       domain.ExpiresAt := domain.ExpiresAt token;
       domain.IsRevoked := domain.IsRevoked token;
       domain.CreatedAt := domain.CreatedAt token;
       domain.UpdatedAt := domain.UpdatedAt token |} in
  let failed (err : domain.error) :=
    ({| users := users d;
        refresh_tokens := refresh_tokens d;
        refresh_tokens_id_seq := seq' |}, (token, Some err)) in
  if existsb (λ r, (domain.ID r =? domain.ID row)%N) (refresh_tokens d)
  then failed (unique_violation "refresh_tokens_pkey")
  else if existsb (λ r, String.eqb (domain.Token r) (domain.Token row))
            (refresh_tokens d)
  then failed (unique_violation "idx_refresh_tokens_token")
  else if negb (existsb (λ u, String.eqb (domain.User_ID u) (domain.UserID row))
                  (users d))
  then failed (foreign_key_violation "fk_refresh_tokens_user")
  else ({| users := users d;
           refresh_tokens := refresh_tokens d ++ [row];
           refresh_tokens_id_seq := seq' |}, (row, None)).

(** [Update("is_revoked", true)] on one row: the flag is set and the
    update time tracked. *)
Definition set_revoked (now : time.Time) (r : domain.RefreshToken)
  : domain.RefreshToken :=
  {| domain.ID := domain.ID r;
     domain.UserID := domain.UserID r;
     domain.Token := domain.Token r;
     domain.ExpiresAt := domain.ExpiresAt r;
     domain.IsRevoked := true;
     domain.CreatedAt := domain.CreatedAt r;
     domain.UpdatedAt := now |}.

(** The effect of [UPDATE ... SET is_revoked = true ... WHERE cond] on
    one row: the rows that satisfy the condition are updated, the others
    are left alone. *)
Definition revoke_row (cond : domain.RefreshToken → bool) (now : time.Time)
    (r : domain.RefreshToken) : domain.RefreshToken :=
  if cond r then set_revoked now r else r.

(** [UPDATE refresh_tokens SET is_revoked = true, updated_at = now
    WHERE cond]. *)
Definition revoke_where (cond : domain.RefreshToken → bool) (now : time.Time)
    (d : DB) : DB :=
  {| users := users d;
     refresh_tokens := map (revoke_row cond now) (refresh_tokens d);
     refresh_tokens_id_seq := refresh_tokens_id_seq d |}.

(** [UPDATE users SET deleted_at = now WHERE id = ? AND deleted_at IS
    NULL]: the soft delete. *)
Definition soft_delete_user (id : string) (now : time.Time) (d : DB) : DB :=
  {| users :=
       map (λ u, if String.eqb (domain.User_ID u) id && live u
                 then {| domain.User_ID := domain.User_ID u;
                         domain.Email := domain.Email u;
                         domain.Password := domain.Password u;
                         domain.Name := domain.Name u;
                         domain.User_CreatedAt := domain.User_CreatedAt u;
                         domain.User_UpdatedAt := domain.User_UpdatedAt u;
                         domain.DeletedAt := Some now |}
                 else u) (users d);
     refresh_tokens := refresh_tokens d;
     refresh_tokens_id_seq := refresh_tokens_id_seq d |}.

(** [DELETE FROM refresh_tokens WHERE expires_at < now]. *)
Definition delete_expired (now : time.Time) (d : DB) : DB :=
  {| users := users d;
     refresh_tokens :=
       List.filter (λ r, negb (domain.ExpiresAt r <? now)) (refresh_tokens d);
     refresh_tokens_id_seq := refresh_tokens_id_seq d |}.

(** Running the statement behind the repository call [c]: the driver
    may fail ([db_fault]), and then the tables stay as they are;
    otherwise the statement is applied to them. *)
Definition statement {A : Type} (c : Call) (stmt : DB → DB * A)
    (failure : domain.error → A) : M A :=
  e ← ask;
  match db_fault e c with
  | Some text => mret (failure (domain.library_error text))
  | None =>
      d ← get_db;
      let '(d', a) := stmt d in
      put_db d';;
      mret a
  end.

(** [db.Where(...).First(&row)]: the row, or [gorm.ErrRecordNotFound]
    when there is none. *)
Definition gorm_First {A : Type} (c : Call) (query : DB → option A)
  : M (result A) :=
  statement c
    (λ d, (d, match query d with
              | Some row => Ok row
              | None => Err domain.gorm_ErrRecordNotFound
              end))
    Err.

(** ** repository.userRepository *)
Module userRepository.

(** The [BeforeCreate] hook of [BaseModelNanoID]. *)
Definition BeforeCreate (u : domain.User) : M domain.User :=
  if String.eqb (domain.User_ID u) "" then
    e ← ask;
    mret {| domain.User_ID := gonanoid_Generate e;
            domain.Email := domain.Email u;
            domain.Password := domain.Password u;
            domain.Name := domain.Name u;
            domain.User_CreatedAt := domain.User_CreatedAt u;
            domain.User_UpdatedAt := domain.User_UpdatedAt u;
            domain.DeletedAt := domain.DeletedAt u |}
  else mret u.

Definition Create (user : domain.User)
  : M (domain.User * option domain.error) :=
  let c := UserRepository_Create (domain.Email user) in
  called c;;
  user ← BeforeCreate user;
  now ← time_Now;
  let user :=
    {| domain.User_ID := domain.User_ID user;
       domain.Email := domain.Email user;
       domain.Password := domain.Password user;
       domain.Name := domain.Name user;
       domain.User_CreatedAt := stamp now (domain.User_CreatedAt user);
       domain.User_UpdatedAt := stamp now (domain.User_UpdatedAt user);
       domain.DeletedAt := domain.DeletedAt user |} in
  err ← statement c (insert_user user) Some;
  mret (user, err).

Definition FindByID (id : string) : M (result domain.User) :=
  let c := UserRepository_FindByID id in
  called c;;
  r ← gorm_First c (λ d, user_by_id d id);
  match r with
  | Err err =>
      if domain.error_eqb err domain.gorm_ErrRecordNotFound
      then mret (Err domain.ErrUserNotFound)
      else mret (Err err)
  | Ok user => mret (Ok user)
  end.

Definition FindByEmail (email : string) : M (result domain.User) :=
  let c := UserRepository_FindByEmail email in
  called c;;
  r ← gorm_First c (λ d, user_by_email d email);
  match r with
  | Err err =>
      if domain.error_eqb err domain.gorm_ErrRecordNotFound
      then mret (Err domain.ErrUserNotFound)
      else mret (Err err)
  | Ok user => mret (Ok user)
  end.

Definition Delete (id : string) : M (option domain.error) :=
  let c := UserRepository_Delete id in
  called c;;
  now ← time_Now;
  statement c (λ d, (soft_delete_user id now d, None)) Some.

Definition NewUserRepository : repository.UserRepository.t :=
  {| repository.UserRepository.Create := Create;
     repository.UserRepository.FindByID := FindByID;
     repository.UserRepository.FindByEmail := FindByEmail;
     repository.UserRepository.Delete := Delete |}.

End userRepository.

(** ** repository.refreshTokenRepository *)
Module refreshTokenRepository.

Definition Create (token : domain.RefreshToken)
  : M (domain.RefreshToken * option domain.error) :=
  let c := RefreshTokenRepository_Create (domain.Token token) in
  called c;;
  now ← time_Now;
  let token :=
    {| domain.ID := domain.ID token;
       domain.UserID := domain.UserID token;
       domain.Token := domain.Token token;
       domain.ExpiresAt := domain.ExpiresAt token;
       domain.IsRevoked := domain.IsRevoked token;
       domain.CreatedAt := stamp now (domain.CreatedAt token);
       domain.UpdatedAt := stamp now (domain.UpdatedAt token) |} in
  statement c (insert_refresh_token token) (λ err, (token, Some err)).

Definition FindByToken (token : string) : M (result domain.RefreshToken) :=
  let c := RefreshTokenRepository_FindByToken token in
  called c;;
  r ← gorm_First c (λ d, token_by_value d token);
  match r with
  | Err err =>
      if domain.error_eqb err domain.gorm_ErrRecordNotFound
      then mret (Err domain.ErrRefreshTokenNotFound)
      else mret (Err err)
  | Ok refreshToken => mret (Ok refreshToken)
  end.

(** [FindByUserID]: the query has no [ORDER BY], so the order of the
    result is the database's; the model returns the rows in the order
    of the table. *)
Definition FindByUserID (userID : string)
  : M (list domain.RefreshToken * option domain.error) :=
  let c := RefreshTokenRepository_FindByUserID userID in
  called c;;
  statement c
    (λ d, (d, (List.filter
                 (λ r, String.eqb (domain.UserID r) userID
                       && negb (domain.IsRevoked r))
                 (refresh_tokens d), None)))
    (λ err, ([], Some err)).

Definition Revoke (tokenString : string) : M (option domain.error) :=
  let c := RefreshTokenRepository_Revoke tokenString in
  called c;;
  now ← time_Now;
  statement c
    (λ d, (revoke_where (λ r, String.eqb (domain.Token r) tokenString) now d,
           None))
    Some.

Definition RevokeAllByUserID (userID : string) : M (option domain.error) :=
  let c := RefreshTokenRepository_RevokeAllByUserID userID in
  called c;;
  now ← time_Now;
  statement c
    (λ d, (revoke_where (λ r, String.eqb (domain.UserID r) userID) now d,
           None))
    Some.

Definition DeleteExpired : M (option domain.error) :=
  let c := RefreshTokenRepository_DeleteExpired in
  called c;;
  now ← time_Now;
  statement c (λ d, (delete_expired now d, None)) Some.

Definition NewRefreshTokenRepository : repository.RefreshTokenRepository.t :=
  {| repository.RefreshTokenRepository.Create := Create;
     repository.RefreshTokenRepository.FindByToken := FindByToken;
     repository.RefreshTokenRepository.FindByUserID := FindByUserID;
     repository.RefreshTokenRepository.Revoke := Revoke;
     repository.RefreshTokenRepository.RevokeAllByUserID := RevokeAllByUserID;
     repository.RefreshTokenRepository.DeleteExpired := DeleteExpired |}.

End refreshTokenRepository.

(** ** Package usecase *)
Module usecase.

(** Modelled from the spec: the request and response types of
    [dto.go], which is not among the sources; the fields are those the
    use case reads and writes and the token-pair response shape
    [{access_token, refresh_token, token_type, expires_in}]. *)
Record RegisterRequest : Type := {
  RegisterRequest_Email : string;
  RegisterRequest_Password : string;
  RegisterRequest_Name : string
}.

Record LoginRequest : Type := {
  LoginRequest_Email : string;
  LoginRequest_Password : string
}.

Record RefreshTokenRequest : Type := {
  RefreshTokenRequest_RefreshToken : string
}.

Record UserResponse : Type := {
  UserResponse_ID : string;
  UserResponse_Email : string;
  UserResponse_Name : string
}.

Record AuthResponse : Type := {
  AccessToken : string;
  RefreshToken : string;
  TokenType : string;
  ExpiresIn : Z;
  User : UserResponse
}.

Record authUseCase : Type := {
  userRepo : repository.UserRepository.t;
  refreshTokenRepo : repository.RefreshTokenRepository.t;
  jwtManager : jwt.JWTManager
}.

Definition NewAuthUseCase (userRepo : repository.UserRepository.t)
    (refreshTokenRepo : repository.RefreshTokenRepository.t)
    (jwtManager : jwt.JWTManager) : authUseCase :=
  {| userRepo := userRepo;
     refreshTokenRepo := refreshTokenRepo;
     jwtManager := jwtManager |}.

End usecase.

(** ** Methods of usecase.authUseCase *)
Module authUseCase.
Import usecase.

(** [generateTokens]: access token, refresh token, then the new
    refresh-token row. *)
Definition generateTokens (uc : authUseCase) (user : domain.User)
  : M (result AuthResponse) :=
  '(accessToken, err) ←
    JWTManager.GenerateAccessToken (jwtManager uc)
      (domain.User_ID user) (domain.Email user);
  match err with
  | Some err => mret (Err (domain.Errorf "failed to generate access token" err))
  | None =>
  '(refreshTokenString, expiresAt, err) ←
    JWTManager.GenerateRefreshToken (jwtManager uc) (domain.User_ID user);
  match err with
  | Some err => mret (Err (domain.Errorf "failed to generate refresh token" err))
  | None =>
  let refreshToken :=
    {| domain.ID := 0%N;
       domain.UserID := domain.User_ID user;
       domain.Token := refreshTokenString;
       domain.ExpiresAt := expiresAt;
       domain.IsRevoked := false;
       domain.CreatedAt := time.zero;
       domain.UpdatedAt := time.zero |} in
  '(_, err) ←
    repository.RefreshTokenRepository.Create (refreshTokenRepo uc) refreshToken;
  match err with
  | Some err => mret (Err (domain.Errorf "failed to save refresh token" err))
  | None =>
      mret (Ok {| AccessToken := accessToken;
                  RefreshToken := refreshTokenString;
                  TokenType := "Bearer";
                  ExpiresIn :=
                    time.Seconds_int
                      (JWTManager.GetAccessTokenDuration (jwtManager uc));
                  User := {| UserResponse_ID := domain.User_ID user;
                             UserResponse_Email := domain.Email user;
                             UserResponse_Name := domain.Name user |} |})
  end end end.

Definition Register (uc : authUseCase) (req : RegisterRequest)
  : M (result AuthResponse) :=
  existing ← repository.UserRepository.FindByEmail (userRepo uc)
               (RegisterRequest_Email req);
  match existing with
  | Ok _ => mret (Err domain.ErrUserAlreadyExists)
  | Err err =>
  if negb (domain.error_eqb err domain.ErrUserNotFound) then mret (Err err)
  else
  e ← ask;
  match bcrypt_GenerateFromPassword e (RegisterRequest_Password req) with
  | inr text =>
      mret (Err (domain.Errorf "failed to hash password"
                   (domain.library_error text)))
  | inl hashedPassword =>
  let user :=
    {| domain.User_ID := EmptyString;
       domain.Email := RegisterRequest_Email req;
       domain.Password := hashedPassword;
       domain.Name := RegisterRequest_Name req;
       domain.User_CreatedAt := time.zero;
       domain.User_UpdatedAt := time.zero;
       domain.DeletedAt := None |} in
  '(user, err) ← repository.UserRepository.Create (userRepo uc) user;
  match err with
  | Some err => mret (Err (domain.Errorf "failed to create user" err))
  | None => generateTokens uc user
  end end end.

Definition Login (uc : authUseCase) (req : LoginRequest)
  : M (result AuthResponse) :=
  found ← repository.UserRepository.FindByEmail (userRepo uc)
            (LoginRequest_Email req);
  match found with
  | Err err =>
      if domain.error_eqb err domain.ErrUserNotFound
      then mret (Err domain.ErrInvalidCredentials)
      else mret (Err err)
  | Ok user =>
  e ← ask;
  match bcrypt_CompareHashAndPassword e (domain.Password user)
          (LoginRequest_Password req) with
  | Some _ => mret (Err domain.ErrInvalidCredentials)
  | None => generateTokens uc user
  end end.

Definition RefreshToken (uc : authUseCase) (req : RefreshTokenRequest)
  : M (result AuthResponse) :=
  found ← repository.RefreshTokenRepository.FindByToken (refreshTokenRepo uc)
            (RefreshTokenRequest_RefreshToken req);
  match found with
  | Err err =>
      if domain.error_eqb err domain.ErrRefreshTokenNotFound
      then mret (Err domain.ErrInvalidToken)
      else mret (Err err)
  | Ok refreshToken =>
  valid ← RefreshToken.IsValid refreshToken;
  if negb valid then
    if domain.IsRevoked refreshToken
    then mret (Err domain.ErrRefreshTokenRevoked)
    else mret (Err domain.ErrRefreshTokenExpired)
  else
  owner ← repository.UserRepository.FindByID (userRepo uc)
            (domain.UserID refreshToken);
  match owner with
  | Err err => mret (Err err)
  | Ok user =>
  revoked ← repository.RefreshTokenRepository.Revoke (refreshTokenRepo uc)
              (RefreshTokenRequest_RefreshToken req);
  match revoked with
  | Some err =>
      mret (Err (domain.Errorf "failed to revoke old refresh token" err))
  | None => generateTokens uc user
  end end end.

Definition Logout (uc : authUseCase) (refreshToken : string)
  : M (option domain.error) :=
  repository.RefreshTokenRepository.Revoke (refreshTokenRepo uc) refreshToken.

Definition LogoutAll (uc : authUseCase) (userID : string)
  : M (option domain.error) :=
  repository.RefreshTokenRepository.RevokeAllByUserID (refreshTokenRepo uc)
    userID.

Definition ValidateAccessToken (uc : authUseCase) (token : string)
  : M (result jwt.Claims) :=
  r ← JWTManager.ValidateToken (jwtManager uc) token;
  match r with
  | Err _ => mret (Err domain.ErrInvalidToken)
  | Ok claims => mret (Ok claims)
  end.

Definition GetUserByID (uc : authUseCase) (userID : string)
  : M (result UserResponse) :=
  r ← repository.UserRepository.FindByID (userRepo uc) userID;
  match r with
  | Err err => mret (Err err)
  | Ok user =>
      mret (Ok {| UserResponse_ID := domain.User_ID user;
                  UserResponse_Email := domain.Email user;
                  UserResponse_Name := domain.Name user |})
  end.

End authUseCase.

(** The service as wired in [main]: the two database-backed repositories
    and a manager with the configured lifetimes. *)
Definition service (m : jwt.JWTManager) : usecase.authUseCase :=
  usecase.NewAuthUseCase userRepository.NewUserRepository
    refreshTokenRepository.NewRefreshTokenRepository m.

(** ** The service as a transition system on the database *)

(** The requests the handlers pass to the use case. *)
Inductive Request : Type :=
| ReqRegister (req : usecase.RegisterRequest)
| ReqLogin (req : usecase.LoginRequest)
| ReqRefreshToken (req : usecase.RefreshTokenRequest)
| ReqLogout (refreshToken : string)
| ReqLogoutAll (userID : string)
| ReqValidateAccessToken (token : string)
| ReqGetUserByID (userID : string).

(** The database after serving one request in the environment [e]. *)
Definition serve (m : jwt.JWTManager) (r : Request) (e : Env) (d : DB) : DB :=
  match r with
  | ReqRegister req => (run (authUseCase.Register (service m) req) e d).1.2
  | ReqLogin req => (run (authUseCase.Login (service m) req) e d).1.2
  | ReqRefreshToken req =>
      (run (authUseCase.RefreshToken (service m) req) e d).1.2
  | ReqLogout tok => (run (authUseCase.Logout (service m) tok) e d).1.2
  | ReqLogoutAll uid => (run (authUseCase.LogoutAll (service m) uid) e d).1.2
  | ReqValidateAccessToken tok =>
      (run (authUseCase.ValidateAccessToken (service m) tok) e d).1.2
  | ReqGetUserByID uid =>
      (run (authUseCase.GetUserByID (service m) uid) e d).1.2
  end.

Fixpoint serve_all (m : jwt.JWTManager) (rs : list (Request * Env)) (d : DB)
  : DB :=
  match rs with
  | [] => d
  | (r, e) :: rs => serve_all m rs (serve m r e d)
  end.

(** The states of a deployment: those the requests lead to from the
    empty database. *)
Definition reachable (m : jwt.JWTManager) (d : DB) : Prop :=
  ∃ rs, d = serve_all m rs empty_db.

(** The store operations the use case invokes, callable on their own. *)
Inductive StoreCall : Type :=
| StoreUserCreate (user : domain.User)
| StoreUserFindByID (id : string)
| StoreUserFindByEmail (email : string)
| StoreTokenCreate (token : domain.RefreshToken)
| StoreTokenFindByToken (token : string)
| StoreTokenRevoke (token : string)
| StoreTokenRevokeAllByUserID (userID : string).

Definition store (s : StoreCall) (e : Env) (d : DB) : DB :=
  match s with
  | StoreUserCreate user => (run (userRepository.Create user) e d).1.2
  | StoreUserFindByID id => (run (userRepository.FindByID id) e d).1.2
  | StoreUserFindByEmail email =>
      (run (userRepository.FindByEmail email) e d).1.2
  | StoreTokenCreate token =>
      (run (refreshTokenRepository.Create token) e d).1.2
  | StoreTokenFindByToken token =>
      (run (refreshTokenRepository.FindByToken token) e d).1.2
  | StoreTokenRevoke token =>
      (run (refreshTokenRepository.Revoke token) e d).1.2
  | StoreTokenRevokeAllByUserID uid =>
      (run (refreshTokenRepository.RevokeAllByUserID uid) e d).1.2
  end.

Inductive Operation : Type :=
| UseCase (r : Request)
| Store (s : StoreCall).

Definition apply_op (m : jwt.JWTManager) (o : Operation) (e : Env) (d : DB)
  : DB :=
  match o with
  | UseCase r => serve m r e d
  | Store s => store s e d
  end.

Fixpoint apply_ops (m : jwt.JWTManager) (os : list (Operation * Env)) (d : DB)
  : DB :=
  match os with
  | [] => d
  | (o, e) :: os => apply_ops m os (apply_op m o e d)
  end.

(** ** Order of calls in a log *)

#[global] Instance Call_eq_dec : EqDecision Call.
Proof. solve_decision. Defined.

(** The position of the first occurrence of a call. *)
Fixpoint position (c : Call) (tr : list Call) : option nat :=
  match tr with
  | [] => None
  | c' :: tr => if decide (c' = c) then Some 0%nat
                else S <$> position c tr
  end.

(** [precedes a b tr]: both calls are made, [a] before [b]. *)
Definition precedes (a b : Call) (tr : list Call) : bool :=
  match position a tr, position b tr with
  | Some i, Some j => (i <? j)%nat
  | _, _ => false
  end.

(** ** Values the methods build

    Named here so that the statements below can refer to them. *)

(** The row [generateTokens] hands to [Create], once stamped. *)
Definition stamped (now : time.Time) (token : domain.RefreshToken)
  : domain.RefreshToken :=
  {| domain.ID := domain.ID token;
     domain.UserID := domain.UserID token;
     domain.Token := domain.Token token;
     domain.ExpiresAt := domain.ExpiresAt token;
     domain.IsRevoked := domain.IsRevoked token;
     domain.CreatedAt := stamp now (domain.CreatedAt token);
     domain.UpdatedAt := stamp now (domain.UpdatedAt token) |}.

Definition access_claims (m : jwt.JWTManager) (e : Env) (n : nat)
    (userID email : string) : jwt.Claims :=
  {| jwt.UserID := userID;
     jwt.Email := email;
     jwt.ExpiresAt :=
       jwt.NewNumericDate (time.Add (clock e n) (jwt.accessTokenDuration m));
     jwt.IssuedAt := jwt.NewNumericDate (clock e (S n));
     jwt.NotBefore := jwt.NewNumericDate (clock e (S (S n)));
     jwt.Issuer := "auth-service";
     jwt.Subject := userID |}.

Definition new_refresh_token (m : jwt.JWTManager) (e : Env) (n : nat)
    (user : domain.User) (src : nat → byte) : domain.RefreshToken :=
  {| domain.ID := 0%N;
     domain.UserID := domain.User_ID user;
     domain.Token := hex.EncodeToString (map src (seq 0 32));
     domain.ExpiresAt := time.Add (clock e n) (jwt.refreshTokenDuration m);
     domain.IsRevoked := false;
     domain.CreatedAt := time.zero;
     domain.UpdatedAt := time.zero |}.

Definition auth_response (m : jwt.JWTManager) (accessToken refreshToken : string)
    (user : domain.User) : usecase.AuthResponse :=
  {| usecase.AccessToken := accessToken;
     usecase.RefreshToken := refreshToken;
     usecase.TokenType := "Bearer";
     usecase.ExpiresIn := time.Seconds_int (jwt.accessTokenDuration m);
     usecase.User :=
       {| usecase.UserResponse_ID := domain.User_ID user;
          usecase.UserResponse_Email := domain.Email user;
          usecase.UserResponse_Name := domain.Name user |} |}.

(** The entity [userRepository.Create] inserts: the hook has filled in
    the identifier and the time-tracking fields are stamped. *)
Definition prepared_user (e : Env) (now : time.Time) (user : domain.User)
  : domain.User :=
  {| domain.User_ID := if String.eqb (domain.User_ID user) ""
                       then gonanoid_Generate e else domain.User_ID user;
     domain.Email := domain.Email user;
     domain.Password := domain.Password user;
     domain.Name := domain.Name user;
     domain.User_CreatedAt := stamp now (domain.User_CreatedAt user);
     domain.User_UpdatedAt := stamp now (domain.User_UpdatedAt user);
     domain.DeletedAt := domain.DeletedAt user |}.

Definition new_user (hashedPassword : string) (req : usecase.RegisterRequest)
  : domain.User :=
  {| domain.User_ID := EmptyString;
     domain.Email := usecase.RegisterRequest_Email req;
     domain.Password := hashedPassword;
     domain.Name := usecase.RegisterRequest_Name req;
     domain.User_CreatedAt := time.zero;
     domain.User_UpdatedAt := time.zero;
     domain.DeletedAt := None |}.

(** ** Notions used in the statements *)

Definition refresh_request (tok : string) : usecase.RefreshTokenRequest :=
  {| usecase.RefreshTokenRequest_RefreshToken := tok |}.

Definition login_request (email password : string) : usecase.LoginRequest :=
  {| usecase.LoginRequest_Email := email;
     usecase.LoginRequest_Password := password |}.

(** ** Well-formed databases

    What the constraints of the schema and the use case maintain: the
    identifiers of the refresh tokens come from the sequence, every
    refresh token is owned by a live account, and no two refresh tokens
    have the same value. *)
Record wf (d : DB) : Prop := {
  wf_ids : ∀ r, r ∈ refresh_tokens d →
             (domain.ID r <= refresh_tokens_id_seq d)%N;
  wf_owners : ∀ r, r ∈ refresh_tokens d →
                is_Some (user_by_id d (domain.UserID r));
  wf_tokens : NoDup (domain.Token <$> refresh_tokens d)
}.

(** ** How a request changes the database

    Serving a request applies a sequence of statements: revocations,
    insertions of accounts, and insertions of fresh refresh tokens for
    live accounts. *)
Inductive evolves : DB → DB → Prop :=
| evolves_refl d : evolves d d
| evolves_revoke cond now d d' :
    evolves (revoke_where cond now d) d' → evolves d d'
| evolves_user user d d' :
    evolves (insert_user user d).1 d' → evolves d d'
| evolves_token token d d' :
    domain.ID token = 0%N →
    is_Some (user_by_id d (domain.UserID token)) →
    evolves (insert_refresh_token token d).1 d' → evolves d d'.

(** The row the database stores for a new refresh token. *)
Definition inserted_row (token : domain.RefreshToken) (d : DB)
  : domain.RefreshToken :=
  {| domain.ID := N.succ (refresh_tokens_id_seq d);
     domain.UserID := domain.UserID token;
     domain.Token := domain.Token token;
     domain.ExpiresAt := domain.ExpiresAt token;
     domain.IsRevoked := domain.IsRevoked token;
     domain.CreatedAt := domain.CreatedAt token;
     domain.UpdatedAt := domain.UpdatedAt token |}.

(** The calls of a successful RefreshToken, in order. *)
Definition rotation_calls (tok : string) (user : domain.User) (fresh : string)
  : list Call :=
  [RefreshTokenRepository_FindByToken tok;
   UserRepository_FindByID (domain.User_ID user);
   RefreshTokenRepository_Revoke tok;
   JWTManager_GenerateAccessToken (domain.User_ID user) (domain.Email user);
   JWTManager_GenerateRefreshToken (domain.User_ID user);
   RefreshTokenRepository_Create fresh].

(** The database after a successful RefreshToken: the presented record
    revoked, the new record appended.  The clock is read seven times
    during such a call: for the validity check (reading 0), for the
    update time of the revocation (1), three times for the claims of the
    access token (2 to 4), for the expiry of the new refresh token (5)
    and for the time-tracking fields of its row (6). *)
Definition rotated (m : jwt.JWTManager) (e : Env) (tok : string)
    (user : domain.User) (src : nat → byte) (d : DB) : DB :=
  let d1 := revoke_where (λ r, String.eqb (domain.Token r) tok) (clock e 1) d in
  {| users := users d;
     refresh_tokens :=
       refresh_tokens d1
         ++ [inserted_row (stamped (clock e 6) (new_refresh_token m e 5 user src))
               d1];
     refresh_tokens_id_seq := N.succ (refresh_tokens_id_seq d) |}.

(** [persists d d']: every record of [d] is still in [d'] at the same
    place, with the same identifier, value, owner and expiry, and
    revoked if it was revoked. *)
Definition persists (d d' : DB) : Prop :=
  ∀ (i : nat) r, refresh_tokens d !! i = Some r →
    ∃ r', refresh_tokens d' !! i = Some r'
          ∧ domain.ID r' = domain.ID r
          ∧ domain.Token r' = domain.Token r
          ∧ domain.UserID r' = domain.UserID r
          ∧ domain.ExpiresAt r' = domain.ExpiresAt r
          ∧ (domain.IsRevoked r = true → domain.IsRevoked r' = true).

(** ** Sample data

    A manager with the default lifetimes (15 minutes, 7 days),
    environments in which every collaborator answers, and the databases
    of a small scenario: Register at instant 1000, Login at 2000,
    LogoutAll at 3000. *)

Definition sample_manager : jwt.JWTManager :=
  {| jwt.accessTokenDuration := 900 * time.Second;
     jwt.refreshTokenDuration := 604800 * time.Second |}.

Definition sample_byte (n : nat) : byte :=
  match Byte.of_N (N.of_nat n mod 256) with Some b => b | None => x00 end.

(** The clock starts at [start] and advances by a nanosecond per
    reading; the random stream counts up from [seed]; new accounts get
    the identifier [id]. *)
Definition sample_env (start : time.Time) (seed : nat) (id : string) : Env :=
  {| clock := λ k, start + Z.of_nat k;
     db_fault := λ _, None;
     entropy := Some (λ k, sample_byte (seed + k));
     rsa_sign := λ c, inl ("signed:" +:+ jwt.UserID c);
     rsa_verify := λ _, inr "token is malformed";
     bcrypt_GenerateFromPassword := λ p, inl ("bcrypt:" +:+ p);
     bcrypt_CompareHashAndPassword :=
       λ h p, if String.eqb h ("bcrypt:" +:+ p) then None
              else Some "hashedPassword is not the hash of the given password";
     gonanoid_Generate := id |}.

Definition sample_register : usecase.RegisterRequest :=
  {| usecase.RegisterRequest_Email := "a@x.com";
     usecase.RegisterRequest_Password := "pw123456";
     usecase.RegisterRequest_Name := "A" |}.

Definition sample_user : domain.User :=
  {| domain.User_ID := "u1";
     domain.Email := "a@x.com";
     domain.Password := "bcrypt:pw123456";
     domain.Name := "A";
     domain.User_CreatedAt := 1000;
     domain.User_UpdatedAt := 1000;
     domain.DeletedAt := None |}.

Definition sample_token : string :=
  "000102030405060708090a0b0c0d0e0f101112131415161718191a1b1c1d1e1f".

Definition sample_token2 : string :=
  "0102030405060708090a0b0c0d0e0f101112131415161718191a1b1c1d1e1f20".

Definition sample_record : domain.RefreshToken :=
  {| domain.ID := 1;
     domain.UserID := "u1";
     domain.Token := sample_token;
     domain.ExpiresAt := 604800000001004;
     domain.IsRevoked := false;
     domain.CreatedAt := 1005;
     domain.UpdatedAt := 1005 |}.

Definition sample_record2 : domain.RefreshToken :=
  {| domain.ID := 2;
     domain.UserID := "u1";
     domain.Token := sample_token2;
     domain.ExpiresAt := 604800000002003;
     domain.IsRevoked := false;
     domain.CreatedAt := 2004;
     domain.UpdatedAt := 2004 |}.

(** The database after [Register("a@x.com", "pw123456", "A")] at
    instant 1000: one account, one refresh token. *)
Definition sample_db : DB :=
  {| users := [sample_user];
     refresh_tokens := [sample_record];
     refresh_tokens_id_seq := 1 |}.

(** [sample_db] after a Login of the account at instant 2000: two
    active refresh tokens. *)
Definition two_token_db : DB :=
  {| users := [sample_user];
     refresh_tokens := [sample_record; sample_record2];
     refresh_tokens_id_seq := 2 |}.

(** [two_token_db] after LogoutAll of the account at instant 3000. *)
Definition logged_out_db : DB :=
  {| users := [sample_user];
     refresh_tokens :=
       [set_revoked 3000 sample_record; set_revoked 3000 sample_record2];
     refresh_tokens_id_seq := 2 |}.

(** [sample_db] after its account has been deleted through the user
    repository at instant 1500: the refresh token has no live owner any
    more. *)
Definition orphan_db : DB :=
  {| users :=
       [{| domain.User_ID := "u1";
           domain.Email := "a@x.com";
           domain.Password := "bcrypt:pw123456";
           domain.Name := "A";
           domain.User_CreatedAt := 1000;
           domain.User_UpdatedAt := 1000;
           domain.DeletedAt := Some 1500 |}];
     refresh_tokens := [sample_record];
     refresh_tokens_id_seq := 1 |}.

(** A refresh token that expires at instant 100 and an environment whose
    clock reads exactly 100. *)
Definition boundary_token : domain.RefreshToken :=
  {| domain.ID := 1;
     domain.UserID := "u1";
     domain.Token := sample_token;
     domain.ExpiresAt := 100;
     domain.IsRevoked := false;
     domain.CreatedAt := 0;
     domain.UpdatedAt := 0 |}.

Definition boundary_env : Env :=
  {| clock := λ _, 100;
     db_fault := λ _, None;
     entropy := Some (λ k, sample_byte k);
     rsa_sign := λ c, inl ("signed:" +:+ jwt.UserID c);
     rsa_verify := λ _, inr "token is malformed";
     bcrypt_GenerateFromPassword := λ p, inl ("bcrypt:" +:+ p);
     bcrypt_CompareHashAndPassword := λ _ _, None;
     gonanoid_Generate := "u1" |}.


(** ** Package strings *)
Module strings.

(** [strings.Split(s, sep)] for a separator [sep] of one byte, which is
    how the middleware calls it: the pieces of [s] between the
    occurrences of [sep], in order; one piece more than there are
    occurrences, so a string without [sep] (the empty one too) gives
    itself as the only piece. *)
Fixpoint Split (s : string) (sep : ascii) : list string :=
  match s with
  | EmptyString => [EmptyString]
  | String c rest =>
      if Ascii.eqb c sep then EmptyString :: Split rest sep
      else match Split rest sep with
           | [] => [String c EmptyString]
           | piece :: pieces => String c piece :: pieces
           end
  end.

End strings.

(** ** Package fiber: what the handlers use of it *)
Module fiber.

Definition StatusOK : Z := 200.
Definition StatusCreated : Z := 201.
Definition StatusBadRequest : Z := 400.
Definition StatusUnauthorized : Z := 401.
Definition StatusConflict : Z := 409.
Definition StatusInternalServerError : Z := 500.

(** The values the handlers hand to [c.JSON]: [fiber.Map{"error": msg}],
    [fiber.Map{"message": msg}], and the two response types of the use
    case. *)
Inductive Body : Type :=
| Map_error (msg : string)
| Map_message (msg : string)
| AuthResponse (resp : usecase.AuthResponse)
| UserResponse (user : usecase.UserResponse).

(** What a handler has written when it returns. *)
Record Response : Type := {
  StatusCode : Z;
  JSON : Body
}.

(** [*fiber.Ctx] as the handlers see it: the request headers ([c.Get],
    empty when the header is absent), what [c.BodyParser] decodes the
    body to for the request type [A] of the handler ([None] when it
    returns an error), and the locals, in which only strings are
    stored. *)
Record Ctx (A : Type) : Type := {
  Get : string → string;
  BodyParser : option A;
  Locals : gmap string string
}.
Arguments Get {A} c key.
Arguments BodyParser {A} c.
Arguments Locals {A} c.

(** [c.Locals(key, value)]. *)
Definition SetLocals {A : Type} (key value : string) (c : Ctx A) : Ctx A :=
  {| Get := Get c;
     BodyParser := BodyParser c;
     Locals := <[key := value]> (Locals c) |}.

(** [c.Status(code).JSON(body)]; [c.JSON(body)] is the same with
    [StatusOK]. *)
Definition Status_JSON (code : Z) (body : Body) : M Response :=
  mret {| StatusCode := code; JSON := body |}.

(** A handler, and a middleware, which is given the rest of the chain
    ([c.Next]). *)
Definition Handler (A : Type) : Type := Ctx A → M Response.

End fiber.

(** ** Package http: the middleware *)
Module http.

(** [GetUserIDFromContext]: [c.Locals("userID").(string)]. *)
Definition GetUserIDFromContext {A : Type} (c : fiber.Ctx A) : string * bool :=
  match fiber.Locals c !! "userID" with
  | Some userID => (userID, true)
  | None => (EmptyString, false)
  end.

Definition GetEmailFromContext {A : Type} (c : fiber.Ctx A) : string * bool :=
  match fiber.Locals c !! "email" with
  | Some email => (email, true)
  | None => (EmptyString, false)
  end.

Definition AuthMiddleware {A : Type} (authUseCase : usecase.authUseCase)
    (next : fiber.Handler A) : fiber.Handler A := λ c,
  let authHeader := fiber.Get c "Authorization" in
  if String.eqb authHeader "" then
    fiber.Status_JSON fiber.StatusUnauthorized
      (fiber.Map_error "missing authorization header")
  else
  let parts := strings.Split authHeader " " in
  if negb (length parts =? 2)%nat || negb (String.eqb (nth 0 parts "") "Bearer")
  then
    fiber.Status_JSON fiber.StatusUnauthorized
      (fiber.Map_error "invalid authorization header format")
  else
  let token := nth 1 parts "" in
  r ← authUseCase.ValidateAccessToken authUseCase token;
  match r with
  | Err _ =>
      fiber.Status_JSON fiber.StatusUnauthorized
        (fiber.Map_error "invalid or expired token")
  | Ok claims =>
      next (fiber.SetLocals "email" (jwt.Email claims)
              (fiber.SetLocals "userID" (jwt.UserID claims) c))
  end.

(** [AuthHandler]. *)
Record AuthHandler : Type := {
  authUseCase : usecase.authUseCase;
  jwtManager : jwt.JWTManager
}.

Definition NewAuthHandler (authUseCase : usecase.authUseCase)
    (jwtManager : jwt.JWTManager) : AuthHandler :=
  {| authUseCase := authUseCase; jwtManager := jwtManager |}.

End http.

(** ** Methods of http.AuthHandler *)
Module AuthHandler.
Import http.

Definition Register (h : AuthHandler) : fiber.Handler usecase.RegisterRequest :=
  λ c,
  match fiber.BodyParser c with
  | None =>
      fiber.Status_JSON fiber.StatusBadRequest
        (fiber.Map_error "invalid request body")
  | Some req =>
  if String.eqb (usecase.RegisterRequest_Email req) ""
     || String.eqb (usecase.RegisterRequest_Password req) ""
     || String.eqb (usecase.RegisterRequest_Name req) ""
  then
    fiber.Status_JSON fiber.StatusBadRequest
      (fiber.Map_error "email, password, and name are required")
  else
  if (String.length (usecase.RegisterRequest_Password req) <? 8)%nat then
    fiber.Status_JSON fiber.StatusBadRequest
      (fiber.Map_error "password must be at least 8 characters")
  else
  r ← authUseCase.Register (authUseCase h) req;
  match r with
  | Err err =>
      if domain.error_eqb err domain.ErrUserAlreadyExists then
        fiber.Status_JSON fiber.StatusConflict
          (fiber.Map_error "user already exists")
      else
        fiber.Status_JSON fiber.StatusInternalServerError
          (fiber.Map_error "failed to register user")
  | Ok resp => fiber.Status_JSON fiber.StatusCreated (fiber.AuthResponse resp)
  end end.

Definition Login (h : AuthHandler) : fiber.Handler usecase.LoginRequest := λ c,
  match fiber.BodyParser c with
  | None =>
      fiber.Status_JSON fiber.StatusBadRequest
        (fiber.Map_error "invalid request body")
  | Some req =>
  if String.eqb (usecase.LoginRequest_Email req) ""
     || String.eqb (usecase.LoginRequest_Password req) ""
  then
    fiber.Status_JSON fiber.StatusBadRequest
      (fiber.Map_error "email and password are required")
  else
  r ← authUseCase.Login (authUseCase h) req;
  match r with
  | Err err =>
      if domain.error_eqb err domain.ErrInvalidCredentials then
        fiber.Status_JSON fiber.StatusUnauthorized
          (fiber.Map_error "invalid credentials")
      else
        fiber.Status_JSON fiber.StatusInternalServerError
          (fiber.Map_error "failed to login")
  | Ok resp => fiber.Status_JSON fiber.StatusOK (fiber.AuthResponse resp)
  end end.

Definition RefreshToken (h : AuthHandler)
  : fiber.Handler usecase.RefreshTokenRequest := λ c,
  match fiber.BodyParser c with
  | None =>
      fiber.Status_JSON fiber.StatusBadRequest
        (fiber.Map_error "invalid request body")
  | Some req =>
  if String.eqb (usecase.RefreshTokenRequest_RefreshToken req) "" then
    fiber.Status_JSON fiber.StatusBadRequest
      (fiber.Map_error "refresh token is required")
  else
  r ← authUseCase.RefreshToken (authUseCase h) req;
  match r with
  | Err err =>
      if domain.error_eqb err domain.ErrInvalidToken
         || domain.error_eqb err domain.ErrRefreshTokenExpired
         || domain.error_eqb err domain.ErrRefreshTokenRevoked
      then
        fiber.Status_JSON fiber.StatusUnauthorized
          (fiber.Map_error (domain.Error err))
      else
        fiber.Status_JSON fiber.StatusInternalServerError
          (fiber.Map_error "failed to refresh token")
  | Ok resp => fiber.Status_JSON fiber.StatusOK (fiber.AuthResponse resp)
  end end.

Definition Logout (h : AuthHandler)
  : fiber.Handler usecase.RefreshTokenRequest := λ c,
  match fiber.BodyParser c with
  | None =>
      fiber.Status_JSON fiber.StatusBadRequest
        (fiber.Map_error "invalid request body")
  | Some req =>
  if String.eqb (usecase.RefreshTokenRequest_RefreshToken req) "" then
    fiber.Status_JSON fiber.StatusBadRequest
      (fiber.Map_error "refresh token is required")
  else
  err ← authUseCase.Logout (authUseCase h)
          (usecase.RefreshTokenRequest_RefreshToken req);
  match err with
  | Some _ =>
      fiber.Status_JSON fiber.StatusInternalServerError
        (fiber.Map_error "failed to logout")
  | None =>
      fiber.Status_JSON fiber.StatusOK
        (fiber.Map_message "successfully logged out")
  end end.

Definition LogoutAll {A : Type} (h : AuthHandler) : fiber.Handler A := λ c,
  let '(userID, ok) := GetUserIDFromContext c in
  if negb ok then
    fiber.Status_JSON fiber.StatusUnauthorized (fiber.Map_error "unauthorized")
  else
  err ← authUseCase.LogoutAll (authUseCase h) userID;
  match err with
  | Some _ =>
      fiber.Status_JSON fiber.StatusInternalServerError
        (fiber.Map_error "failed to logout from all devices")
  | None =>
      fiber.Status_JSON fiber.StatusOK
        (fiber.Map_message "successfully logged out from all devices")
  end.

Definition GetProfile {A : Type} (h : AuthHandler) : fiber.Handler A := λ c,
  let '(userID, ok) := GetUserIDFromContext c in
  if negb ok then
    fiber.Status_JSON fiber.StatusUnauthorized (fiber.Map_error "unauthorized")
  else
  r ← authUseCase.GetUserByID (authUseCase h) userID;
  match r with
  | Err _ =>
      fiber.Status_JSON fiber.StatusInternalServerError
        (fiber.Map_error "failed to get user profile")
  | Ok user => fiber.Status_JSON fiber.StatusOK (fiber.UserResponse user)
  end.

End AuthHandler.

(** ** The routes

    [SetupRoutes] registers the four public handlers as they are and the
    two protected ones behind [AuthMiddleware].  The recover, logger and
    CORS middleware registered before them hand these requests on as
    they are and are left out, as are the health check and the JWKS
    endpoint, which do not use the use case. *)
Module SetupRoutes.

Definition authHandler (m : jwt.JWTManager) : http.AuthHandler :=
  http.NewAuthHandler (service m) m.

Definition register (m : jwt.JWTManager)
  : fiber.Handler usecase.RegisterRequest :=
  AuthHandler.Register (authHandler m).

Definition login (m : jwt.JWTManager) : fiber.Handler usecase.LoginRequest :=
  AuthHandler.Login (authHandler m).

Definition refresh (m : jwt.JWTManager)
  : fiber.Handler usecase.RefreshTokenRequest :=
  AuthHandler.RefreshToken (authHandler m).

Definition logout (m : jwt.JWTManager)
  : fiber.Handler usecase.RefreshTokenRequest :=
  AuthHandler.Logout (authHandler m).

Definition profile {A : Type} (m : jwt.JWTManager) : fiber.Handler A :=
  http.AuthMiddleware (service m) (AuthHandler.GetProfile (authHandler m)).

Definition logout_all {A : Type} (m : jwt.JWTManager) : fiber.Handler A :=
  http.AuthMiddleware (service m) (AuthHandler.LogoutAll (authHandler m)).

End SetupRoutes.

(** ** Package config

    The process environment ([os.Getenv], read after [godotenv.Load])
    and [time.ParseDuration] are given from outside. *)
Module config.

Record ServerConfig : Type := {
  Server_Port : string;
  Env : string
}.

Record DatabaseConfig : Type := {
  Host : string;
  Port : string;
  User : string;
  Password : string;
  DBName : string;
  SSLMode : string
}.

Record JWTConfig : Type := {
  PrivateKeyPath : string;
  PublicKeyPath : string;
  AccessTokenDuration : time.Duration;
  RefreshTokenDuration : time.Duration
}.

Record Config : Type := {
  Server : ServerConfig;
  Database : DatabaseConfig;
  JWT : JWTConfig
}.

(** [time.Minute]. *)
Definition Minute : time.Duration := 60 * time.Second.

Section Load.

Variable os_Getenv : string → string.
Variable time_ParseDuration : string → option time.Duration.

Definition getEnv (key defaultValue : string) : string :=
  let value := os_Getenv key in
  if negb (String.eqb value "") then value else defaultValue.

Definition parseDuration (value : string) : time.Duration :=
  match time_ParseDuration value with
  | None => 15 * Minute
  | Some duration => duration
  end.

Definition Load : Config :=
  {| Server :=
       {| Server_Port := getEnv "PORT" "3000";
          Env := getEnv "APP_ENV" "development" |};
     Database :=
       {| Host := getEnv "DB_HOST" "localhost";
          Port := getEnv "DB_PORT" "5432";
          User := getEnv "DB_USER" "postgres";
          Password := getEnv "DB_PASSWORD" "postgres";
          DBName := getEnv "DB_NAME" "auth_service";
          SSLMode := getEnv "DB_SSLMODE" "disable" |};
     JWT :=
       {| PrivateKeyPath :=
            getEnv "JWT_PRIVATE_KEY_PATH" "./keys/private_key.pem";
          PublicKeyPath := getEnv "JWT_PUBLIC_KEY_PATH" "./keys/public_key.pem";
          AccessTokenDuration :=
            parseDuration (getEnv "JWT_ACCESS_TOKEN_DURATION" "15m");
          RefreshTokenDuration :=
            parseDuration (getEnv "JWT_REFRESH_TOKEN_DURATION" "168h") |} |}.

End Load.

(** The manager [main] builds from the loaded configuration. *)
Definition manager (cfg : Config) : jwt.JWTManager :=
  {| jwt.accessTokenDuration := AccessTokenDuration (JWT cfg);
     jwt.refreshTokenDuration := RefreshTokenDuration (JWT cfg) |}.

End config.

(** ** Further notions used in the statements *)

(** The refresh-token entity [generateTokens] stores when the clock has
    been read [n] times before it starts. *)
Definition issued_token (m : jwt.JWTManager) (e : Env) (n : nat)
    (user : domain.User) (src : nat → byte) : domain.RefreshToken :=
  stamped (clock e (4 + n)) (new_refresh_token m e (3 + n) user src).

(** The tables after the insertion of a refresh token, and of an
    account. *)
Definition with_token (row : domain.RefreshToken) (d : DB) : DB :=
  {| users := users d;
     refresh_tokens := refresh_tokens d ++ [row];
     refresh_tokens_id_seq := N.succ (refresh_tokens_id_seq d) |}.

Definition with_user (user : domain.User) (d : DB) : DB :=
  {| users := users d ++ [user];
     refresh_tokens := refresh_tokens d;
     refresh_tokens_id_seq := refresh_tokens_id_seq d |}.

(** The account Register inserts. *)
Definition registered_user (e : Env) (hashedPassword : string)
    (req : usecase.RegisterRequest) : domain.User :=
  prepared_user e (clock e 0) (new_user hashedPassword req).

(** The errors of [generateTokens]. *)
Definition token_issue_failure (err : domain.error) : Prop :=
  ∃ inner,
    err = domain.Errorf "failed to generate access token" inner
    ∨ err = domain.Errorf "failed to generate refresh token" inner
    ∨ err = domain.Errorf "failed to save refresh token" inner.

(** The primary key and the unique index of [users]. *)
Definition unique_accounts (d : DB) : Prop :=
  NoDup (domain.User_ID <$> users d) ∧ NoDup (domain.Email <$> users d).

(** An account row once it is soft-deleted at [now]. *)
Definition deleted_at (now : time.Time) (u : domain.User) : domain.User :=
  {| domain.User_ID := domain.User_ID u;
     domain.Email := domain.Email u;
     domain.Password := domain.Password u;
     domain.Name := domain.Name u;
     domain.User_CreatedAt := domain.User_CreatedAt u;
     domain.User_UpdatedAt := domain.User_UpdatedAt u;
     domain.DeletedAt := Some now |}.

(** [no_byte sep s]: the byte [sep] does not occur in [s]. *)
Fixpoint no_byte (sep : ascii) (s : string) : bool :=
  match s with
  | EmptyString => true
  | String c rest => negb (Ascii.eqb c sep) && no_byte sep rest
  end.

(** The context the middleware hands on for verified claims. *)
Definition authenticated {A : Type} (claims : jwt.Claims) (c : fiber.Ctx A)
  : fiber.Ctx A :=
  fiber.SetLocals "email" (jwt.Email claims)
    (fiber.SetLocals "userID" (jwt.UserID claims) c).

(** The world once [ValidateToken] has been called on [token]. *)
Definition validated (token : string) (w : World) : World :=
  {| db := db w;
     reads := reads w;
     trace := trace w ++ [JWTManager_ValidateToken token] |}.

(** The error messages the handlers and the middleware can answer
    with. *)
Definition handler_errors : list string :=
  ["invalid request body";
   "email, password, and name are required";
   "password must be at least 8 characters";
   "user already exists";
   "failed to register user";
   "email and password are required";
   "invalid credentials";
   "failed to login";
   "refresh token is required";
   "invalid token";
   "refresh token expired";
   "refresh token revoked";
   "failed to refresh token";
   "failed to logout";
   "unauthorized";
   "failed to logout from all devices";
   "failed to get user profile";
   "missing authorization header";
   "invalid authorization header format";
   "invalid or expired token"].

(** ** Further sample data *)

(** The answer to the sample registration and the calls it makes. *)
Definition sample_response : usecase.AuthResponse :=
  {| usecase.AccessToken := "signed:u1";
     usecase.RefreshToken := sample_token;
     usecase.TokenType := "Bearer";
     usecase.ExpiresIn := 900;
     usecase.User :=
       {| usecase.UserResponse_ID := "u1";
          usecase.UserResponse_Email := "a@x.com";
          usecase.UserResponse_Name := "A" |} |}.

Definition sample_register_calls : list Call :=
  [UserRepository_FindByEmail "a@x.com";
   UserRepository_Create "a@x.com";
   JWTManager_GenerateAccessToken "u1" "a@x.com";
   JWTManager_GenerateRefreshToken "u1";
   RefreshTokenRepository_Create sample_token].

(** The answer to the sample login at instant 2000 and its calls. *)
Definition sample_response2 : usecase.AuthResponse :=
  {| usecase.AccessToken := "signed:u1";
     usecase.RefreshToken := sample_token2;
     usecase.TokenType := "Bearer";
     usecase.ExpiresIn := 900;
     usecase.User :=
       {| usecase.UserResponse_ID := "u1";
          usecase.UserResponse_Email := "a@x.com";
          usecase.UserResponse_Name := "A" |} |}.

Definition sample_login_calls : list Call :=
  [UserRepository_FindByEmail "a@x.com";
   JWTManager_GenerateAccessToken "u1" "a@x.com";
   JWTManager_GenerateRefreshToken "u1";
   RefreshTokenRepository_Create sample_token2].

(** An environment like [sample_env] whose signer fails. *)
Definition unsigned_env (start : time.Time) (seed : nat) (id : string) : Env :=
  {| clock := λ k, start + Z.of_nat k;
     db_fault := λ _, None;
     entropy := Some (λ k, sample_byte (seed + k));
     rsa_sign := λ _, inr "crypto/rsa: message too long for RSA key size";
     rsa_verify := λ _, inr "token is malformed";
     bcrypt_GenerateFromPassword := λ p, inl ("bcrypt:" +:+ p);
     bcrypt_CompareHashAndPassword :=
       λ h p, if String.eqb h ("bcrypt:" +:+ p) then None
              else Some "hashedPassword is not the hash of the given password";
     gonanoid_Generate := id |}.

Definition signing_failure : domain.error :=
  domain.Errorf "failed to generate access token"
    (domain.library_error "crypto/rsa: message too long for RSA key size").

(** The database after a Register at instant 1000 whose signer failed:
    the account without a refresh token. *)
Definition account_only_db : DB :=
  {| users := [sample_user];
     refresh_tokens := [];
     refresh_tokens_id_seq := 0 |}.

(** [sample_db] after a RefreshToken at instant 2000 whose signer
    failed: the presented token revoked, none issued. *)
Definition burned_db : DB :=
  {| users := [sample_user];
     refresh_tokens := [set_revoked 2001 sample_record];
     refresh_tokens_id_seq := 1 |}.

(** [sample_db] when its refresh token has expired and a second one,
    not yet expired, has been revoked: the state before a sweep at
    instant 604800000001005. *)
Definition stale_db : DB :=
  {| users := [sample_user];
     refresh_tokens := [sample_record; set_revoked 3000 sample_record2];
     refresh_tokens_id_seq := 2 |}.

(** [stale_db] after [DeleteExpired] at that instant. *)
Definition swept_db : DB :=
  {| users := [sample_user];
     refresh_tokens := [set_revoked 3000 sample_record2];
     refresh_tokens_id_seq := 2 |}.

Definition sample_claims : jwt.Claims :=
  {| jwt.UserID := "u1";
     jwt.Email := "a@x.com";
     jwt.ExpiresAt := 2900000000000;
     jwt.IssuedAt := 2000000000000;
     jwt.NotBefore := 2000000000000;
     jwt.Issuer := "auth-service";
     jwt.Subject := "u1" |}.

(** An environment like [sample_env] whose verifier accepts the access
    token [signed:u1] with [sample_claims]. *)
Definition verifying_env (start : time.Time) (seed : nat) (id : string) : Env :=
  {| clock := λ k, start + Z.of_nat k;
     db_fault := λ _, None;
     entropy := Some (λ k, sample_byte (seed + k));
     rsa_sign := λ c, inl ("signed:" +:+ jwt.UserID c);
     rsa_verify := λ t, if String.eqb t "signed:u1" then inl sample_claims
                        else inr "token is malformed";
     bcrypt_GenerateFromPassword := λ p, inl ("bcrypt:" +:+ p);
     bcrypt_CompareHashAndPassword :=
       λ h p, if String.eqb h ("bcrypt:" +:+ p) then None
              else Some "hashedPassword is not the hash of the given password";
     gonanoid_Generate := id |}.

(** A request with the given [Authorization] header and no body. *)
Definition bearer_request (header : string) : fiber.Ctx unit :=
  {| fiber.Get := λ key, if String.eqb key "Authorization" then header
                         else EmptyString;
     fiber.BodyParser := None;
     fiber.Locals := ∅ |}.

(** A request whose body decodes to [req], without headers. *)
Definition body_request {A : Type} (req : A) : fiber.Ctx A :=
  {| fiber.Get := λ _, EmptyString;
     fiber.BodyParser := Some req;
     fiber.Locals := ∅ |}.

Definition short_password_register : usecase.RegisterRequest :=
  {| usecase.RegisterRequest_Email := "b@x.com";
     usecase.RegisterRequest_Password := "pw12345";
     usecase.RegisterRequest_Name := "B" |}.

(** A process environment in which only [JWT_REFRESH_TOKEN_DURATION] is
    set, to [7d], and a parser that knows the two defaults and refuses
    the unit [d], as [time.ParseDuration] does. *)
Definition sample_getenv (key : string) : string :=
  if String.eqb key "JWT_REFRESH_TOKEN_DURATION" then "7d" else EmptyString.

Definition sample_ParseDuration (value : string) : option time.Duration :=
  if String.eqb value "15m" then Some (15 * config.Minute)
  else if String.eqb value "168h" then Some (168 * (60 * config.Minute))
  else None.

(** * Properties *)

(** ** The seconds of a duration

    For a whole number of seconds [int(d.Seconds())] is that number; for
    other durations the two roundings of [Seconds] can carry the result
    to the next second. *)

Lemma float64_round_integer (n : Z) :
  0 <= n < 2 ^ 53 →
  (time.float64_round n 1).1 / (time.float64_round n 1).2 = n
  ∧ (time.float64_round n 1).1 = n * (time.float64_round n 1).2
  ∧ 0 < (time.float64_round n 1).2.
Proof.
  intros [Hn0 Hn]. unfold time.float64_round.
  destruct (Z.leb_spec n 0) as [Hle|Hpos].
  { assert (n = 0) as -> by lia. vm_compute. repeat split; reflexivity. }
  pose proof (Z.log2_spec n Hpos) as [Hlo Hhi].
  pose proof (Z.log2_nonneg n) as Hl0.
  assert (Hl : Z.log2 n < 53).
  { apply Z.log2_lt_pow2; lia. }
  change (Z.log2 1) with 0. rewrite Z.sub_0_r.
  set (k0 := Z.log2 n - 52).
  assert (Hscaled : (if 0 <=? k0 then (n, 1 * 2 ^ k0) else (n * 2 ^ (- k0), 1))
                    = (n * 2 ^ (- k0), 1)).
  { destruct (Z.leb_spec 0 k0); [|reflexivity].
    assert (k0 = 0) as -> by lia. cbn. f_equal. lia. }
  cbv zeta. rewrite Hscaled. cbn [fst snd]. rewrite Z.div_1_r.
  assert (Hge : 2 ^ 52 <= n * 2 ^ (- k0)).
  { replace (2 ^ 52) with (2 ^ Z.log2 n * 2 ^ (- k0)).
    - apply Z.mul_le_mono_nonneg_r; [apply Z.pow_nonneg|]; lia.
    - rewrite <- Z.pow_add_r by lia. f_equal. lia. }
  destruct (Z.ltb_spec (n * 2 ^ (- k0)) (2 ^ 52)); [lia|].
  rewrite Hscaled. cbn [fst snd]. rewrite Z.div_1_r, Z.mod_1_r.
  change (2 * 0 <? 1) with true. cbv iota.
  assert (Hp : 0 < 2 ^ (- k0)) by (apply Z.pow_pos_nonneg; lia).
  destruct (Z.leb_spec 0 k0).
  - assert (k0 = 0) as Hk by lia. rewrite Hk. cbn [fst snd Z.opp Z.pow Z.pow_pos Pos.iter].
    rewrite !Z.mul_1_r, Z.div_1_r. lia.
  - cbn [fst snd]. rewrite Z.div_mul by lia. lia.
Qed.

Lemma Seconds_int_whole_seconds (n : Z) :
  0 <= n < 2 ^ 53 → time.Seconds_int (n * time.Second) = n.
Proof.
  intros Hn. unfold time.Seconds_int, time.Seconds.
  destruct (Z.eq_dec n 0) as [->|Hne]; [reflexivity|].
  assert (Hpos : 0 < n * time.Second) by (unfold time.Second; lia).
  rewrite Z.abs_eq by lia. rewrite Z.sgn_pos by lia.
  rewrite Z.div_mul by (unfold time.Second; lia).
  rewrite Z.mod_mul by (unfold time.Second; lia).
  change (time.float64_round 0 1000000000) with (0, 1).
  cbn [fst snd]. rewrite Z.mul_1_r, Z.add_0_r, Z.mul_1_l.
  by destruct (float64_round_integer n Hn) as (-> & _).
Qed.

Example Seconds_int_rounds_up :
  time.Seconds_int 33554432999999999 = 33554433
  ∧ 33554432999999999 / time.Second = 33554432.
Proof. split; vm_compute; reflexivity. Qed.

Example Seconds_int_negative : time.Seconds_int (-1500000000) = -1.
Proof. vm_compute. reflexivity. Qed.

(** ** The hexadecimal codec *)

Lemma index_is_hex_hi (v : byte) :
  hex.is_hex_digit (hex.index (N.shiftr (Byte.to_N v) 4)) = true.
Proof. destruct v; vm_compute; reflexivity. Qed.

Lemma index_is_hex_lo (v : byte) :
  hex.is_hex_digit (hex.index (N.land (Byte.to_N v) 15)) = true.
Proof. destruct v; vm_compute; reflexivity. Qed.

Lemma EncodeToString_length (src : list byte) :
  String.length (hex.EncodeToString src) = (2 * length src)%nat.
Proof. induction src as [|v src IH]; simpl; [reflexivity | rewrite IH; lia]. Qed.

Lemma EncodeToString_all_hex (src : list byte) :
  hex.all_hex (hex.EncodeToString src) = true.
Proof.
  induction src as [|v src IH]; [reflexivity|].
  cbn [hex.EncodeToString hex.all_hex].
  by rewrite index_is_hex_hi, index_is_hex_lo, IH.
Qed.

Lemma decode_byte (v : byte) :
  match hex.fromHexChar (hex.index (N.shiftr (Byte.to_N v) 4)),
        hex.fromHexChar (hex.index (N.land (Byte.to_N v) 15)) with
  | Some hi, Some lo => Byte.of_N (N.lor (N.shiftl hi 4) lo) = Some v
  | _, _ => False
  end.
Proof. destruct v; vm_compute; reflexivity. Qed.

(** Decoding reads an encoding back: no two byte strings share one. *)
Lemma DecodeString_EncodeToString (src : list byte) :
  hex.DecodeString (hex.EncodeToString src) = Some src.
Proof.
  induction src as [|v src IH]; [reflexivity|].
  cbn [hex.EncodeToString hex.DecodeString]. rewrite IH.
  pose proof (decode_byte v) as Hv.
  destruct (hex.fromHexChar _) as [hi|]; [|contradiction].
  destruct (hex.fromHexChar _) as [lo|]; [|contradiction].
  by rewrite Hv.
Qed.

Lemma EncodeToString_inj (a b : list byte) :
  hex.EncodeToString a = hex.EncodeToString b → a = b.
Proof.
  intros H. apply (f_equal hex.DecodeString) in H.
  rewrite !DecodeString_EncodeToString in H. congruence.
Qed.

(** ** What one call of each method returns and leaves behind *)

Ltac munfold :=
  cbv beta iota zeta delta
    [mbind M_bind mret M_ret ask get_db put_db time_Now called rand_Read
     statement gorm_First].

Lemma statement_run {A : Type} (c : Call) (stmt : DB → DB * A)
    (failure : domain.error → A) (e : Env) (w : World) :
  statement c stmt failure e w =
  match db_fault e c with
  | Some text => (failure (domain.library_error text), w)
  | None => ((stmt (db w)).2, Build_World (stmt (db w)).1 (reads w) (trace w))
  end.
Proof.
  munfold. destruct (db_fault e c); [reflexivity|].
  destruct (stmt (db w)); reflexivity.
Qed.

Lemma FindByToken_run (tok : string) (e : Env) (w : World) :
  refreshTokenRepository.FindByToken tok e w =
  (match db_fault e (RefreshTokenRepository_FindByToken tok) with
   | Some text => Err (domain.library_error text)
   | None => match token_by_value (db w) tok with
             | Some row => Ok row
             | None => Err domain.ErrRefreshTokenNotFound
             end
   end,
   Build_World (db w) (reads w)
     (trace w ++ [RefreshTokenRepository_FindByToken tok])).
Proof.
  unfold refreshTokenRepository.FindByToken. munfold. cbn [db reads trace].
  destruct (db_fault e _); [reflexivity|].
  destruct (token_by_value _ _); reflexivity.
Qed.

Lemma FindByID_run (id : string) (e : Env) (w : World) :
  userRepository.FindByID id e w =
  (match db_fault e (UserRepository_FindByID id) with
   | Some text => Err (domain.library_error text)
   | None => match user_by_id (db w) id with
             | Some row => Ok row
             | None => Err domain.ErrUserNotFound
             end
   end,
   Build_World (db w) (reads w) (trace w ++ [UserRepository_FindByID id])).
Proof.
  unfold userRepository.FindByID. munfold. cbn [db reads trace].
  destruct (db_fault e _); [reflexivity|].
  destruct (user_by_id _ _); reflexivity.
Qed.

Lemma FindByEmail_run (email : string) (e : Env) (w : World) :
  userRepository.FindByEmail email e w =
  (match db_fault e (UserRepository_FindByEmail email) with
   | Some text => Err (domain.library_error text)
   | None => match user_by_email (db w) email with
             | Some row => Ok row
             | None => Err domain.ErrUserNotFound
             end
   end,
   Build_World (db w) (reads w) (trace w ++ [UserRepository_FindByEmail email])).
Proof.
  unfold userRepository.FindByEmail. munfold. cbn [db reads trace].
  destruct (db_fault e _); [reflexivity|].
  destruct (user_by_email _ _); reflexivity.
Qed.

Lemma Revoke_run (tok : string) (e : Env) (w : World) :
  refreshTokenRepository.Revoke tok e w =
  match db_fault e (RefreshTokenRepository_Revoke tok) with
  | Some text =>
      (Some (domain.library_error text),
       Build_World (db w) (S (reads w))
         (trace w ++ [RefreshTokenRepository_Revoke tok]))
  | None =>
      (None,
       Build_World
         (revoke_where (λ r, String.eqb (domain.Token r) tok)
            (clock e (reads w)) (db w))
         (S (reads w)) (trace w ++ [RefreshTokenRepository_Revoke tok]))
  end.
Proof.
  unfold refreshTokenRepository.Revoke. munfold. cbn [db reads trace].
  destruct (db_fault e _); reflexivity.
Qed.

Lemma RevokeAllByUserID_run (uid : string) (e : Env) (w : World) :
  refreshTokenRepository.RevokeAllByUserID uid e w =
  match db_fault e (RefreshTokenRepository_RevokeAllByUserID uid) with
  | Some text =>
      (Some (domain.library_error text),
       Build_World (db w) (S (reads w))
         (trace w ++ [RefreshTokenRepository_RevokeAllByUserID uid]))
  | None =>
      (None,
       Build_World
         (revoke_where (λ r, String.eqb (domain.UserID r) uid)
            (clock e (reads w)) (db w))
         (S (reads w))
         (trace w ++ [RefreshTokenRepository_RevokeAllByUserID uid]))
  end.
Proof.
  unfold refreshTokenRepository.RevokeAllByUserID. munfold.
  cbn [db reads trace].
  destruct (db_fault e _); reflexivity.
Qed.

Lemma token_Create_run (token : domain.RefreshToken) (e : Env) (w : World) :
  refreshTokenRepository.Create token e w =
  let c := RefreshTokenRepository_Create (domain.Token token) in
  let token' := stamped (clock e (reads w)) token in
  match db_fault e c with
  | Some text =>
      ((token', Some (domain.library_error text)),
       Build_World (db w) (S (reads w)) (trace w ++ [c]))
  | None =>
      ((insert_refresh_token token' (db w)).2,
       Build_World (insert_refresh_token token' (db w)).1 (S (reads w))
         (trace w ++ [c]))
  end.
Proof.
  unfold refreshTokenRepository.Create, stamped. munfold. cbn [db reads trace].
  destruct (db_fault e _); [reflexivity|].
  destruct (insert_refresh_token _ _); reflexivity.
Qed.

Lemma GenerateAccessToken_run m userID email e w :
  JWTManager.GenerateAccessToken m userID email e w =
  (match rsa_sign e (access_claims m e (reads w) userID email) with
   | inl signed => (signed, None)
   | inr text => (EmptyString, Some (domain.library_error text))
   end,
   Build_World (db w) (S (S (S (reads w))))
     (trace w ++ [JWTManager_GenerateAccessToken userID email])).
Proof. reflexivity. Qed.

Lemma GenerateRefreshToken_run m uid e w :
  JWTManager.GenerateRefreshToken m uid e w =
  match entropy e with
  | Some src =>
      (hex.EncodeToString (map src (seq 0 32)),
       time.Add (clock e (reads w)) (jwt.refreshTokenDuration m), None,
       Build_World (db w) (S (reads w))
         (trace w ++ [JWTManager_GenerateRefreshToken uid]))
  | None =>
      (EmptyString, time.zero,
       Some (domain.Errorf "failed to generate random token"
               (domain.library_error "crypto/rand: read failed")),
       Build_World (db w) (reads w)
         (trace w ++ [JWTManager_GenerateRefreshToken uid]))
  end.
Proof.
  unfold JWTManager.GenerateRefreshToken. munfold. cbn [db reads trace].
  destruct (entropy e); reflexivity.
Qed.

Lemma generateTokens_run m user e w :
  authUseCase.generateTokens (service m) user e w =
  let n := reads w in
  let uid := domain.User_ID user in
  let tr1 := trace w ++ [JWTManager_GenerateAccessToken uid (domain.Email user)] in
  match rsa_sign e (access_claims m e n uid (domain.Email user)) with
  | inr text =>
      (Err (domain.Errorf "failed to generate access token"
              (domain.library_error text)),
       Build_World (db w) (3 + n) tr1)
  | inl accessToken =>
      let tr2 := tr1 ++ [JWTManager_GenerateRefreshToken uid] in
      match entropy e with
      | None =>
          (Err (domain.Errorf "failed to generate refresh token"
                  (domain.Errorf "failed to generate random token"
                     (domain.library_error "crypto/rand: read failed"))),
           Build_World (db w) (3 + n) tr2)
      | Some src =>
          let token := new_refresh_token m e (3 + n) user src in
          let c := RefreshTokenRepository_Create (domain.Token token) in
          let token' := stamped (clock e (4 + n)) token in
          match db_fault e c with
          | Some text =>
              (Err (domain.Errorf "failed to save refresh token"
                      (domain.library_error text)),
               Build_World (db w) (5 + n) (tr2 ++ [c]))
          | None =>
              let ins := insert_refresh_token token' (db w) in
              (match ins.2.2 with
               | Some err =>
                   Err (domain.Errorf "failed to save refresh token" err)
               | None =>
                   Ok (auth_response m accessToken (domain.Token token) user)
               end,
               Build_World ins.1 (5 + n) (tr2 ++ [c]))
          end
      end
  end.
Proof.
  unfold authUseCase.generateTokens.
  cbv beta iota zeta delta [mbind M_bind mret M_ret service usecase.NewAuthUseCase
    usecase.jwtManager usecase.refreshTokenRepo
    repository.RefreshTokenRepository.Create
    refreshTokenRepository.NewRefreshTokenRepository].
  cbv zeta. unfold new_refresh_token. cbn [Nat.add domain.Token].
  rewrite GenerateAccessToken_run.
  destruct (rsa_sign e _) as [accessToken|text]; [|reflexivity].
  rewrite GenerateRefreshToken_run. cbn [db reads trace].
  destruct (entropy e) as [src|]; [|reflexivity].
  rewrite token_Create_run. cbn [db reads trace domain.Token].
  destruct (db_fault e _) as [text|]; [reflexivity|].
  cbv zeta.
  match goal with |- context [insert_refresh_token ?t ?d] =>
    destruct (insert_refresh_token t d) as [d' [row [err|]]] end;
  reflexivity.
Qed.

Ltac service_unfold :=
  cbv beta iota zeta delta
    [mbind M_bind mret M_ret ask service usecase.NewAuthUseCase
     usecase.jwtManager usecase.refreshTokenRepo usecase.userRepo
     repository.RefreshTokenRepository.Create
     repository.RefreshTokenRepository.FindByToken
     repository.RefreshTokenRepository.Revoke
     repository.RefreshTokenRepository.RevokeAllByUserID
     repository.UserRepository.Create
     repository.UserRepository.FindByID
     repository.UserRepository.FindByEmail
     refreshTokenRepository.NewRefreshTokenRepository
     userRepository.NewUserRepository
     usecase.RefreshTokenRequest_RefreshToken
     usecase.LoginRequest_Email usecase.LoginRequest_Password
     usecase.RegisterRequest_Email usecase.RegisterRequest_Password
     usecase.RegisterRequest_Name].

Lemma RefreshToken_run m tok e w :
  authUseCase.RefreshToken (service m)
    {| usecase.RefreshTokenRequest_RefreshToken := tok |} e w =
  let c1 := RefreshTokenRepository_FindByToken tok in
  let tr1 := trace w ++ [c1] in
  match db_fault e c1 with
  | Some text => (Err (domain.library_error text), Build_World (db w) (reads w) tr1)
  | None =>
  match token_by_value (db w) tok with
  | None => (Err domain.ErrInvalidToken, Build_World (db w) (reads w) tr1)
  | Some rt =>
  if domain.IsRevoked rt
  then (Err domain.ErrRefreshTokenRevoked, Build_World (db w) (S (reads w)) tr1)
  else if time.After (clock e (reads w)) (domain.ExpiresAt rt)
  then (Err domain.ErrRefreshTokenExpired, Build_World (db w) (S (reads w)) tr1)
  else
  let c2 := UserRepository_FindByID (domain.UserID rt) in
  let tr2 := tr1 ++ [c2] in
  match db_fault e c2 with
  | Some text =>
      (Err (domain.library_error text), Build_World (db w) (S (reads w)) tr2)
  | None =>
  match user_by_id (db w) (domain.UserID rt) with
  | None => (Err domain.ErrUserNotFound, Build_World (db w) (S (reads w)) tr2)
  | Some user =>
  let c3 := RefreshTokenRepository_Revoke tok in
  let tr3 := tr2 ++ [c3] in
  match db_fault e c3 with
  | Some text =>
      (Err (domain.Errorf "failed to revoke old refresh token"
              (domain.library_error text)),
       Build_World (db w) (S (S (reads w))) tr3)
  | None =>
      authUseCase.generateTokens (service m) user e
        (Build_World
           (revoke_where (λ r, String.eqb (domain.Token r) tok)
              (clock e (S (reads w))) (db w))
           (S (S (reads w))) tr3)
  end end end end end.
Proof.
  unfold authUseCase.RefreshToken. service_unfold.
  rewrite FindByToken_run.
  destruct (db_fault e (RefreshTokenRepository_FindByToken tok)); [reflexivity|].
  destruct (token_by_value (db w) tok) as [rt|]; [|reflexivity].
  cbn [domain.error_eqb]. unfold RefreshToken.IsValid, RefreshToken.IsExpired.
  cbv beta iota zeta delta [mbind M_bind mret M_ret time_Now].
  cbn [db reads trace].
  destruct (domain.IsRevoked rt).
  { rewrite andb_false_r. reflexivity. }
  rewrite andb_true_r.
  destruct (time.After _ _); [reflexivity|]. cbn [negb].
  rewrite FindByID_run. cbn [db reads trace].
  destruct (db_fault e (UserRepository_FindByID _)); [reflexivity|].
  destruct (user_by_id _ _) as [user|]; [|reflexivity].
  rewrite Revoke_run. cbn [db reads trace].
  destruct (db_fault e (RefreshTokenRepository_Revoke tok)); reflexivity.
Qed.

Lemma user_Create_run (user : domain.User) (e : Env) (w : World) :
  userRepository.Create user e w =
  let c := UserRepository_Create (domain.Email user) in
  let user' := prepared_user e (clock e (reads w)) user in
  match db_fault e c with
  | Some text =>
      ((user', Some (domain.library_error text)),
       Build_World (db w) (S (reads w)) (trace w ++ [c]))
  | None =>
      ((user', (insert_user user' (db w)).2),
       Build_World (insert_user user' (db w)).1 (S (reads w)) (trace w ++ [c]))
  end.
Proof.
  unfold userRepository.Create, userRepository.BeforeCreate, prepared_user.
  destruct (String.eqb (domain.User_ID user) ""); munfold;
    cbn [db reads trace domain.User_ID domain.Email domain.Password domain.Name
         domain.User_CreatedAt domain.User_UpdatedAt domain.DeletedAt];
    destruct (db_fault e _); try reflexivity;
    destruct (insert_user _ _); reflexivity.
Qed.

Lemma Login_run m email password e w :
  authUseCase.Login (service m)
    {| usecase.LoginRequest_Email := email;
       usecase.LoginRequest_Password := password |} e w =
  let c := UserRepository_FindByEmail email in
  let w1 := Build_World (db w) (reads w) (trace w ++ [c]) in
  match db_fault e c with
  | Some text => (Err (domain.library_error text), w1)
  | None =>
  match user_by_email (db w) email with
  | None => (Err domain.ErrInvalidCredentials, w1)
  | Some user =>
  match bcrypt_CompareHashAndPassword e (domain.Password user) password with
  | Some _ => (Err domain.ErrInvalidCredentials, w1)
  | None => authUseCase.generateTokens (service m) user e w1
  end end end.
Proof.
  unfold authUseCase.Login. service_unfold.
  rewrite FindByEmail_run.
  destruct (db_fault e _); [reflexivity|].
  destruct (user_by_email _ _) as [user|]; [|reflexivity].
  destruct (bcrypt_CompareHashAndPassword e _ _); reflexivity.
Qed.

Lemma Register_run m req e w :
  authUseCase.Register (service m) req e w =
  let email := usecase.RegisterRequest_Email req in
  let c := UserRepository_FindByEmail email in
  let w1 := Build_World (db w) (reads w) (trace w ++ [c]) in
  match db_fault e c with
  | Some text => (Err (domain.library_error text), w1)
  | None =>
  match user_by_email (db w) email with
  | Some _ => (Err domain.ErrUserAlreadyExists, w1)
  | None =>
  match bcrypt_GenerateFromPassword e (usecase.RegisterRequest_Password req) with
  | inr text =>
      (Err (domain.Errorf "failed to hash password" (domain.library_error text)),
       w1)
  | inl hashedPassword =>
  let c2 := UserRepository_Create email in
  let user := prepared_user e (clock e (reads w)) (new_user hashedPassword req) in
  let tr2 := (trace w ++ [c]) ++ [c2] in
  match db_fault e c2 with
  | Some text =>
      (Err (domain.Errorf "failed to create user" (domain.library_error text)),
       Build_World (db w) (S (reads w)) tr2)
  | None =>
  let w2 := Build_World (insert_user user (db w)).1 (S (reads w)) tr2 in
  match (insert_user user (db w)).2 with
  | Some err => (Err (domain.Errorf "failed to create user" err), w2)
  | None => authUseCase.generateTokens (service m) user e w2
  end end end end end.
Proof.
  unfold authUseCase.Register. service_unfold.
  rewrite FindByEmail_run.
  destruct (db_fault e (UserRepository_FindByEmail _)); [reflexivity|].
  destruct (user_by_email _ _) as [user|]; [reflexivity|].
  cbn [domain.error_eqb negb].
  destruct (bcrypt_GenerateFromPassword e _) as [hashed|text]; [|reflexivity].
  rewrite user_Create_run. cbn [db reads trace domain.Email].
  unfold new_user at 1. cbn [domain.Email].
  destruct (db_fault e (UserRepository_Create _)); [reflexivity|].
  cbv zeta. fold (new_user hashed req).
  destruct (insert_user _ _) as [d' [err|]]; reflexivity.
Qed.

Lemma Logout_run m tok e w :
  authUseCase.Logout (service m) tok e w = refreshTokenRepository.Revoke tok e w.
Proof. reflexivity. Qed.

Lemma LogoutAll_run m uid e w :
  authUseCase.LogoutAll (service m) uid e w =
  refreshTokenRepository.RevokeAllByUserID uid e w.
Proof. reflexivity. Qed.

(** ** The sample scenario *)

Example sample_db_served :
  serve sample_manager (ReqRegister sample_register) (sample_env 1000 0 "u1")
    empty_db = sample_db.
Proof. vm_compute. reflexivity. Qed.

Example two_token_db_served :
  serve sample_manager (ReqLogin (login_request "a@x.com" "pw123456"))
    (sample_env 2000 1 "u2") sample_db = two_token_db.
Proof. vm_compute. reflexivity. Qed.

Example logged_out_db_served :
  serve sample_manager (ReqLogoutAll "u1") (sample_env 3000 2 "u3")
    two_token_db = logged_out_db.
Proof. vm_compute. reflexivity. Qed.

Example orphan_db_deleted :
  (run (userRepository.Delete "u1") (sample_env 1500 0 "u1") sample_db).1.2
  = orphan_db.
Proof. vm_compute. reflexivity. Qed.

Lemma sample_db_reachable : reachable sample_manager sample_db.
Proof.
  exists [(ReqRegister sample_register, sample_env 1000 0 "u1")].
  symmetry. exact sample_db_served.
Qed.

(** ** Validity of a refresh-token record *)

Lemma IsValid_run (rt : domain.RefreshToken) (e : Env) (w : World) :
  RefreshToken.IsValid rt e w =
  (negb (time.After (clock e (reads w)) (domain.ExpiresAt rt))
     && negb (domain.IsRevoked rt),
   Build_World (db w) (S (reads w)) (trace w)).
Proof. reflexivity. Qed.

(** C2, as amended: [IsValid] returns true exactly when the record is
    not revoked and the instant read from the clock is not after
    [ExpiresAt]; at the instant of expiry itself the record is still
    valid. *)
Theorem IsValid_iff (rt : domain.RefreshToken) (e : Env) (w : World) :
  (RefreshToken.IsValid rt e w).1 = true
  ↔ domain.IsRevoked rt = false ∧ clock e (reads w) <= domain.ExpiresAt rt.
Proof.
  rewrite IsValid_run. cbn [fst]. unfold time.After.
  rewrite andb_true_iff, !negb_true_iff, Z.ltb_ge. tauto.
Qed.

(** C2, as stated, fails when the clock reads exactly [ExpiresAt]: the
    record is reported valid although [now < ExpiresAt] does not
    hold. *)
Lemma IsValid_at_expiry_counterexample :
  clock boundary_env 0 = domain.ExpiresAt boundary_token
  ∧ (run (RefreshToken.IsValid boundary_token) boundary_env empty_db).1.1 = true
  ∧ ¬ ((run (RefreshToken.IsValid boundary_token) boundary_env empty_db).1.1
         = true
       ↔ domain.IsRevoked boundary_token = false
         ∧ clock boundary_env 0 < domain.ExpiresAt boundary_token).
Proof.
  split; [reflexivity|]. split; [reflexivity|].
  intros [H _]. specialize (H eq_refl) as [_ H]. vm_compute in H. discriminate.
Qed.

(** ** Generation of refresh tokens *)

(** C9: a refresh token generated without error is the hexadecimal
    encoding of the 32 bytes read from the random source, 64 characters
    of [0-9a-f] from which the bytes can be read back, and its expiry
    is the instant read from the clock plus the configured refresh
    lifetime. *)
Theorem GenerateRefreshToken_token (m : jwt.JWTManager) (userID : string)
    (e : Env) (w w' : World) (tokenString : string) (expiresAt : time.Time) :
  JWTManager.GenerateRefreshToken m userID e w
    = (tokenString, expiresAt, None, w') →
  ∃ src : nat → byte,
    let tokenBytes := map src (seq 0 32) in
    entropy e = Some src
    ∧ length tokenBytes = 32%nat
    ∧ tokenString = hex.EncodeToString tokenBytes
    ∧ hex.DecodeString tokenString = Some tokenBytes
    ∧ String.length tokenString = 64%nat
    ∧ hex.all_hex tokenString = true
    ∧ expiresAt = clock e (reads w) + jwt.refreshTokenDuration m.
Proof.
  rewrite GenerateRefreshToken_run.
  destruct (entropy e) as [src|]; [|discriminate].
  intros H. exists src. cbv zeta.
  assert (tokenString = hex.EncodeToString (map src (seq 0 32))) as ->
    by congruence.
  assert (expiresAt = clock e (reads w) + jwt.refreshTokenDuration m) as ->
    by (unfold time.Add in H; congruence).
  clear H.
  split; [reflexivity|].
  split; [by rewrite length_map, length_seq|].
  split; [reflexivity|].
  split; [apply DecodeString_EncodeToString|].
  split; [by rewrite EncodeToString_length, length_map, length_seq|].
  split; [apply EncodeToString_all_hex | reflexivity].
Qed.

Lemma GenerateRefreshToken_token_witness :
  ∃ src : nat → byte,
    let tokenBytes := map src (seq 0 32) in
    entropy (sample_env 1000 0 "u1") = Some src
    ∧ length tokenBytes = 32%nat
    ∧ sample_token = hex.EncodeToString tokenBytes
    ∧ hex.DecodeString sample_token = Some tokenBytes
    ∧ String.length sample_token = 64%nat
    ∧ hex.all_hex sample_token = true
    ∧ 604800000001000
      = clock (sample_env 1000 0 "u1") 0
        + jwt.refreshTokenDuration sample_manager.
Proof.
  apply (GenerateRefreshToken_token sample_manager "u1" (sample_env 1000 0 "u1")
           (Build_World empty_db 0 [])
           (Build_World empty_db 1 [JWTManager_GenerateRefreshToken "u1"])).
  vm_compute. reflexivity.
Defined.

(** Whenever the random source can be read, generation succeeds. *)
Lemma GenerateRefreshToken_succeeds (m : jwt.JWTManager) (userID : string)
    (e : Env) (w : World) (src : nat → byte) :
  entropy e = Some src →
  (JWTManager.GenerateRefreshToken m userID e w).1
  = (hex.EncodeToString (map src (seq 0 32)),
     clock e (reads w) + jwt.refreshTokenDuration m, None).
Proof. intros H. rewrite GenerateRefreshToken_run, H. reflexivity. Qed.

(** ** Runs from a database state *)

Lemma run_unfold {A : Type} (c : M A) (e : Env) (d : DB) :
  run c e d =
  ((c e (Build_World d 0 [])).1,
   db (c e (Build_World d 0 [])).2,
   trace (c e (Build_World d 0 [])).2).
Proof. unfold run. destruct (c e _); reflexivity. Qed.

(** ** Login *)

(** C3: Login answers an unknown email and a wrong password for a known
    account with the same error value, [ErrInvalidCredentials]; in both
    runs the database is left as it was and the same single call is
    made. *)
Theorem Login_unknown_account_and_wrong_password_alike
    (m : jwt.JWTManager) (email password : string)
    (e1 e2 : Env) (d1 d2 : DB) (user : domain.User) :
  db_fault e1 (UserRepository_FindByEmail email) = None →
  user_by_email d1 email = None →
  db_fault e2 (UserRepository_FindByEmail email) = None →
  user_by_email d2 email = Some user →
  bcrypt_CompareHashAndPassword e2 (domain.Password user) password ≠ None →
  let login := authUseCase.Login (service m) (login_request email password) in
  run login e1 d1
    = (Err domain.ErrInvalidCredentials, d1, [UserRepository_FindByEmail email])
  ∧ run login e2 d2
    = (Err domain.ErrInvalidCredentials, d2, [UserRepository_FindByEmail email])
  ∧ (run login e1 d1).1.1 = (run login e2 d2).1.1.
Proof.
  intros Hf1 Hnone Hf2 Hsome Hpw login.
  assert (H1 : run login e1 d1
               = (Err domain.ErrInvalidCredentials, d1,
                  [UserRepository_FindByEmail email])).
  { subst login. rewrite run_unfold. unfold login_request.
    rewrite Login_run. cbn [db reads trace].
    rewrite Hf1, Hnone. reflexivity. }
  assert (H2 : run login e2 d2
               = (Err domain.ErrInvalidCredentials, d2,
                  [UserRepository_FindByEmail email])).
  { subst login. rewrite run_unfold. unfold login_request.
    rewrite Login_run. cbn [db reads trace].
    rewrite Hf2, Hsome.
    destruct (bcrypt_CompareHashAndPassword e2 _ _); [reflexivity|done]. }
  rewrite H1, H2. done.
Qed.

Lemma Login_unknown_account_and_wrong_password_alike_witness :
  let login :=
    authUseCase.Login (service sample_manager)
      (login_request "a@x.com" "guess") in
  run login (sample_env 2000 1 "u2") empty_db
    = (Err domain.ErrInvalidCredentials, empty_db,
       [UserRepository_FindByEmail "a@x.com"])
  ∧ run login (sample_env 2000 1 "u2") sample_db
    = (Err domain.ErrInvalidCredentials, sample_db,
       [UserRepository_FindByEmail "a@x.com"])
  ∧ (run login (sample_env 2000 1 "u2") empty_db).1.1
    = (run login (sample_env 2000 1 "u2") sample_db).1.1.
Proof.
  apply (Login_unknown_account_and_wrong_password_alike sample_manager
           "a@x.com" "guess" (sample_env 2000 1 "u2") (sample_env 2000 1 "u2")
           empty_db sample_db sample_user);
    [reflexivity | reflexivity | reflexivity | reflexivity | discriminate].
Defined.

(** ** RefreshToken: the failures *)


(** Conversely, when the lookups are answered, each of the three error
    values tells which of the three situations the store was in. *)
Lemma RefreshToken_failure_kinds_tell_apart (m : jwt.JWTManager) (e : Env)
    (d : DB) (tok : string) :
  db_fault e (RefreshTokenRepository_FindByToken tok) = None →
  (∀ id, db_fault e (UserRepository_FindByID id) = None) →
  let result :=
    (run (authUseCase.RefreshToken (service m) (refresh_request tok)) e d).1.1 in
  (result = Err domain.ErrInvalidToken → token_by_value d tok = None)
  ∧ (result = Err domain.ErrRefreshTokenRevoked →
     ∃ rt, token_by_value d tok = Some rt ∧ domain.IsRevoked rt = true)
  ∧ (result = Err domain.ErrRefreshTokenExpired →
     ∃ rt, token_by_value d tok = Some rt ∧ domain.IsRevoked rt = false
           ∧ domain.ExpiresAt rt < clock e 0).
Proof.
  intros Hf Hid result. subst result. rewrite run_unfold. cbn [fst].
  unfold refresh_request.
  rewrite RefreshToken_run. cbn [db reads trace app]. rewrite Hf.
  assert (Hother : ∀ (x : result usecase.AuthResponse * World) rt,
            x.1 ≠ Err domain.ErrInvalidToken →
            x.1 ≠ Err domain.ErrRefreshTokenRevoked →
            x.1 ≠ Err domain.ErrRefreshTokenExpired →
            (x.1 = Err domain.ErrInvalidToken → Some rt = None)
            ∧ (x.1 = Err domain.ErrRefreshTokenRevoked →
               ∃ rt', Some rt = Some rt' ∧ domain.IsRevoked rt' = true)
            ∧ (x.1 = Err domain.ErrRefreshTokenExpired →
               ∃ rt', Some rt = Some rt' ∧ domain.IsRevoked rt' = false
                      ∧ domain.ExpiresAt rt' < clock e 0)).
  { intros x rt H1 H2 H3. repeat split; intros; contradiction. }
  destruct (token_by_value d tok) as [rt|].
  2:{ cbn [fst]. repeat split; intros; discriminate || reflexivity. }
  destruct (domain.IsRevoked rt) eqn:Hrev.
  { cbn [fst]. repeat split; intros; try discriminate. eauto. }
  unfold time.After. destruct (Z.ltb_spec (domain.ExpiresAt rt) (clock e 0)).
  { cbn [fst]. repeat split; intros; try discriminate. eauto. }
  rewrite Hid.
  destruct (user_by_id d _) as [user|]; [|(apply Hother; cbn [fst]; discriminate)].
  destruct (db_fault e (RefreshTokenRepository_Revoke tok));
    [(apply Hother; cbn [fst]; discriminate)|].
  rewrite generateTokens_run. cbv zeta.
  destruct (rsa_sign e _); [|(apply Hother; cbn [fst]; discriminate)].
  destruct (entropy e); [|(apply Hother; cbn [fst]; discriminate)].
  destruct (db_fault e (RefreshTokenRepository_Create _));
    [(apply Hother; cbn [fst]; discriminate)|].
  destruct (insert_refresh_token _ _) as [d2 [row [err|]]];
    (apply Hother; cbn [fst]; discriminate).
Qed.



(** C10: an error that arises before the revocation step leaves the
    database exactly as it was.  That is so when the presented value is
    not found or its lookup fails, when the record is revoked, when it
    is expired, and when the lookup of the owning account fails or finds
    no live account; in each case [Revoke] has not been called, the
    account lookup coming before it. *)
Theorem RefreshToken_failure_before_revocation (m : jwt.JWTManager) (e : Env)
    (d : DB) (tok : string) :
  let out :=
    run (authUseCase.RefreshToken (service m) (refresh_request tok)) e d in
  let find := RefreshTokenRepository_FindByToken tok in
  (∀ text, db_fault e find = Some text →
     out = (Err (domain.library_error text), d, [find]))
  ∧ (db_fault e find = None → token_by_value d tok = None →
     out = (Err domain.ErrInvalidToken, d, [find]))
  ∧ (∀ rt, db_fault e find = None → token_by_value d tok = Some rt →
       domain.IsRevoked rt = true →
       out = (Err domain.ErrRefreshTokenRevoked, d, [find]))
  ∧ (∀ rt, db_fault e find = None → token_by_value d tok = Some rt →
       domain.IsRevoked rt = false → domain.ExpiresAt rt < clock e 0 →
       out = (Err domain.ErrRefreshTokenExpired, d, [find]))
  ∧ (∀ rt text, db_fault e find = None → token_by_value d tok = Some rt →
       domain.IsRevoked rt = false → clock e 0 <= domain.ExpiresAt rt →
       db_fault e (UserRepository_FindByID (domain.UserID rt)) = Some text →
       out = (Err (domain.library_error text), d,
              [find; UserRepository_FindByID (domain.UserID rt)]))
  ∧ (∀ rt, db_fault e find = None → token_by_value d tok = Some rt →
       domain.IsRevoked rt = false → clock e 0 <= domain.ExpiresAt rt →
       db_fault e (UserRepository_FindByID (domain.UserID rt)) = None →
       user_by_id d (domain.UserID rt) = None →
       out = (Err domain.ErrUserNotFound, d,
              [find; UserRepository_FindByID (domain.UserID rt)])).
Proof.
  intros out find. subst out find. rewrite run_unfold. unfold refresh_request.
  rewrite RefreshToken_run. cbn [db reads trace app]. unfold time.After.
  repeat split.
  - intros text ->. reflexivity.
  - intros -> ->. reflexivity.
  - intros rt -> -> ->. reflexivity.
  - intros rt -> -> -> Hexp. apply Z.ltb_lt in Hexp. rewrite Hexp. reflexivity.
  - intros rt text -> -> -> Hexp ->. apply Z.ltb_ge in Hexp. rewrite Hexp.
    reflexivity.
  - intros rt -> -> -> Hexp -> ->. apply Z.ltb_ge in Hexp. rewrite Hexp.
    reflexivity.
Qed.

Lemma RefreshToken_failure_before_revocation_witness :
  run (authUseCase.RefreshToken (service sample_manager)
         (refresh_request sample_token)) (sample_env 2000 1 "u2") orphan_db
  = (Err domain.ErrUserNotFound, orphan_db,
     [RefreshTokenRepository_FindByToken sample_token;
      UserRepository_FindByID "u1"])
  ∧ token_by_value orphan_db sample_token = Some sample_record.
Proof.
  split; [|reflexivity].
  apply (RefreshToken_failure_before_revocation sample_manager
           (sample_env 2000 1 "u2") orphan_db sample_token)
    with (rt := sample_record); try reflexivity.
  vm_compute. discriminate.
Defined.

(** ** The statements on the tables *)

Lemma find_is_Some {A : Type} (f : A → bool) (l : list A) (x : A) :
  In x l → f x = true → is_Some (List.find f l).
Proof.
  intros Hin Hf. destruct (List.find f l) eqn:E; [eauto|].
  rewrite (find_none f l E x Hin) in Hf. discriminate.
Qed.

Lemma find_app_Some {A : Type} (f : A → bool) (l l' : list A) (x : A) :
  List.find f l = Some x → List.find f (l ++ l') = Some x.
Proof.
  induction l as [|a l IH]; [discriminate|]. cbn.
  destruct (f a); [done | exact IH].
Qed.

Lemma find_app_None {A : Type} (f : A → bool) (l l' : list A) :
  List.find f l = None → List.find f (l ++ l') = List.find f l'.
Proof.
  induction l as [|a l IH]; [done|]. cbn.
  destruct (f a); [discriminate | exact IH].
Qed.

Lemma find_existsb {A : Type} (f : A → bool) (l : list A) :
  existsb f l = match List.find f l with Some _ => true | None => false end.
Proof.
  induction l as [|a l IH]; [done|]. cbn. destruct (f a); [done | exact IH].
Qed.

Lemma revoke_row_Token cond now r :
  domain.Token (revoke_row cond now r) = domain.Token r.
Proof. unfold revoke_row. destruct (cond r); reflexivity. Qed.

Lemma revoke_row_UserID cond now r :
  domain.UserID (revoke_row cond now r) = domain.UserID r.
Proof. unfold revoke_row. destruct (cond r); reflexivity. Qed.

Lemma revoke_row_ID cond now r :
  domain.ID (revoke_row cond now r) = domain.ID r.
Proof. unfold revoke_row. destruct (cond r); reflexivity. Qed.

Lemma revoke_row_ExpiresAt cond now r :
  domain.ExpiresAt (revoke_row cond now r) = domain.ExpiresAt r.
Proof. unfold revoke_row. destruct (cond r); reflexivity. Qed.

Lemma revoke_row_IsRevoked cond now r :
  domain.IsRevoked (revoke_row cond now r) = cond r || domain.IsRevoked r.
Proof. unfold revoke_row. destruct (cond r); reflexivity. Qed.

Lemma revoke_where_rows cond now d :
  refresh_tokens (revoke_where cond now d)
  = map (revoke_row cond now) (refresh_tokens d).
Proof. reflexivity. Qed.

Lemma revoke_where_lookup cond now d (i : nat) :
  refresh_tokens (revoke_where cond now d) !! i
  = revoke_row cond now <$> refresh_tokens d !! i.
Proof. rewrite revoke_where_rows. apply list_lookup_fmap. Qed.

Lemma token_by_value_revoke_where cond now d tok :
  token_by_value (revoke_where cond now d) tok
  = revoke_row cond now <$> token_by_value d tok.
Proof.
  unfold token_by_value. rewrite revoke_where_rows.
  induction (refresh_tokens d) as [|r l IH]; [done|]. cbn.
  rewrite revoke_row_Token. destruct (String.eqb _ _); [done | exact IH].
Qed.

Lemma wf_empty : wf empty_db.
Proof.
  split; cbn; [intros r Hr; inversion Hr .. | constructor].
Qed.

Lemma token_by_value_None d tok :
  token_by_value d tok = None ↔ tok ∉ (domain.Token <$> refresh_tokens d).
Proof.
  unfold token_by_value. induction (refresh_tokens d) as [|r l IH]; cbn.
  - split; [intros _ H; inversion H | done].
  - rewrite not_elem_of_cons. destruct (String.eqb_spec (domain.Token r) tok).
    + split; [discriminate | intros [? _]; congruence].
    + rewrite IH. split; [intros; split; congruence | tauto].
Qed.

Lemma token_by_value_Some d tok r :
  token_by_value d tok = Some r → r ∈ refresh_tokens d ∧ domain.Token r = tok.
Proof.
  intros H. apply find_some in H as [Hin Heq].
  split; [by apply list_elem_of_In | by apply String.eqb_eq].
Qed.

(** With unique values, the lookup of a stored record's value finds that
    record. *)
Lemma token_by_value_stored d r :
  NoDup (domain.Token <$> refresh_tokens d) → r ∈ refresh_tokens d →
  token_by_value d (domain.Token r) = Some r.
Proof.
  unfold token_by_value. induction (refresh_tokens d) as [|a l IH]; cbn.
  - intros _ H. inversion H.
  - rewrite NoDup_cons. intros [Hnotin Hnd] Hin.
    apply elem_of_cons in Hin as [->|Hin].
    + by rewrite String.eqb_refl.
    + destruct (String.eqb_spec (domain.Token a) (domain.Token r)) as [E|_].
      * exfalso. apply Hnotin. rewrite E. by apply list_elem_of_fmap_2.
      * by apply IH.
Qed.

Lemma user_by_id_Some d id u :
  user_by_id d id = Some u →
  u ∈ users d ∧ domain.User_ID u = id ∧ domain.DeletedAt u = None.
Proof.
  intros H. apply find_some in H as [Hin Hc].
  apply andb_true_iff in Hc as [Hid Hlive].
  split; [by apply list_elem_of_In|]. split; [by apply String.eqb_eq|].
  unfold live in Hlive. by destruct (domain.DeletedAt u).
Qed.

Lemma user_by_email_Some d email u :
  user_by_email d email = Some u →
  u ∈ users d ∧ domain.Email u = email ∧ domain.DeletedAt u = None.
Proof.
  intros H. apply find_some in H as [Hin Hc].
  apply andb_true_iff in Hc as [Hid Hlive].
  split; [by apply list_elem_of_In|]. split; [by apply String.eqb_eq|].
  unfold live in Hlive. by destruct (domain.DeletedAt u).
Qed.

Lemma user_by_id_live d u :
  u ∈ users d → domain.DeletedAt u = None →
  is_Some (user_by_id d (domain.User_ID u)).
Proof.
  intros Hin Hlive. apply (find_is_Some _ _ u); [by apply list_elem_of_In|].
  unfold live. by rewrite String.eqb_refl, Hlive.
Qed.

Lemma wf_revoke_where cond now d : wf d → wf (revoke_where cond now d).
Proof.
  intros [Hids Howners Htokens]. split.
  - intros r. rewrite revoke_where_rows, list_elem_of_fmap.
    intros (r0 & -> & Hr0). rewrite revoke_row_ID. by apply Hids.
  - intros r. rewrite revoke_where_rows, list_elem_of_fmap.
    intros (r0 & -> & Hr0). rewrite revoke_row_UserID. by apply Howners.
  - rewrite revoke_where_rows, <- list_fmap_compose.
    erewrite list_fmap_ext; [exact Htokens|].
    intros i r _. apply revoke_row_Token.
Qed.

Lemma insert_user_shape user d :
  (insert_user user d).1 = d
  ∨ ((insert_user user d).2 = None
     ∧ (insert_user user d).1
       = {| users := users d ++ [user];
            refresh_tokens := refresh_tokens d;
            refresh_tokens_id_seq := refresh_tokens_id_seq d |}).
Proof.
  unfold insert_user.
  destruct (existsb _ _); [by left|]. destruct (existsb _ _); [by left|].
  by right.
Qed.

Lemma insert_user_failed user d err :
  (insert_user user d).2 = Some err → (insert_user user d).1 = d.
Proof.
  unfold insert_user.
  destruct (existsb _ _); [done|]. destruct (existsb _ _); done.
Qed.

Lemma insert_user_ok user d :
  (insert_user user d).2 = None →
  (insert_user user d).1
  = {| users := users d ++ [user];
       refresh_tokens := refresh_tokens d;
       refresh_tokens_id_seq := refresh_tokens_id_seq d |}.
Proof.
  unfold insert_user.
  destruct (existsb _ _); [done|]. destruct (existsb _ _); done.
Qed.

Lemma wf_add_user d user :
  wf d →
  wf {| users := users d ++ [user];
        refresh_tokens := refresh_tokens d;
        refresh_tokens_id_seq := refresh_tokens_id_seq d |}.
Proof.
  intros [Hids Howners Htokens]. split; cbn; [done | | done].
  intros r Hr. destruct (Howners r Hr) as [u Hu].
  exists u. unfold user_by_id in *. cbn. by apply find_app_Some.
Qed.

Lemma wf_insert_user user d : wf d → wf (insert_user user d).1.
Proof.
  intros Hwf. destruct (insert_user_shape user d) as [->|[_ ->]]; [done|].
  by apply wf_add_user.
Qed.

Lemma wf_insert_refresh_token token d :
  wf d → domain.ID token = 0%N →
  is_Some (user_by_id d (domain.UserID token)) →
  wf (insert_refresh_token token d).1.
Proof.
  intros [Hids Howners Htokens] Hid Howner. unfold insert_refresh_token.
  rewrite Hid. cbn [N.eqb domain.ID domain.Token domain.UserID].
  assert (Hfail : wf {| users := users d; refresh_tokens := refresh_tokens d;
                        refresh_tokens_id_seq :=
                          N.succ (refresh_tokens_id_seq d) |}).
  { split; cbn; [|done..]. intros r Hr. specialize (Hids r Hr). lia. }
  destruct (existsb _ _); [exact Hfail|].
  destruct (existsb _ _) eqn:Etok; [exact Hfail|].
  destruct (negb _); [exact Hfail|]. cbn [fst].
  split; cbn.
  - intros r [Hr | ->%list_elem_of_singleton]%elem_of_app.
    + specialize (Hids r Hr). lia.
    + cbn. lia.
  - intros r [Hr | ->%list_elem_of_singleton]%elem_of_app.
    + by apply Howners.
    + exact Howner.
  - rewrite fmap_app. apply NoDup_app. split; [done|].
    split; [|cbn; apply NoDup_singleton].
    intros tok Htok ->%list_elem_of_singleton.
    rewrite find_existsb in Etok. fold (token_by_value d (domain.Token token)) in Etok.
    destruct (token_by_value d (domain.Token token)) eqn:E; [discriminate|].
    by apply token_by_value_None in E.
Qed.

Lemma wf_evolves d d' : evolves d d' → wf d → wf d'.
Proof.
  induction 1 as [d | cond now d d' _ IH | user d d' _ IH
                  | token d d' Hid Howner _ IH]; intros Hwf.
  - exact Hwf.
  - apply IH. by apply wf_revoke_where.
  - apply IH. by apply wf_insert_user.
  - apply IH. by apply wf_insert_refresh_token.
Qed.

Lemma generateTokens_evolves m user e w :
  is_Some (user_by_id (db w) (domain.User_ID user)) →
  evolves (db w) (db (authUseCase.generateTokens (service m) user e w).2).
Proof.
  intros Howner. rewrite generateTokens_run. cbv zeta.
  destruct (rsa_sign e _); [|apply evolves_refl].
  destruct (entropy e); [|apply evolves_refl].
  destruct (db_fault e _); [apply evolves_refl|]. cbn [snd db].
  eapply evolves_token; [| |apply evolves_refl]; [reflexivity | exact Howner].
Qed.

Lemma RefreshToken_evolves m req e w :
  evolves (db w) (db (authUseCase.RefreshToken (service m) req e w).2).
Proof.
  destruct req as [tok]. rewrite RefreshToken_run. cbv zeta.
  destruct (db_fault e _); [apply evolves_refl|].
  destruct (token_by_value _ _) as [rt|]; [|apply evolves_refl].
  destruct (domain.IsRevoked rt); [apply evolves_refl|].
  destruct (time.After _ _); [apply evolves_refl|].
  destruct (db_fault e _); [apply evolves_refl|].
  destruct (user_by_id _ _) as [user|] eqn:Huser; [|apply evolves_refl].
  destruct (db_fault e _); [apply evolves_refl|].
  apply (evolves_revoke (λ r, String.eqb (domain.Token r) tok)
           (clock e (S (reads w)))).
  apply (generateTokens_evolves m user e (Build_World _ _ _)). cbn [db].
  pose proof (user_by_id_Some _ _ _ Huser) as (_ & -> & _).
  unfold user_by_id in *. cbn [users revoke_where]. by rewrite Huser.
Qed.

Lemma Login_evolves m req e w :
  evolves (db w) (db (authUseCase.Login (service m) req e w).2).
Proof.
  destruct req as [email password]. rewrite Login_run. cbv zeta.
  destruct (db_fault e _); [apply evolves_refl|].
  destruct (user_by_email _ _) as [user|] eqn:Huser; [|apply evolves_refl].
  destruct (bcrypt_CompareHashAndPassword e _ _); [apply evolves_refl|].
  apply (generateTokens_evolves m user e (Build_World _ _ _)). cbn [db].
  apply user_by_email_Some in Huser as (Hin & _ & Hlive).
  by apply user_by_id_live.
Qed.

Lemma Register_evolves m req e w :
  evolves (db w) (db (authUseCase.Register (service m) req e w).2).
Proof.
  rewrite Register_run. cbv zeta.
  destruct (db_fault e _); [apply evolves_refl|].
  destruct (user_by_email _ _); [apply evolves_refl|].
  destruct (bcrypt_GenerateFromPassword e _) as [hashed|]; [|apply evolves_refl].
  destruct (db_fault e _); [apply evolves_refl|].
  set (user := prepared_user e _ _).
  apply (evolves_user user).
  destruct (insert_user user (db w)).2 eqn:Hins; [apply evolves_refl|].
  apply (generateTokens_evolves m user e (Build_World _ _ _)).
  change (is_Some (user_by_id (insert_user user (db w)).1 (domain.User_ID user))).
  rewrite (insert_user_ok _ _ Hins).
  apply user_by_id_live; cbn; [apply elem_of_app; right; by left | done].
Qed.

Lemma serve_evolves m r e d : evolves d (serve m r e d).
Proof.
  destruct r as [req|req|req|tok|uid|tok|uid]; unfold serve;
    rewrite run_unfold; cbn [fst snd].
  - apply (Register_evolves m req e (Build_World d 0 [])).
  - apply (Login_evolves m req e (Build_World d 0 [])).
  - apply (RefreshToken_evolves m req e (Build_World d 0 [])).
  - rewrite Logout_run, Revoke_run. cbn [db reads].
    destruct (db_fault e _); [apply evolves_refl|].
    eapply evolves_revoke, evolves_refl.
  - rewrite LogoutAll_run, RevokeAllByUserID_run. cbn [db reads].
    destruct (db_fault e _); [apply evolves_refl|].
    eapply evolves_revoke, evolves_refl.
  - unfold authUseCase.ValidateAccessToken, JWTManager.ValidateToken.
    service_unfold. munfold.
    destruct (rsa_verify e tok); apply evolves_refl.
  - unfold authUseCase.GetUserByID. service_unfold. rewrite FindByID_run.
    destruct (db_fault e _); [apply evolves_refl|].
    destruct (user_by_id _ _); apply evolves_refl.
Qed.

(** Every reachable database is well formed. *)
Lemma serve_all_wf m rs d : wf d → wf (serve_all m rs d).
Proof.
  revert d. induction rs as [|[r e] rs IH]; intros d Hwf; [exact Hwf|].
  cbn. apply IH. eapply wf_evolves; [apply serve_evolves | exact Hwf].
Qed.

Lemma reachable_wf m d : reachable m d → wf d.
Proof. intros [rs ->]. apply serve_all_wf, wf_empty. Qed.

(** ** Revocation is final *)

Lemma persists_refl d : persists d d.
Proof. intros i r Hi. exists r. done. Qed.

Lemma persists_trans d1 d2 d3 : persists d1 d2 → persists d2 d3 → persists d1 d3.
Proof.
  intros H12 H23 i r Hi.
  destruct (H12 i r Hi) as (r2 & Hi2 & ? & ? & ? & ? & Hrev2).
  destruct (H23 i r2 Hi2) as (r3 & Hi3 & ? & ? & ? & ? & Hrev3).
  exists r3. repeat split; try congruence. auto.
Qed.

Lemma persists_same_rows d d' :
  refresh_tokens d' = refresh_tokens d → persists d d'.
Proof. intros H i r Hi. exists r. rewrite H. done. Qed.

Lemma persists_revoke_where cond now d : persists d (revoke_where cond now d).
Proof.
  intros i r Hi. exists (revoke_row cond now r).
  rewrite revoke_where_lookup, Hi.
  rewrite revoke_row_ID, revoke_row_Token, revoke_row_UserID,
    revoke_row_ExpiresAt, revoke_row_IsRevoked.
  repeat split. intros ->. apply orb_true_r.
Qed.

Lemma persists_insert_user user d : persists d (insert_user user d).1.
Proof.
  apply persists_same_rows.
  destruct (insert_user_shape user d) as [->|[_ ->]]; reflexivity.
Qed.

Lemma persists_insert_refresh_token token d :
  persists d (insert_refresh_token token d).1.
Proof.
  unfold insert_refresh_token.
  destruct (existsb _ _); [by apply persists_same_rows|].
  destruct (existsb _ _); [by apply persists_same_rows|].
  destruct (negb _); [by apply persists_same_rows|].
  intros i r Hi. exists r. cbn. rewrite lookup_app_l; [done|].
  by eapply lookup_lt_Some.
Qed.

Lemma persists_evolves d d' : evolves d d' → persists d d'.
Proof.
  induction 1 as [d | cond now d d' _ IH | user d d' _ IH
                  | token d d' _ _ _ IH].
  - apply persists_refl.
  - eapply persists_trans; [apply persists_revoke_where | exact IH].
  - eapply persists_trans; [apply persists_insert_user | exact IH].
  - eapply persists_trans; [apply persists_insert_refresh_token | exact IH].
Qed.

Lemma persists_store s e d : persists d (store s e d).
Proof.
  destruct s as [user|id|email|token|tok|tok|uid]; unfold store;
    rewrite run_unfold; cbn [fst snd].
  - rewrite user_Create_run. cbv zeta.
    destruct (db_fault e _); [apply persists_refl|]. apply persists_insert_user.
  - rewrite FindByID_run. apply persists_refl.
  - rewrite FindByEmail_run. apply persists_refl.
  - rewrite token_Create_run. cbv zeta.
    destruct (db_fault e _); [apply persists_refl|].
    apply persists_insert_refresh_token.
  - rewrite FindByToken_run. apply persists_refl.
  - rewrite Revoke_run.
    destruct (db_fault e _); [apply persists_refl|]. apply persists_revoke_where.
  - rewrite RevokeAllByUserID_run.
    destruct (db_fault e _); [apply persists_refl|]. apply persists_revoke_where.
Qed.

Lemma persists_apply_op m o e d : persists d (apply_op m o e d).
Proof.
  destruct o as [r|s]; [apply persists_evolves, serve_evolves|].
  apply persists_store.
Qed.

Lemma persists_apply_ops m os d : persists d (apply_ops m os d).
Proof.
  revert d. induction os as [|[o e] os IH]; intros d; [apply persists_refl|].
  cbn. eapply persists_trans; [apply persists_apply_op | apply IH].
Qed.

(** C6: whatever use-case methods and store operations are run, in
    whatever environments and from whatever database, a record that is
    revoked stays in its place, keeps its identifier, value, owner and
    expiry, and stays revoked. *)
Theorem revoked_stays_revoked (m : jwt.JWTManager)
    (os : list (Operation * Env)) (d : DB) (i : nat) (r : domain.RefreshToken) :
  refresh_tokens d !! i = Some r →
  domain.IsRevoked r = true →
  ∃ r', refresh_tokens (apply_ops m os d) !! i = Some r'
        ∧ domain.IsRevoked r' = true
        ∧ domain.ID r' = domain.ID r
        ∧ domain.Token r' = domain.Token r
        ∧ domain.UserID r' = domain.UserID r
        ∧ domain.ExpiresAt r' = domain.ExpiresAt r.
Proof.
  intros Hi Hrev.
  destruct (persists_apply_ops m os d i r Hi) as (r' & Hi' & ? & ? & ? & ? & H).
  exists r'. auto 10.
Qed.

Lemma revoked_stays_revoked_witness :
  ∃ r',
    refresh_tokens
      (apply_ops sample_manager
         [(UseCase (ReqLogin (login_request "a@x.com" "pw123456")),
           sample_env 4000 3 "u4");
          (UseCase (ReqRefreshToken (refresh_request sample_token)),
           sample_env 5000 4 "u5");
          (Store (StoreTokenCreate sample_record), sample_env 6000 5 "u6");
          (UseCase (ReqLogout sample_token), sample_env 7000 6 "u7")]
         logged_out_db) !! 0%nat = Some r'
    ∧ domain.IsRevoked r' = true
    ∧ domain.ID r' = domain.ID (set_revoked 3000 sample_record)
    ∧ domain.Token r' = domain.Token (set_revoked 3000 sample_record)
    ∧ domain.UserID r' = domain.UserID (set_revoked 3000 sample_record)
    ∧ domain.ExpiresAt r' = domain.ExpiresAt (set_revoked 3000 sample_record).
Proof.
  apply (revoked_stays_revoked sample_manager _ logged_out_db 0
           (set_revoked 3000 sample_record)); reflexivity.
Defined.

(** A lookup by value that finds a record keeps finding the record at
    that place. *)
Lemma token_by_value_persists d d' tok r :
  persists d d' → token_by_value d tok = Some r →
  ∃ r', token_by_value d' tok = Some r'
        ∧ domain.ID r' = domain.ID r
        ∧ domain.UserID r' = domain.UserID r
        ∧ (domain.IsRevoked r = true → domain.IsRevoked r' = true).
Proof.
  unfold persists, token_by_value.
  generalize (refresh_tokens d) (refresh_tokens d'). clear d d'.
  intros l. induction l as [|a l IH]; intros l' Hp Hfind; [discriminate|].
  destruct (Hp 0%nat a eq_refl) as (a' & Ha' & Hid & Htok & Huid & _ & Hrev).
  destruct l' as [|b l']; [discriminate|]. injection Ha' as ->.
  cbn [List.find] in *. rewrite Htok.
  destruct (String.eqb (domain.Token a) tok).
  - injection Hfind as <-. exists a'. done.
  - apply IH; [|exact Hfind]. intros i x Hi. exact (Hp (S i) x Hi).
Qed.

(** Once revoked, a refresh token is never redeemed again: after any
    use-case methods and store operations, RefreshToken with its value
    fails with [ErrRefreshTokenRevoked]. *)
Lemma revoked_token_is_never_redeemed (m : jwt.JWTManager)
    (os : list (Operation * Env)) (d : DB) (tok : string)
    (r : domain.RefreshToken) (e : Env) :
  token_by_value d tok = Some r →
  domain.IsRevoked r = true →
  db_fault e (RefreshTokenRepository_FindByToken tok) = None →
  run (authUseCase.RefreshToken (service m) (refresh_request tok)) e
    (apply_ops m os d)
  = (Err domain.ErrRefreshTokenRevoked, apply_ops m os d,
     [RefreshTokenRepository_FindByToken tok]).
Proof.
  intros Hr Hrev Hfault.
  destruct (token_by_value_persists d (apply_ops m os d) tok r
              (persists_apply_ops m os d) Hr) as (r' & Hr' & _ & _ & Hrev').
  rewrite run_unfold. unfold refresh_request. rewrite RefreshToken_run.
  cbn [db reads trace app]. rewrite Hfault, Hr', (Hrev' Hrev). reflexivity.
Qed.

(** ** Insertion of a fresh refresh token *)

Lemma existsb_false {A : Type} (f : A → bool) (l : list A) :
  (∀ x, x ∈ l → f x = false) → existsb f l = false.
Proof.
  intros H. destruct (existsb f l) eqn:E; [|done].
  apply existsb_exists in E as (x & Hin & Hx).
  rewrite (H x) in Hx; [discriminate | by apply list_elem_of_In].
Qed.

Lemma insert_refresh_token_fresh token d :
  wf d → domain.ID token = 0%N →
  is_Some (user_by_id d (domain.UserID token)) →
  token_by_value d (domain.Token token) = None →
  insert_refresh_token token d
  = ({| users := users d;
        refresh_tokens := refresh_tokens d ++ [inserted_row token d];
        refresh_tokens_id_seq := N.succ (refresh_tokens_id_seq d) |},
     (inserted_row token d, None)).
Proof.
  intros [Hids _ _] Hid [u Hu] Hfresh. unfold insert_refresh_token, inserted_row.
  rewrite Hid. cbn [N.eqb domain.ID domain.Token domain.UserID].
  rewrite existsb_false.
  2:{ intros r Hr. specialize (Hids r Hr). apply N.eqb_neq. lia. }
  rewrite find_existsb. fold (token_by_value d (domain.Token token)).
  rewrite Hfresh.
  assert (existsb (λ u, String.eqb (domain.User_ID u) (domain.UserID token))
            (users d) = true) as ->; [|reflexivity].
  apply find_some in Hu as [Hin Hc]. apply andb_true_iff in Hc as [Hc _].
  apply existsb_exists. eauto.
Qed.

Lemma insert_refresh_token_ok token d :
  (insert_refresh_token token d).2.2 = None → domain.ID token = 0%N →
  (insert_refresh_token token d).1
  = {| users := users d;
       refresh_tokens := refresh_tokens d ++ [inserted_row token d];
       refresh_tokens_id_seq := N.succ (refresh_tokens_id_seq d) |}
  ∧ token_by_value d (domain.Token token) = None
  ∧ (∃ u, u ∈ users d ∧ domain.User_ID u = domain.UserID token).
Proof.
  unfold insert_refresh_token, inserted_row. intros H Hid. revert H.
  rewrite Hid. cbn [N.eqb domain.ID domain.Token domain.UserID].
  destruct (existsb (λ r, N.eqb (domain.ID r) _) _); [done|].
  destruct (existsb (λ r, String.eqb (domain.Token r) _) _) eqn:Etok; [done|].
  destruct (existsb (λ u, String.eqb (domain.User_ID u) _) _) eqn:Efk; [|done].
  intros _.
  split; [reflexivity|]. split.
  - rewrite find_existsb in Etok. unfold token_by_value.
    by destruct (List.find _ _).
  - apply existsb_exists in Efk as (u & Hin & Hu).
    exists u. split; [by apply list_elem_of_In | by apply String.eqb_eq].
Qed.

(** ** RefreshToken: the successful run *)

Lemma RefreshToken_success (m : jwt.JWTManager) (e : Env) (d : DB)
    (tok : string) (rt : domain.RefreshToken) (user : domain.User)
    (src : nat → byte) (signed : string) :
  wf d →
  token_by_value d tok = Some rt →
  domain.IsRevoked rt = false →
  clock e 0 <= domain.ExpiresAt rt →
  user_by_id d (domain.UserID rt) = Some user →
  (∀ c, db_fault e c = None) →
  rsa_sign e (access_claims m e 2 (domain.User_ID user) (domain.Email user))
    = inl signed →
  entropy e = Some src →
  token_by_value d (hex.EncodeToString (map src (seq 0 32))) = None →
  run (authUseCase.RefreshToken (service m) (refresh_request tok)) e d
  = (Ok (auth_response m signed (hex.EncodeToString (map src (seq 0 32))) user),
     rotated m e tok user src d,
     rotation_calls tok user (hex.EncodeToString (map src (seq 0 32)))).
Proof.
  intros Hwf Hrt Hactive Hexp Huser Hfault Hsign Hsrc Hfresh.
  pose proof (user_by_id_Some _ _ _ Huser) as (_ & Hid & _).
  rewrite <- Hid in Huser.
  rewrite run_unfold. unfold refresh_request. rewrite RefreshToken_run.
  cbn [db reads trace app]. rewrite !Hfault, Hrt, Hactive, <- Hid, Huser.
  unfold time.After. apply Z.ltb_ge in Hexp. rewrite Hexp.
  rewrite generateTokens_run. cbn [db reads trace app Nat.add].
  rewrite Hsign, Hsrc, !Hfault.
  set (d1 := revoke_where _ _ d).
  set (fresh := stamped _ _).
  rewrite (insert_refresh_token_fresh fresh d1).
  - reflexivity.
  - by apply wf_revoke_where.
  - reflexivity.
  - unfold user_by_id in *. cbn. rewrite Huser. eauto.
  - subst d1. rewrite token_by_value_revoke_where.
    cbn [fresh domain.Token stamped new_refresh_token].
    by rewrite Hfresh.
Qed.

Lemma token_by_value_rotated_old m e tok user src d rt :
  token_by_value d tok = Some rt →
  token_by_value (rotated m e tok user src d) tok
  = Some (set_revoked (clock e 1) rt).
Proof.
  intros Hrt. unfold rotated, token_by_value. cbn [refresh_tokens].
  apply find_app_Some.
  change (token_by_value
            (revoke_where (λ r, String.eqb (domain.Token r) tok) (clock e 1) d)
            tok = Some (set_revoked (clock e 1) rt)).
  rewrite token_by_value_revoke_where, Hrt.
  cbn [fmap option_fmap option_map]. unfold revoke_row.
  apply token_by_value_Some in Hrt as [_ ->]. by rewrite String.eqb_refl.
Qed.

Lemma token_by_value_rotated_new m e tok user src d :
  token_by_value d (hex.EncodeToString (map src (seq 0 32))) = None →
  token_by_value (rotated m e tok user src d)
    (hex.EncodeToString (map src (seq 0 32)))
  = Some (inserted_row (stamped (clock e 6) (new_refresh_token m e 5 user src))
            (revoke_where (λ r, String.eqb (domain.Token r) tok) (clock e 1) d)).
Proof.
  intros Hfresh. unfold rotated, token_by_value. cbn [refresh_tokens].
  rewrite find_app_None.
  - cbn [List.find domain.Token inserted_row stamped new_refresh_token].
    by rewrite String.eqb_refl.
  - change (token_by_value
              (revoke_where (λ r, String.eqb (domain.Token r) tok) (clock e 1) d)
              (hex.EncodeToString (map src (seq 0 32))) = None).
    by rewrite token_by_value_revoke_where, Hfresh.
Qed.

(** C1, as amended: a refresh token that is valid when presented and
    whose owning account is live is redeemed exactly once.  Provided the
    collaborators answer (no driver failure, the signer signs the claims
    of the owner, the random source can be read and the database accepts
    the new record), the first call returns a new token pair, the access
    token the signer produced for the owner and the fresh refresh-token
    value, leaves the presented record revoked and stores the new one;
    any later call with the same value, whatever methods and store
    operations have run in between, fails with [ErrRefreshTokenRevoked]
    and changes nothing. *)
Theorem RefreshToken_succeeds_exactly_once (m : jwt.JWTManager) (d : DB)
    (e e' : Env) (tok : string) (rt : domain.RefreshToken)
    (user : domain.User) (src : nat → byte) (signed : string) :
  token_by_value d tok = Some rt →
  domain.IsRevoked rt = false →
  clock e 0 <= domain.ExpiresAt rt →
  user_by_id d (domain.UserID rt) = Some user →
  (∀ c, db_fault e c = None) →
  rsa_sign e (access_claims m e 2 (domain.User_ID user) (domain.Email user))
    = inl signed →
  entropy e = Some src →
  (insert_refresh_token (issued_token m e 2 user src)
     (revoke_where (λ r, String.eqb (domain.Token r) tok) (clock e 1) d)).2.2
    = None →
  db_fault e' (RefreshTokenRepository_FindByToken tok) = None →
  let refresh := authUseCase.RefreshToken (service m) (refresh_request tok) in
  let fresh := hex.EncodeToString (map src (seq 0 32)) in
  ∃ (resp : usecase.AuthResponse) (d' : DB) (calls : list Call)
    (old new : domain.RefreshToken),
    run refresh e d = (Ok resp, d', calls)
    ∧ usecase.RefreshToken resp = fresh
    ∧ usecase.RefreshToken resp ≠ tok
    ∧ token_by_value d' tok = Some old
    ∧ old = set_revoked (clock e 1) rt
    ∧ domain.IsRevoked old = true
    ∧ token_by_value d' (usecase.RefreshToken resp) = Some new
    ∧ domain.IsRevoked new = false
    ∧ domain.UserID new = domain.UserID rt
    ∧ domain.ExpiresAt new = clock e 5 + jwt.refreshTokenDuration m
    ∧ resp = auth_response m signed fresh user
    ∧ usecase.AccessToken resp = signed
    ∧ usecase.UserResponse_ID (usecase.User resp) = domain.UserID rt
    ∧ calls = rotation_calls tok user fresh
    ∧ d' = rotated m e tok user src d
    ∧ users d' = users d
    ∧ length (refresh_tokens d') = S (length (refresh_tokens d))
    ∧ ∀ os : list (Operation * Env),
        run refresh e' (apply_ops m os d')
        = (Err domain.ErrRefreshTokenRevoked, apply_ops m os d',
           [RefreshTokenRepository_FindByToken tok]).
Proof.
  intros Hrt Hactive Hexp Huser Hfault Hsign Hsrc Hins Hfault' refresh fresh.
  pose proof (user_by_id_Some _ _ _ Huser) as (_ & Hid & _).
  unfold issued_token in Hins. cbn [Nat.add] in Hins.
  destruct (insert_refresh_token_ok _ _ Hins eq_refl) as (Hshape & Hnone & _).
  assert (Hold : token_by_value
                   (revoke_where (λ r, String.eqb (domain.Token r) tok)
                      (clock e 1) d) tok
                 = Some (set_revoked (clock e 1) rt)).
  { rewrite token_by_value_revoke_where, Hrt.
    cbn [fmap option_fmap option_map]. unfold revoke_row.
    apply token_by_value_Some in Hrt as [_ ->]. by rewrite String.eqb_refl. }
  assert (Hfresh : token_by_value d fresh = None).
  { rewrite token_by_value_revoke_where in Hnone.
    change (domain.Token (stamped (clock e 6) (new_refresh_token m e 5 user src)))
      with fresh in Hnone.
    by destruct (token_by_value d fresh). }
  assert (Hrun : run refresh e d
                 = (Ok (auth_response m signed fresh user),
                    rotated m e tok user src d,
                    rotation_calls tok user fresh)).
  { subst refresh. rewrite <- Hid in Huser.
    rewrite run_unfold. unfold refresh_request. rewrite RefreshToken_run.
    cbn [db reads trace app]. rewrite !Hfault, Hrt, Hactive, <- Hid, Huser.
    unfold time.After. apply Z.ltb_ge in Hexp. rewrite Hexp.
    rewrite generateTokens_run. cbn [db reads trace app Nat.add].
    rewrite Hsign, Hsrc, !Hfault. cbv zeta. rewrite Hins, Hshape.
    reflexivity. }
  exists (auth_response m signed fresh user), (rotated m e tok user src d),
    (rotation_calls tok user fresh), (set_revoked (clock e 1) rt),
    (inserted_row (stamped (clock e 6) (new_refresh_token m e 5 user src))
       (revoke_where (λ r, String.eqb (domain.Token r) tok) (clock e 1) d)).
  split; [exact Hrun|]. split; [reflexivity|].
  split.
  { intros Heq. change (fresh = tok) in Heq. rewrite <- Heq in Hrt.
    congruence. }
  split; [by apply token_by_value_rotated_old|].
  split; [reflexivity|]. split; [reflexivity|].
  split; [by apply token_by_value_rotated_new|].
  split; [reflexivity|]. split; [exact Hid|]. split; [reflexivity|].
  split; [reflexivity|]. split; [reflexivity|]. split; [exact Hid|].
  split; [reflexivity|]. split; [reflexivity|]. split; [reflexivity|].
  split.
  { unfold rotated. cbn [refresh_tokens]. rewrite length_app, revoke_where_rows.
    rewrite length_map. cbn [length]. lia. }
  intros os. subst refresh.
  apply (revoked_token_is_never_redeemed m os _ tok
           (set_revoked (clock e 1) rt));
    [by apply token_by_value_rotated_old | reflexivity | exact Hfault'].
Qed.

Lemma RefreshToken_succeeds_exactly_once_witness :
  let refresh :=
    authUseCase.RefreshToken (service sample_manager)
      (refresh_request sample_token) in
  let e := sample_env 2000 1 "u2" in
  let fresh := hex.EncodeToString (map (λ k, sample_byte (1 + k)) (seq 0 32)) in
  ∃ (resp : usecase.AuthResponse) (d' : DB) (calls : list Call)
    (old new : domain.RefreshToken),
    run refresh e sample_db = (Ok resp, d', calls)
    ∧ usecase.RefreshToken resp = fresh
    ∧ usecase.RefreshToken resp ≠ sample_token
    ∧ token_by_value d' sample_token = Some old
    ∧ old = set_revoked (clock e 1) sample_record
    ∧ domain.IsRevoked old = true
    ∧ token_by_value d' (usecase.RefreshToken resp) = Some new
    ∧ domain.IsRevoked new = false
    ∧ domain.UserID new = domain.UserID sample_record
    ∧ domain.ExpiresAt new = clock e 5 + jwt.refreshTokenDuration sample_manager
    ∧ resp = auth_response sample_manager "signed:u1" fresh sample_user
    ∧ usecase.AccessToken resp = "signed:u1"
    ∧ usecase.UserResponse_ID (usecase.User resp) = domain.UserID sample_record
    ∧ calls = rotation_calls sample_token sample_user fresh
    ∧ d' = rotated sample_manager e sample_token sample_user
             (λ k, sample_byte (1 + k)) sample_db
    ∧ users d' = users sample_db
    ∧ length (refresh_tokens d') = S (length (refresh_tokens sample_db))
    ∧ ∀ os : list (Operation * Env),
        run refresh e (apply_ops sample_manager os d')
        = (Err domain.ErrRefreshTokenRevoked, apply_ops sample_manager os d',
           [RefreshTokenRepository_FindByToken sample_token]).
Proof.
  apply (RefreshToken_succeeds_exactly_once sample_manager sample_db
           (sample_env 2000 1 "u2") (sample_env 2000 1 "u2") sample_token
           sample_record sample_user (λ k, sample_byte (1 + k)) "signed:u1").
  - reflexivity.
  - reflexivity.
  - vm_compute. discriminate.
  - reflexivity.
  - intros c. reflexivity.
  - reflexivity.
  - reflexivity.
  - vm_compute. reflexivity.
  - reflexivity.
Defined.

(** C1, as stated, fails for a valid record whose owning account has
    been deleted: the record is not revoked and not expired, [IsValid]
    accepts it, yet the first RefreshToken does not succeed.  It fails
    with [ErrUserNotFound], returns no token pair and leaves the record
    as it was. *)
Lemma RefreshToken_deleted_owner_counterexample :
  let e := sample_env 2000 1 "u2" in
  let out :=
    run (authUseCase.RefreshToken (service sample_manager)
           (refresh_request sample_token)) e orphan_db in
  token_by_value orphan_db sample_token = Some sample_record
  ∧ domain.IsRevoked sample_record = false
  ∧ clock e 0 < domain.ExpiresAt sample_record
  ∧ (run (RefreshToken.IsValid sample_record) e orphan_db).1.1 = true
  ∧ (∀ c, db_fault e c = None)
  ∧ out
    = (Err domain.ErrUserNotFound, orphan_db,
       [RefreshTokenRepository_FindByToken sample_token;
        UserRepository_FindByID "u1"])
  ∧ ¬ (∃ (resp : usecase.AuthResponse) (d' : DB) (calls : list Call),
         out = (Ok resp, d', calls)).
Proof.
  cbv zeta. split; [reflexivity|]. split; [reflexivity|].
  split; [reflexivity|]. split; [reflexivity|].
  split; [intros c; reflexivity|].
  assert (H : run (authUseCase.RefreshToken (service sample_manager)
                     (refresh_request sample_token)) (sample_env 2000 1 "u2")
                orphan_db
              = (Err domain.ErrUserNotFound, orphan_db,
                 [RefreshTokenRepository_FindByToken sample_token;
                  UserRepository_FindByID "u1"])).
  { vm_compute. reflexivity. }
  split; [exact H|]. rewrite H. intros (resp & d' & calls & Heq).
  discriminate Heq.
Qed.

(** ** RefreshToken: the order of the steps *)

(** C5, as amended: a successful RefreshToken makes its calls in this
    order: the lookup of the presented value, the lookup of the owning
    account, the revocation of the presented value, and then the issue
    of the new pair (access token, refresh token, insertion of the new
    record).  The account is looked up before the revocation. *)
Theorem RefreshToken_order_of_steps (m : jwt.JWTManager) (e : Env) (d d' : DB)
    (tok : string) (resp : usecase.AuthResponse) (calls : list Call) :
  run (authUseCase.RefreshToken (service m) (refresh_request tok)) e d
    = (Ok resp, d', calls) →
  ∃ (rt : domain.RefreshToken) (user : domain.User),
    token_by_value d tok = Some rt
    ∧ user_by_id d (domain.UserID rt) = Some user
    ∧ calls = rotation_calls tok user (usecase.RefreshToken resp)
    ∧ precedes (UserRepository_FindByID (domain.User_ID user))
        (RefreshTokenRepository_Revoke tok) calls = true
    ∧ precedes (RefreshTokenRepository_Revoke tok)
        (JWTManager_GenerateAccessToken (domain.User_ID user)
           (domain.Email user)) calls = true
    ∧ precedes (RefreshTokenRepository_Revoke tok)
        (UserRepository_FindByID (domain.User_ID user)) calls = false.
Proof.
  rewrite run_unfold. unfold refresh_request. rewrite RefreshToken_run.
  cbn [db reads trace app].
  destruct (db_fault e _); [discriminate|].
  destruct (token_by_value d tok) as [rt|]; [|discriminate].
  destruct (domain.IsRevoked rt); [discriminate|].
  destruct (time.After _ _); [discriminate|].
  destruct (db_fault e _); [discriminate|].
  destruct (user_by_id d _) as [user|] eqn:Huser; [|discriminate].
  destruct (db_fault e _); [discriminate|].
  rewrite generateTokens_run. cbn [db reads trace app Nat.add].
  destruct (rsa_sign e _) as [signed|]; [|discriminate].
  destruct (entropy e) as [src|]; [|discriminate].
  destruct (db_fault e _); [discriminate|]. cbv zeta.
  destruct (insert_refresh_token _ _) as [d2 [row [err|]]]; [discriminate|].
  cbn [fst snd db trace]. intros H.
  pose proof (user_by_id_Some _ _ _ Huser) as (_ & Hid & _).
  exists rt, user. split; [reflexivity|]. split; [exact Huser|].
  assert (Hcalls : calls = rotation_calls tok user (usecase.RefreshToken resp)).
  { injection H as Hresp _ Hcalls. subst calls resp.
    unfold rotation_calls. rewrite Hid. reflexivity. }
  split; [exact Hcalls|]. subst calls. unfold rotation_calls, precedes.
  cbn [position].
  repeat (case_decide; try discriminate; try congruence). cbn. done.
Qed.

Lemma RefreshToken_order_of_steps_witness :
  let calls := rotation_calls sample_token sample_user sample_token2 in
  ∃ (rt : domain.RefreshToken) (user : domain.User),
    token_by_value sample_db sample_token = Some rt
    ∧ user_by_id sample_db (domain.UserID rt) = Some user
    ∧ calls
      = rotation_calls sample_token user
          (usecase.RefreshToken
             (auth_response sample_manager "signed:u1" sample_token2
                sample_user))
    ∧ precedes (UserRepository_FindByID (domain.User_ID user))
        (RefreshTokenRepository_Revoke sample_token) calls = true
    ∧ precedes (RefreshTokenRepository_Revoke sample_token)
        (JWTManager_GenerateAccessToken (domain.User_ID user)
           (domain.Email user)) calls = true
    ∧ precedes (RefreshTokenRepository_Revoke sample_token)
        (UserRepository_FindByID (domain.User_ID user)) calls = false.
Proof.
  apply (RefreshToken_order_of_steps sample_manager (sample_env 2000 1 "u2")
           sample_db
           (rotated sample_manager (sample_env 2000 1 "u2") sample_token
              sample_user (λ k, sample_byte (1 + k)) sample_db)
           sample_token).
  vm_compute. reflexivity.
Defined.

(** C5, as stated, fails: in this successful run the account is looked
    up before the presented token is revoked, not after. *)
Lemma RefreshToken_revoke_then_lookup_counterexample :
  let out :=
    run (authUseCase.RefreshToken (service sample_manager)
           (refresh_request sample_token)) (sample_env 2000 1 "u2") sample_db in
  out.1.1
  = Ok (auth_response sample_manager "signed:u1" sample_token2 sample_user)
  ∧ out.2
    = [RefreshTokenRepository_FindByToken sample_token;
       UserRepository_FindByID "u1";
       RefreshTokenRepository_Revoke sample_token;
       JWTManager_GenerateAccessToken "u1" "a@x.com";
       JWTManager_GenerateRefreshToken "u1";
       RefreshTokenRepository_Create sample_token2]
  ∧ ¬ (precedes (RefreshTokenRepository_Revoke sample_token)
         (UserRepository_FindByID "u1") out.2 = true).
Proof.
  split; [vm_compute; reflexivity|]. split; [vm_compute; reflexivity|].
  vm_compute. discriminate.
Qed.

(** ** Logout and LogoutAll *)

(** C7: Logout sets the revoked flag (and the update time) of the
    records whose value is the argument and of no other record: after
    it every record with that value has its flag set, with its
    identifier, value, owner, expiry and creation time as before, and
    every other record, the accounts and the sequence stay as they are.
    When the statement is executed it returns no error, whether or not a
    record has that value and whether or not it is already revoked; with
    no such record the database is unchanged.  A value that had a record
    is from then on refused by RefreshToken with
    [ErrRefreshTokenRevoked]. *)
Theorem Logout_revokes_only_the_target (m : jwt.JWTManager) (e : Env) (d : DB)
    (tok : string) :
  db_fault e (RefreshTokenRepository_Revoke tok) = None →
  ∃ d' : DB,
    run (authUseCase.Logout (service m) tok) e d
      = (None, d', [RefreshTokenRepository_Revoke tok])
    ∧ users d' = users d
    ∧ refresh_tokens_id_seq d' = refresh_tokens_id_seq d
    ∧ length (refresh_tokens d') = length (refresh_tokens d)
    ∧ (∀ (i : nat) r, refresh_tokens d !! i = Some r → domain.Token r ≠ tok →
         refresh_tokens d' !! i = Some r)
    ∧ (∀ (i : nat) r, refresh_tokens d !! i = Some r → domain.Token r = tok →
         refresh_tokens d' !! i = Some (set_revoked (clock e 0) r))
    ∧ (token_by_value d tok = None → d' = d)
    ∧ (∀ r', r' ∈ refresh_tokens d' → domain.Token r' = tok →
         domain.IsRevoked r' = true)
    ∧ (∀ (i : nat) r, refresh_tokens d !! i = Some r → domain.Token r = tok →
         ∃ r', refresh_tokens d' !! i = Some r'
               ∧ domain.IsRevoked r' = true
               ∧ domain.UpdatedAt r' = clock e 0
               ∧ domain.ID r' = domain.ID r
               ∧ domain.Token r' = domain.Token r
               ∧ domain.UserID r' = domain.UserID r
               ∧ domain.ExpiresAt r' = domain.ExpiresAt r
               ∧ domain.CreatedAt r' = domain.CreatedAt r)
    ∧ (∀ (rt : domain.RefreshToken) (os : list (Operation * Env)) (e' : Env),
         token_by_value d tok = Some rt →
         db_fault e' (RefreshTokenRepository_FindByToken tok) = None →
         run (authUseCase.RefreshToken (service m) (refresh_request tok)) e'
           (apply_ops m os d')
         = (Err domain.ErrRefreshTokenRevoked, apply_ops m os d',
            [RefreshTokenRepository_FindByToken tok])).
Proof.
  intros Hfault.
  exists (revoke_where (λ r, String.eqb (domain.Token r) tok) (clock e 0) d).
  split.
  { rewrite run_unfold, Logout_run, Revoke_run. cbn [db reads trace app].
    rewrite Hfault. reflexivity. }
  split; [reflexivity|]. split; [reflexivity|].
  split; [rewrite revoke_where_rows; apply length_map|].
  split.
  { intros i r Hi Hne. rewrite revoke_where_lookup, Hi.
    cbn [fmap option_fmap option_map]. unfold revoke_row.
    apply String.eqb_neq in Hne. by rewrite Hne. }
  assert (Htarget : ∀ (i : nat) r, refresh_tokens d !! i = Some r →
            domain.Token r = tok →
            refresh_tokens
              (revoke_where (λ r, String.eqb (domain.Token r) tok) (clock e 0) d)
              !! i = Some (set_revoked (clock e 0) r)).
  { intros i r Hi Heq. rewrite revoke_where_lookup, Hi.
    cbn [fmap option_fmap option_map]. unfold revoke_row.
    apply String.eqb_eq in Heq. by rewrite Heq. }
  split; [exact Htarget|].
  split.
  { intros Hnone. apply token_by_value_None in Hnone.
    destruct d as [us rows sq]. unfold revoke_where.
    cbn [users refresh_tokens refresh_tokens_id_seq] in *. f_equal.
    clear Htarget. induction rows as [|r rows IH]; [done|].
    rewrite fmap_cons in Hnone. apply not_elem_of_cons in Hnone as [Hne Hnone].
    cbn [map]. rewrite IH by done. f_equal.
    unfold revoke_row.
    assert (String.eqb (domain.Token r) tok = false) as ->; [|done].
    apply String.eqb_neq. congruence. }
  split.
  { intros r' Hin Htok. rewrite revoke_where_rows in Hin.
    apply list_elem_of_fmap in Hin as (r & -> & _).
    rewrite revoke_row_Token in Htok. unfold revoke_row.
    apply String.eqb_eq in Htok. rewrite Htok. reflexivity. }
  split.
  { intros i r Hi Heq. exists (set_revoked (clock e 0) r).
    split; [by apply Htarget|]. repeat split. }
  intros rt os e' Hrt Hfault'.
  apply (revoked_token_is_never_redeemed m os _ tok
           (set_revoked (clock e 0) rt)); [|reflexivity|exact Hfault'].
  rewrite token_by_value_revoke_where, Hrt.
  cbn [fmap option_fmap option_map]. unfold revoke_row.
  apply token_by_value_Some in Hrt as [_ ->]. by rewrite String.eqb_refl.
Qed.

Lemma Logout_revokes_only_the_target_witness :
  ∃ d' : DB,
    run (authUseCase.Logout (service sample_manager) sample_token)
      (sample_env 3000 2 "u3") two_token_db
      = (None, d', [RefreshTokenRepository_Revoke sample_token])
    ∧ users d' = users two_token_db
    ∧ refresh_tokens_id_seq d' = refresh_tokens_id_seq two_token_db
    ∧ length (refresh_tokens d') = length (refresh_tokens two_token_db)
    ∧ (∀ (i : nat) r, refresh_tokens two_token_db !! i = Some r →
         domain.Token r ≠ sample_token → refresh_tokens d' !! i = Some r)
    ∧ (∀ (i : nat) r, refresh_tokens two_token_db !! i = Some r →
         domain.Token r = sample_token →
         refresh_tokens d' !! i
         = Some (set_revoked (clock (sample_env 3000 2 "u3") 0) r))
    ∧ (token_by_value two_token_db sample_token = None → d' = two_token_db)
    ∧ (∀ r', r' ∈ refresh_tokens d' → domain.Token r' = sample_token →
         domain.IsRevoked r' = true)
    ∧ (∀ (i : nat) r, refresh_tokens two_token_db !! i = Some r →
         domain.Token r = sample_token →
         ∃ r', refresh_tokens d' !! i = Some r'
               ∧ domain.IsRevoked r' = true
               ∧ domain.UpdatedAt r' = clock (sample_env 3000 2 "u3") 0
               ∧ domain.ID r' = domain.ID r
               ∧ domain.Token r' = domain.Token r
               ∧ domain.UserID r' = domain.UserID r
               ∧ domain.ExpiresAt r' = domain.ExpiresAt r
               ∧ domain.CreatedAt r' = domain.CreatedAt r)
    ∧ (∀ (rt : domain.RefreshToken) (os : list (Operation * Env)) (e' : Env),
         token_by_value two_token_db sample_token = Some rt →
         db_fault e' (RefreshTokenRepository_FindByToken sample_token) = None →
         run (authUseCase.RefreshToken (service sample_manager)
                (refresh_request sample_token)) e'
           (apply_ops sample_manager os d')
         = (Err domain.ErrRefreshTokenRevoked,
            apply_ops sample_manager os d',
            [RefreshTokenRepository_FindByToken sample_token])).
Proof.
  apply (Logout_revokes_only_the_target sample_manager (sample_env 3000 2 "u3")
           two_token_db sample_token).
  reflexivity.
Defined.

(** The other active token of the account is still redeemable after the
    Logout of the first. *)
Example Logout_leaves_second_token_usable :
  let d' :=
    (run (authUseCase.Logout (service sample_manager) sample_token)
       (sample_env 3000 2 "u3") two_token_db).1.2 in
  domain.IsRevoked <$> token_by_value d' sample_token = Some true
  ∧ domain.IsRevoked <$> token_by_value d' sample_token2 = Some false
  ∧ ∃ resp,
      (run (authUseCase.RefreshToken (service sample_manager)
              (refresh_request sample_token2)) (sample_env 4000 3 "u4") d').1.1
      = Ok resp.
Proof.
  split; [vm_compute; reflexivity|]. split; [vm_compute; reflexivity|].
  eexists. vm_compute. reflexivity.
Qed.

(** C8: when LogoutAll returns no error, every record owned by the
    account is revoked and the records of other accounts are untouched;
    from then on, whatever methods and store operations run in between,
    RefreshToken with the value of any of the account's records fails
    with [ErrRefreshTokenRevoked] and changes nothing. *)
Theorem LogoutAll_revokes_every_token_of_the_account (m : jwt.JWTManager)
    (e : Env) (d d' : DB) (userID : string) (calls : list Call) :
  run (authUseCase.LogoutAll (service m) userID) e d = (None, d', calls) →
  (∀ r, r ∈ refresh_tokens d' → domain.UserID r = userID →
     domain.IsRevoked r = true)
  ∧ (∀ (i : nat) r, refresh_tokens d !! i = Some r → domain.UserID r = userID →
       refresh_tokens d' !! i = Some (set_revoked (clock e 0) r))
  ∧ (∀ (i : nat) r, refresh_tokens d !! i = Some r → domain.UserID r ≠ userID →
       refresh_tokens d' !! i = Some r)
  ∧ length (refresh_tokens d') = length (refresh_tokens d)
  ∧ users d' = users d
  ∧ (∀ (os : list (Operation * Env)) (e' : Env) (tok : string) r,
       token_by_value d tok = Some r → domain.UserID r = userID →
       db_fault e' (RefreshTokenRepository_FindByToken tok) = None →
       run (authUseCase.RefreshToken (service m) (refresh_request tok)) e'
         (apply_ops m os d')
       = (Err domain.ErrRefreshTokenRevoked, apply_ops m os d',
          [RefreshTokenRepository_FindByToken tok]))
  ∧ (∀ (os : list (Operation * Env)) (e' : Env) r,
       NoDup (domain.Token <$> refresh_tokens d) →
       r ∈ refresh_tokens d → domain.UserID r = userID →
       db_fault e' (RefreshTokenRepository_FindByToken (domain.Token r)) = None →
       run (authUseCase.RefreshToken (service m)
              (refresh_request (domain.Token r))) e' (apply_ops m os d')
       = (Err domain.ErrRefreshTokenRevoked, apply_ops m os d',
          [RefreshTokenRepository_FindByToken (domain.Token r)])).
Proof.
  rewrite run_unfold, LogoutAll_run, RevokeAllByUserID_run.
  cbn [db reads trace app].
  destruct (db_fault e _); [discriminate|]. cbn [fst snd db trace].
  intros H. injection H as <- _.
  set (cond := λ r, String.eqb (domain.UserID r) userID).
  assert (Hrefresh : ∀ (os : list (Operation * Env)) (e' : Env)
                       (tok : string) r,
             token_by_value d tok = Some r → domain.UserID r = userID →
             db_fault e' (RefreshTokenRepository_FindByToken tok) = None →
             run (authUseCase.RefreshToken (service m) (refresh_request tok)) e'
               (apply_ops m os (revoke_where cond (clock e 0) d))
             = (Err domain.ErrRefreshTokenRevoked,
                apply_ops m os (revoke_where cond (clock e 0) d),
                [RefreshTokenRepository_FindByToken tok])).
  { intros os e' tok r Hr Huid Hfault.
    apply (revoked_token_is_never_redeemed m os _ tok
             (revoke_row cond (clock e 0) r)); [| |exact Hfault].
    - by rewrite token_by_value_revoke_where, Hr.
    - rewrite revoke_row_IsRevoked. unfold cond.
      apply String.eqb_eq in Huid. by rewrite Huid. }
  split.
  { intros r. rewrite revoke_where_rows, list_elem_of_fmap.
    intros (r0 & -> & _) Huid. rewrite revoke_row_UserID in Huid.
    rewrite revoke_row_IsRevoked. unfold cond.
    apply String.eqb_eq in Huid. by rewrite Huid. }
  split.
  { intros i r Hi Huid. rewrite revoke_where_lookup, Hi. cbn [fmap option_fmap option_map].
    unfold revoke_row, cond. apply String.eqb_eq in Huid. by rewrite Huid. }
  split.
  { intros i r Hi Huid. rewrite revoke_where_lookup, Hi. cbn [fmap option_fmap option_map].
    unfold revoke_row, cond. apply String.eqb_neq in Huid. by rewrite Huid. }
  split; [rewrite revoke_where_rows; apply length_map|].
  split; [reflexivity|].
  split; [exact Hrefresh|].
  intros os e' r Hnd Hin Huid Hfault.
  apply (Hrefresh os e' (domain.Token r) r); [|done..].
  by apply token_by_value_stored.
Qed.

Lemma LogoutAll_revokes_every_token_of_the_account_witness :
  (∀ r, r ∈ refresh_tokens logged_out_db → domain.UserID r = "u1" →
     domain.IsRevoked r = true)
  ∧ run (authUseCase.RefreshToken (service sample_manager)
           (refresh_request sample_token2)) (sample_env 4000 3 "u4")
      logged_out_db
    = (Err domain.ErrRefreshTokenRevoked, logged_out_db,
       [RefreshTokenRepository_FindByToken sample_token2]).
Proof.
  destruct (LogoutAll_revokes_every_token_of_the_account sample_manager
              (sample_env 3000 2 "u3") two_token_db logged_out_db "u1"
              [RefreshTokenRepository_RevokeAllByUserID "u1"] eq_refl)
    as (Hall & _ & _ & _ & _ & Hrefresh & _).
  split; [exact Hall|].
  eapply (Hrefresh [] (sample_env 4000 3 "u4") sample_token2); reflexivity.
Defined.

(** * Further properties *)

(** ** The accounts table only grows *)

Lemma insert_refresh_token_users token d :
  users (insert_refresh_token token d).1 = users d.
Proof.
  unfold insert_refresh_token.
  destruct (existsb _ _); [done|]. destruct (existsb _ _); [done|].
  destruct (negb _); done.
Qed.

Lemma evolves_users d d' : evolves d d' → ∃ us, users d' = users d ++ us.
Proof.
  induction 1 as [d | cond now d d' _ IH | user d d' _ IH
                  | token d d' _ _ _ IH].
  - exists []. by rewrite app_nil_r.
  - exact IH.
  - destruct IH as [us Hus].
    destruct (insert_user_shape user d) as [Hsame|[_ Hadd]].
    + rewrite Hsame in Hus. eauto.
    + rewrite Hadd in Hus. cbn in Hus. exists ([user] ++ us).
      by rewrite Hus, app_assoc.
  - destruct IH as [us Hus]. exists us.
    by rewrite Hus, insert_refresh_token_users.
Qed.

Lemma store_users s e d : ∃ us, users (store s e d) = users d ++ us.
Proof.
  destruct s as [user|id|email|token|tok|tok|uid]; unfold store;
    rewrite run_unfold; cbn [fst snd].
  - rewrite user_Create_run. cbv zeta.
    destruct (db_fault e _); [exists []; by rewrite app_nil_r|]. cbn [snd db].
    set (u := prepared_user _ _ _).
    destruct (insert_user_shape u d) as [->|[_ ->]];
      [exists []; by rewrite app_nil_r|].
    by exists [u].
  - rewrite FindByID_run. exists []. by rewrite app_nil_r.
  - rewrite FindByEmail_run. exists []. by rewrite app_nil_r.
  - rewrite token_Create_run. cbv zeta.
    destruct (db_fault e _); [exists []; by rewrite app_nil_r|]. cbn [snd db].
    rewrite insert_refresh_token_users. exists []. by rewrite app_nil_r.
  - rewrite FindByToken_run. exists []. by rewrite app_nil_r.
  - rewrite Revoke_run.
    destruct (db_fault e _); exists []; by rewrite app_nil_r.
  - rewrite RevokeAllByUserID_run.
    destruct (db_fault e _); exists []; by rewrite app_nil_r.
Qed.

Lemma apply_ops_users m os d : ∃ us, users (apply_ops m os d) = users d ++ us.
Proof.
  revert d. induction os as [|[o e] os IH]; intros d.
  - exists []. by rewrite app_nil_r.
  - cbn [apply_ops]. destruct (IH (apply_op m o e d)) as [us2 H2].
    assert (∃ us1, users (apply_op m o e d) = users d ++ us1) as [us1 H1].
    { destruct o as [r|s]; [apply evolves_users, serve_evolves|].
      apply store_users. }
    exists (us1 ++ us2). by rewrite H2, H1, app_assoc.
Qed.

(** An account that can be found by its email keeps being found. *)
Lemma user_by_email_apply_ops m os d email user :
  user_by_email d email = Some user →
  user_by_email (apply_ops m os d) email = Some user.
Proof.
  intros H. destruct (apply_ops_users m os d) as [us Hus].
  unfold user_by_email in *. rewrite Hus. by apply find_app_Some.
Qed.

Lemma user_by_id_apply_ops m os d id user :
  user_by_id d id = Some user →
  user_by_id (apply_ops m os d) id = Some user.
Proof.
  intros H. destruct (apply_ops_users m os d) as [us Hus].
  unfold user_by_id in *. rewrite Hus. by apply find_app_Some.
Qed.

(** ** Register *)

Lemma Register_known_email m e d req user :
  db_fault e (UserRepository_FindByEmail (usecase.RegisterRequest_Email req))
    = None →
  user_by_email d (usecase.RegisterRequest_Email req) = Some user →
  run (authUseCase.Register (service m) req) e d
  = (Err domain.ErrUserAlreadyExists, d,
     [UserRepository_FindByEmail (usecase.RegisterRequest_Email req)]).
Proof.
  intros Hf Hu. rewrite run_unfold, Register_run. cbn [db reads trace app].
  rewrite Hf, Hu. reflexivity.
Qed.

Lemma existsb_false_elim {A : Type} (f : A → bool) (l : list A) (x : A) :
  existsb f l = false → x ∈ l → f x = false.
Proof.
  intros H Hin. destruct (f x) eqn:E; [|done].
  assert (existsb f l = true); [|congruence].
  apply existsb_exists. exists x. split; [by apply list_elem_of_In | done].
Qed.

Lemma insert_user_ok_fresh user d :
  (insert_user user d).2 = None →
  ∀ u, u ∈ users d →
    domain.User_ID u ≠ domain.User_ID user ∧ domain.Email u ≠ domain.Email user.
Proof.
  unfold insert_user.
  destruct (existsb (λ u, String.eqb (domain.User_ID u) _) _) eqn:E1; [done|].
  destruct (existsb (λ u, String.eqb (domain.Email u) _) _) eqn:E2; [done|].
  intros _ u Hu. split; apply String.eqb_neq.
  - exact (existsb_false_elim _ _ u E1 Hu).
  - exact (existsb_false_elim _ _ u E2 Hu).
Qed.

Lemma insert_refresh_token_failed token d err :
  (insert_refresh_token token d).2.2 = Some err →
  refresh_tokens (insert_refresh_token token d).1 = refresh_tokens d.
Proof.
  unfold insert_refresh_token.
  destruct (existsb _ _); [done|]. destruct (existsb _ _); [done|].
  destruct (negb _); done.
Qed.

Lemma token_by_value_appended d0 rows row :
  token_by_value d0 (domain.Token row) = None →
  refresh_tokens d0 = rows →
  ∀ us sq,
    token_by_value {| users := us; refresh_tokens := rows ++ [row];
                      refresh_tokens_id_seq := sq |} (domain.Token row)
    = Some row.
Proof.
  intros Hnone <- us sq. unfold token_by_value in *. cbn [refresh_tokens].
  rewrite find_app_None by done. cbn [List.find]. by rewrite String.eqb_refl.
Qed.

(** ** What the outcome of [generateTokens] tells *)



Lemma generateTokens_ok_inv m user e w resp w' :
  authUseCase.generateTokens (service m) user e w = (Ok resp, w') →
  ∃ (signed : string) (src : nat → byte),
    rsa_sign e (access_claims m e (reads w) (domain.User_ID user)
                  (domain.Email user)) = inl signed
    ∧ entropy e = Some src
    ∧ token_by_value (db w)
        (domain.Token (issued_token m e (reads w) user src)) = None
    ∧ (∃ u, u ∈ users (db w) ∧ domain.User_ID u = domain.User_ID user)
    ∧ db w'
      = with_token (inserted_row (issued_token m e (reads w) user src) (db w))
          (db w)
    ∧ reads w' = (5 + reads w)%nat
    ∧ trace w'
      = trace w
        ++ [JWTManager_GenerateAccessToken (domain.User_ID user)
              (domain.Email user);
            JWTManager_GenerateRefreshToken (domain.User_ID user);
            RefreshTokenRepository_Create
              (hex.EncodeToString (map src (seq 0 32)))]
    ∧ resp = auth_response m signed (hex.EncodeToString (map src (seq 0 32)))
               user.
Proof.
  rewrite generateTokens_run. cbv zeta.
  destruct (rsa_sign e _) as [signed|]; [|discriminate].
  destruct (entropy e) as [src|]; [|discriminate].
  destruct (db_fault e (RefreshTokenRepository_Create _)); [discriminate|].
  fold (issued_token m e (reads w) user src).
  destruct (insert_refresh_token _ _).2.2 eqn:Htok; [discriminate|].
  destruct (insert_refresh_token_ok _ _ Htok eq_refl) as (Hd2 & Hnew & Hfk).
  intros H. injection H as <- <-. cbn [db reads trace].
  exists signed, src. rewrite Hd2, <- !app_assoc.
  repeat split; try done.
Qed.

(** A failing [generateTokens] has stored no refresh token and returns
    one of its three wrapped errors. *)
Lemma generateTokens_err_inv m user e w err w' :
  authUseCase.generateTokens (service m) user e w = (Err err, w') →
  users (db w') = users (db w)
  ∧ refresh_tokens (db w') = refresh_tokens (db w)
  ∧ ∃ inner,
      err = domain.Errorf "failed to generate access token" inner
      ∨ err = domain.Errorf "failed to generate refresh token" inner
      ∨ err = domain.Errorf "failed to save refresh token" inner.
Proof.
  destruct w as [d n tr]. rewrite generateTokens_run. cbv zeta.
  cbn [db reads trace].
  destruct (rsa_sign e _) as [signed|].
  2:{ intros H. injection H as <- <-. eauto 6. }
  destruct (entropy e) as [src|].
  2:{ intros H. injection H as <- <-. eauto 6. }
  destruct (db_fault e (RefreshTokenRepository_Create _)).
  { intros H. injection H as <- <-. eauto 6. }
  destruct (insert_refresh_token _ _).2.2 eqn:Htok; [|discriminate].
  pose proof (insert_refresh_token_failed _ _ _ Htok) as Hrows.
  intros H. injection H as <- <-.
  split; [apply insert_refresh_token_users|]. split; [exact Hrows | eauto 6].
Qed.

(** ** Register *)



Lemma user_by_email_with_user user d :
  domain.DeletedAt user = None →
  user_by_email d (domain.Email user) = None →
  user_by_email (with_user user d) (domain.Email user) = Some user.
Proof.
  intros Hlive Hnone. unfold user_by_email, with_user in *. cbn [users].
  rewrite find_app_None by done. cbn [List.find]. unfold live.
  by rewrite String.eqb_refl, Hlive.
Qed.

Lemma Register_ok_inv m e d req resp d' calls :
  run (authUseCase.Register (service m) req) e d = (Ok resp, d', calls) →
  ∃ (hashed signed : string) (src : nat → byte),
    let user := registered_user e hashed req in
    let d1 := with_user user d in
    let row := inserted_row (issued_token m e 1 user src) d1 in
    bcrypt_GenerateFromPassword e (usecase.RegisterRequest_Password req)
      = inl hashed
    ∧ user_by_email d (usecase.RegisterRequest_Email req) = None
    ∧ (insert_user user d).2 = None
    ∧ token_by_value d1 (domain.Token row) = None
    ∧ d' = with_token row d1
    ∧ resp = auth_response m signed (domain.Token row) user.
Proof.
  rewrite run_unfold, Register_run. cbn [db reads trace app].
  destruct (db_fault e (UserRepository_FindByEmail _)); [discriminate|].
  destruct (user_by_email d _); [discriminate|].
  destruct (bcrypt_GenerateFromPassword e _) as [hashed|]; [|discriminate].
  destruct (db_fault e (UserRepository_Create _)); [discriminate|]. cbv zeta.
  fold (registered_user e hashed req).
  destruct (insert_user (registered_user e hashed req) d).2 eqn:Hins;
    [discriminate|].
  rewrite (insert_user_ok _ _ Hins). fold (with_user (registered_user e hashed req) d).
  destruct (authUseCase.generateTokens _ _ _ _) as [[resp0|err] w'] eqn:Hgen;
    [|discriminate].
  destruct (generateTokens_ok_inv _ _ _ _ _ _ Hgen)
    as (signed & src & _ & _ & Hnew & _ & Hdb & _ & _ & Hresp).
  cbn [db reads] in Hnew, Hdb. cbn [fst snd]. intros H. injection H as <- <- _.
  exists hashed, signed, src. cbv zeta. rewrite Hdb. repeat split; done.
Qed.

(** X1.  What a successful Register has done: it has created exactly one
    account, holding the hash returned by bcrypt and the generated
    identifier, and exactly one refresh token, owned by that account and
    not revoked; no earlier row, live or deleted, had the email or the
    identifier; the response carries the value of the stored token. *)
Theorem Register_success_effects (m : jwt.JWTManager) (e : Env) (d d' : DB)
    (req : usecase.RegisterRequest) (resp : usecase.AuthResponse)
    (calls : list Call) :
  run (authUseCase.Register (service m) req) e d = (Ok resp, d', calls) →
  ∃ (user : domain.User) (row : domain.RefreshToken),
    bcrypt_GenerateFromPassword e (usecase.RegisterRequest_Password req)
      = inl (domain.Password user)
    ∧ domain.Email user = usecase.RegisterRequest_Email req
    ∧ domain.Name user = usecase.RegisterRequest_Name req
    ∧ domain.User_ID user = gonanoid_Generate e
    ∧ domain.DeletedAt user = None
    ∧ (∀ u, u ∈ users d →
         domain.User_ID u ≠ domain.User_ID user
         ∧ domain.Email u ≠ domain.Email user)
    ∧ users d' = users d ++ [user]
    ∧ refresh_tokens d' = refresh_tokens d ++ [row]
    ∧ domain.UserID row = domain.User_ID user
    ∧ domain.IsRevoked row = false
    ∧ domain.ExpiresAt row = clock e 4 + jwt.refreshTokenDuration m
    ∧ token_by_value d' (usecase.RefreshToken resp) = Some row
    ∧ usecase.UserResponse_ID (usecase.User resp) = domain.User_ID user
    ∧ usecase.TokenType resp = "Bearer"
    ∧ usecase.ExpiresIn resp = time.Seconds_int (jwt.accessTokenDuration m).
Proof.
  intros H.
  destruct (Register_ok_inv _ _ _ _ _ _ _ H)
    as (hashed & signed & src & Hhash & Hnone & Hins & Hnew & -> & ->).
  eexists (registered_user e hashed req), _.
  split; [exact Hhash|]. do 4 (split; [reflexivity|]).
  split; [exact (insert_user_ok_fresh _ _ Hins)|].
  do 5 (split; [reflexivity|]).
  split; [|done].
  exact (token_by_value_appended _ _ _ Hnew eq_refl _ _).
Qed.

(** X2.  After a successful Register, every later Register with the same
    email, whatever has run in between, fails with
    [ErrUserAlreadyExists] and changes nothing: no second account is
    created for an email. *)
Theorem Register_twice (m : jwt.JWTManager) (e e2 : Env) (d d' : DB)
    (req req2 : usecase.RegisterRequest) (resp : usecase.AuthResponse)
    (calls : list Call) (os : list (Operation * Env)) :
  run (authUseCase.Register (service m) req) e d = (Ok resp, d', calls) →
  usecase.RegisterRequest_Email req2 = usecase.RegisterRequest_Email req →
  db_fault e2 (UserRepository_FindByEmail (usecase.RegisterRequest_Email req))
    = None →
  run (authUseCase.Register (service m) req2) e2 (apply_ops m os d')
  = (Err domain.ErrUserAlreadyExists, apply_ops m os d',
     [UserRepository_FindByEmail (usecase.RegisterRequest_Email req)]).
Proof.
  intros H Hemail Hfault.
  destruct (Register_ok_inv _ _ _ _ _ _ _ H)
    as (hashed & signed & src & _ & Hnone & _ & _ & -> & _).
  rewrite <- Hemail in *.
  apply (Register_known_email m e2 _ req2 (registered_user e hashed req));
    [exact Hfault|].
  apply user_by_email_apply_ops.
  assert (Hu : user_by_email (with_user (registered_user e hashed req) d)
                 (usecase.RegisterRequest_Email req2)
               = Some (registered_user e hashed req)).
  { rewrite Hemail in *.
    apply (user_by_email_with_user (registered_user e hashed req) d);
      [reflexivity | exact Hnone]. }
  exact Hu.
Qed.

Example sample_register_run :
  run (authUseCase.Register (service sample_manager) sample_register)
    (sample_env 1000 0 "u1") empty_db
  = (Ok sample_response, sample_db, sample_register_calls).
Proof. vm_compute. reflexivity. Qed.

Lemma Register_success_effects_witness :
  ∃ (user : domain.User) (row : domain.RefreshToken),
    bcrypt_GenerateFromPassword (sample_env 1000 0 "u1")
      (usecase.RegisterRequest_Password sample_register)
      = inl (domain.Password user)
    ∧ domain.Email user = usecase.RegisterRequest_Email sample_register
    ∧ domain.Name user = usecase.RegisterRequest_Name sample_register
    ∧ domain.User_ID user = gonanoid_Generate (sample_env 1000 0 "u1")
    ∧ domain.DeletedAt user = None
    ∧ (∀ u, u ∈ users empty_db →
         domain.User_ID u ≠ domain.User_ID user
         ∧ domain.Email u ≠ domain.Email user)
    ∧ users sample_db = users empty_db ++ [user]
    ∧ refresh_tokens sample_db = refresh_tokens empty_db ++ [row]
    ∧ domain.UserID row = domain.User_ID user
    ∧ domain.IsRevoked row = false
    ∧ domain.ExpiresAt row
      = clock (sample_env 1000 0 "u1") 4
        + jwt.refreshTokenDuration sample_manager
    ∧ token_by_value sample_db (usecase.RefreshToken sample_response)
      = Some row
    ∧ usecase.UserResponse_ID (usecase.User sample_response)
      = domain.User_ID user
    ∧ usecase.TokenType sample_response = "Bearer"
    ∧ usecase.ExpiresIn sample_response
      = time.Seconds_int (jwt.accessTokenDuration sample_manager).
Proof.
  apply (Register_success_effects sample_manager (sample_env 1000 0 "u1")
           empty_db sample_db sample_register sample_response
           sample_register_calls).
  vm_compute. reflexivity.
Defined.

Lemma Register_twice_witness :
  run (authUseCase.Register (service sample_manager) sample_register)
    (sample_env 2000 1 "u2")
    (apply_ops sample_manager
       [(UseCase (ReqLogoutAll "u1"), sample_env 1500 9 "u9")] sample_db)
  = (Err domain.ErrUserAlreadyExists,
     apply_ops sample_manager
       [(UseCase (ReqLogoutAll "u1"), sample_env 1500 9 "u9")] sample_db,
     [UserRepository_FindByEmail
        (usecase.RegisterRequest_Email sample_register)]).
Proof.
  apply (Register_twice sample_manager (sample_env 1000 0 "u1")
           (sample_env 2000 1 "u2") empty_db sample_db sample_register
           sample_register sample_response sample_register_calls
           [(UseCase (ReqLogoutAll "u1"), sample_env 1500 9 "u9")]).
  - vm_compute. reflexivity.
  - reflexivity.
  - reflexivity.
Defined.

(** ** Register is not atomic *)

Ltac not_issue_failure H :=
  exfalso; destruct H as [? [H|[H|H]]]; discriminate H.

(** X3.  Register does not undo the insertion of the account when the
    tokens cannot be issued afterwards: it returns the error of
    [generateTokens], the account is stored without any refresh token,
    and from then on a Register with the same email fails with
    [ErrUserAlreadyExists]. *)
Theorem Register_is_not_atomic (m : jwt.JWTManager) (e : Env) (d d' : DB)
    (req : usecase.RegisterRequest) (err : domain.error) (calls : list Call) :
  run (authUseCase.Register (service m) req) e d = (Err err, d', calls) →
  token_issue_failure err →
  ∃ user : domain.User,
    users d' = users d ++ [user]
    ∧ domain.Email user = usecase.RegisterRequest_Email req
    ∧ domain.DeletedAt user = None
    ∧ refresh_tokens d' = refresh_tokens d
    ∧ ∀ (e2 : Env) (os : list (Operation * Env)),
        db_fault e2
          (UserRepository_FindByEmail (usecase.RegisterRequest_Email req))
          = None →
        run (authUseCase.Register (service m) req) e2 (apply_ops m os d')
        = (Err domain.ErrUserAlreadyExists, apply_ops m os d',
           [UserRepository_FindByEmail (usecase.RegisterRequest_Email req)]).
Proof.
  rewrite run_unfold, Register_run. cbn [db reads trace app].
  destruct (db_fault e (UserRepository_FindByEmail _)).
  { intros [= <- _ _] H. not_issue_failure H. }
  destruct (user_by_email d _) eqn:Hnone.
  { intros [= <- _ _] H. not_issue_failure H. }
  destruct (bcrypt_GenerateFromPassword e _) as [hashed|].
  2:{ intros [= <- _ _] H. not_issue_failure H. }
  destruct (db_fault e (UserRepository_Create _)).
  { intros [= <- _ _] H. not_issue_failure H. }
  cbv zeta. fold (registered_user e hashed req).
  destruct (insert_user (registered_user e hashed req) d).2 eqn:Hins.
  { intros [= <- _ _] H. not_issue_failure H. }
  rewrite (insert_user_ok _ _ Hins).
  fold (with_user (registered_user e hashed req) d).
  destruct (authUseCase.generateTokens _ _ _ _) as [[resp0|err0] w'] eqn:Hgen;
    [discriminate|].
  destruct (generateTokens_err_inv _ _ _ _ _ _ Hgen) as (Husers & Hrows & _).
  cbn [db] in Husers, Hrows. cbn [fst snd]. intros H _. injection H as _ <- _.
  exists (registered_user e hashed req).
  split; [exact Husers|]. do 2 (split; [reflexivity|]).
  split; [exact Hrows|].
  intros e2 os Hf.
  apply (Register_known_email m e2 _ req (registered_user e hashed req));
    [exact Hf|].
  apply user_by_email_apply_ops.
  unfold user_by_email. rewrite Husers.
  exact (user_by_email_with_user (registered_user e hashed req) d eq_refl Hnone).
Qed.

Lemma Register_is_not_atomic_witness :
  ∃ user : domain.User,
    users account_only_db = users empty_db ++ [user]
    ∧ domain.Email user = usecase.RegisterRequest_Email sample_register
    ∧ domain.DeletedAt user = None
    ∧ refresh_tokens account_only_db = refresh_tokens empty_db
    ∧ ∀ (e2 : Env) (os : list (Operation * Env)),
        db_fault e2
          (UserRepository_FindByEmail
             (usecase.RegisterRequest_Email sample_register))
          = None →
        run (authUseCase.Register (service sample_manager) sample_register) e2
          (apply_ops sample_manager os account_only_db)
        = (Err domain.ErrUserAlreadyExists,
           apply_ops sample_manager os account_only_db,
           [UserRepository_FindByEmail
              (usecase.RegisterRequest_Email sample_register)]).
Proof.
  apply (Register_is_not_atomic sample_manager (unsigned_env 1000 0 "u1")
           empty_db account_only_db sample_register signing_failure
           [UserRepository_FindByEmail "a@x.com";
            UserRepository_Create "a@x.com";
            JWTManager_GenerateAccessToken "u1" "a@x.com"]).
  - vm_compute. reflexivity.
  - eexists. left. reflexivity.
Defined.

(** ** RefreshToken is not atomic *)

(** X4.  RefreshToken does not undo the revocation when the new pair
    cannot be issued afterwards: it returns the error of
    [generateTokens], the presented record, which was valid, is now
    revoked, no record has been added, and from then on the presented
    value is refused with [ErrRefreshTokenRevoked]. *)
Theorem RefreshToken_is_not_atomic (m : jwt.JWTManager) (e : Env) (d d' : DB)
    (tok : string) (err : domain.error) (calls : list Call) :
  run (authUseCase.RefreshToken (service m) (refresh_request tok)) e d
  = (Err err, d', calls) →
  token_issue_failure err →
  ∃ rt : domain.RefreshToken,
    token_by_value d tok = Some rt
    ∧ domain.IsRevoked rt = false
    ∧ clock e 0 <= domain.ExpiresAt rt
    ∧ token_by_value d' tok = Some (set_revoked (clock e 1) rt)
    ∧ users d' = users d
    ∧ refresh_tokens d'
      = map (revoke_row (λ r, String.eqb (domain.Token r) tok) (clock e 1))
          (refresh_tokens d)
    ∧ ∀ (e2 : Env) (os : list (Operation * Env)),
        db_fault e2 (RefreshTokenRepository_FindByToken tok) = None →
        run (authUseCase.RefreshToken (service m) (refresh_request tok)) e2
          (apply_ops m os d')
        = (Err domain.ErrRefreshTokenRevoked, apply_ops m os d',
           [RefreshTokenRepository_FindByToken tok]).
Proof.
  rewrite run_unfold. unfold refresh_request at 1 2 3. rewrite RefreshToken_run.
  cbn [db reads trace app].
  destruct (db_fault e (RefreshTokenRepository_FindByToken tok)).
  { intros [= <- _ _] H. not_issue_failure H. }
  destruct (token_by_value d tok) as [rt|] eqn:Hrt.
  2:{ intros [= <- _ _] H. not_issue_failure H. }
  destruct (domain.IsRevoked rt) eqn:Hactive.
  { intros [= <- _ _] H. not_issue_failure H. }
  destruct (time.After (clock e 0) (domain.ExpiresAt rt)) eqn:Hexp.
  { intros [= <- _ _] H. not_issue_failure H. }
  destruct (db_fault e (UserRepository_FindByID (domain.UserID rt))).
  { intros [= <- _ _] H. not_issue_failure H. }
  destruct (user_by_id d (domain.UserID rt)) as [user|].
  2:{ intros [= <- _ _] H. not_issue_failure H. }
  destruct (db_fault e (RefreshTokenRepository_Revoke tok)).
  { intros [= <- _ _] H. not_issue_failure H. }
  destruct (authUseCase.generateTokens _ _ _ _) as [[resp0|err0] w'] eqn:Hgen;
    [discriminate|].
  destruct (generateTokens_err_inv _ _ _ _ _ _ Hgen) as (Husers & Hrows & _).
  cbn [db] in Husers, Hrows. cbn [fst snd]. intros H _. injection H as _ <- _.
  assert (Hold : token_by_value (db w') tok = Some (set_revoked (clock e 1) rt)).
  { unfold token_by_value. rewrite Hrows.
    change (token_by_value
              (revoke_where (λ r, String.eqb (domain.Token r) tok) (clock e 1) d)
              tok = Some (set_revoked (clock e 1) rt)).
    rewrite token_by_value_revoke_where, Hrt.
    cbn [fmap option_fmap option_map]. unfold revoke_row.
    apply token_by_value_Some in Hrt as [_ ->]. by rewrite String.eqb_refl. }
  exists rt. split; [reflexivity|]. split; [exact Hactive|].
  split; [unfold time.After in Hexp; by apply Z.ltb_ge|].
  split; [exact Hold|]. split; [exact Husers|]. split; [exact Hrows|].
  intros e2 os Hf.
  exact (revoked_token_is_never_redeemed m os (db w') tok _ e2 Hold eq_refl Hf).
Qed.

Example burned_db_served :
  run (authUseCase.RefreshToken (service sample_manager)
         (refresh_request sample_token)) (unsigned_env 2000 1 "u2") sample_db
  = (Err signing_failure, burned_db,
     [RefreshTokenRepository_FindByToken sample_token;
      UserRepository_FindByID "u1";
      RefreshTokenRepository_Revoke sample_token;
      JWTManager_GenerateAccessToken "u1" "a@x.com"]).
Proof. vm_compute. reflexivity. Qed.

Lemma RefreshToken_is_not_atomic_witness :
  ∃ rt : domain.RefreshToken,
    token_by_value sample_db sample_token = Some rt
    ∧ domain.IsRevoked rt = false
    ∧ clock (unsigned_env 2000 1 "u2") 0 <= domain.ExpiresAt rt
    ∧ token_by_value burned_db sample_token
      = Some (set_revoked (clock (unsigned_env 2000 1 "u2") 1) rt)
    ∧ users burned_db = users sample_db
    ∧ refresh_tokens burned_db
      = map (revoke_row (λ r, String.eqb (domain.Token r) sample_token)
               (clock (unsigned_env 2000 1 "u2") 1))
          (refresh_tokens sample_db)
    ∧ ∀ (e2 : Env) (os : list (Operation * Env)),
        db_fault e2 (RefreshTokenRepository_FindByToken sample_token) = None →
        run (authUseCase.RefreshToken (service sample_manager)
               (refresh_request sample_token)) e2
          (apply_ops sample_manager os burned_db)
        = (Err domain.ErrRefreshTokenRevoked,
           apply_ops sample_manager os burned_db,
           [RefreshTokenRepository_FindByToken sample_token]).
Proof.
  apply (RefreshToken_is_not_atomic sample_manager (unsigned_env 2000 1 "u2")
           sample_db burned_db sample_token signing_failure
           [RefreshTokenRepository_FindByToken sample_token;
            UserRepository_FindByID "u1";
            RefreshTokenRepository_Revoke sample_token;
            JWTManager_GenerateAccessToken "u1" "a@x.com"]).
  - vm_compute. reflexivity.
  - eexists. left. reflexivity.
Defined.

(** ** Login *)

Lemma generateTokens_success m user e w signed src :
  wf (db w) →
  is_Some (user_by_id (db w) (domain.User_ID user)) →
  rsa_sign e (access_claims m e (reads w) (domain.User_ID user)
                (domain.Email user)) = inl signed →
  entropy e = Some src →
  db_fault e (RefreshTokenRepository_Create
                (hex.EncodeToString (map src (seq 0 32)))) = None →
  token_by_value (db w) (hex.EncodeToString (map src (seq 0 32))) = None →
  authUseCase.generateTokens (service m) user e w
  = (Ok (auth_response m signed (hex.EncodeToString (map src (seq 0 32))) user),
     Build_World
       (with_token (inserted_row (issued_token m e (reads w) user src) (db w))
          (db w))
       (5 + reads w)
       (((trace w
            ++ [JWTManager_GenerateAccessToken (domain.User_ID user)
                  (domain.Email user)])
           ++ [JWTManager_GenerateRefreshToken (domain.User_ID user)])
          ++ [RefreshTokenRepository_Create
                (hex.EncodeToString (map src (seq 0 32)))])).
Proof.
  intros Hwf Howner Hsign Hsrc Hfault Hfresh.
  rewrite generateTokens_run. cbv zeta. rewrite Hsign, Hsrc.
  change (domain.Token (new_refresh_token m e (3 + reads w) user src))
    with (hex.EncodeToString (map src (seq 0 32))).
  rewrite Hfault. fold (issued_token m e (reads w) user src).
  rewrite (insert_refresh_token_fresh (issued_token m e (reads w) user src)
             (db w) Hwf eq_refl Howner Hfresh).
  reflexivity.
Qed.

(** X5.  What a successful Login has done: the email belongs to a live
    account whose stored hash bcrypt accepts for the password; the
    accounts are untouched and exactly one refresh token has been added,
    owned by that account, not revoked, expiring [refreshTokenDuration]
    after the clock reading; no earlier token has been revoked. *)
Theorem Login_success_effects (m : jwt.JWTManager) (e : Env) (d d' : DB)
    (email password : string) (resp : usecase.AuthResponse)
    (calls : list Call) :
  run (authUseCase.Login (service m) (login_request email password)) e d
  = (Ok resp, d', calls) →
  ∃ (user : domain.User) (row : domain.RefreshToken),
    user_by_email d email = Some user
    ∧ bcrypt_CompareHashAndPassword e (domain.Password user) password = None
    ∧ users d' = users d
    ∧ refresh_tokens d' = refresh_tokens d ++ [row]
    ∧ domain.UserID row = domain.User_ID user
    ∧ domain.IsRevoked row = false
    ∧ domain.ExpiresAt row = clock e 3 + jwt.refreshTokenDuration m
    ∧ token_by_value d' (usecase.RefreshToken resp) = Some row
    ∧ usecase.UserResponse_ID (usecase.User resp) = domain.User_ID user
    ∧ usecase.UserResponse_Email (usecase.User resp) = email.
Proof.
  rewrite run_unfold. unfold login_request. rewrite Login_run.
  cbn [db reads trace app].
  destruct (db_fault e (UserRepository_FindByEmail email)); [discriminate|].
  destruct (user_by_email d email) as [user|] eqn:Huser; [|discriminate].
  destruct (bcrypt_CompareHashAndPassword e (domain.Password user) password)
    eqn:Hpw; [discriminate|].
  destruct (authUseCase.generateTokens _ _ _ _) as [[resp0|err] w'] eqn:Hgen;
    [|discriminate].
  destruct (generateTokens_ok_inv _ _ _ _ _ _ Hgen)
    as (signed & src & _ & _ & Hnew & _ & Hdb & _ & _ & Hresp).
  cbn [db reads] in Hnew, Hdb. cbn [fst snd]. intros H. injection H as <- <- _.
  rewrite Hdb, Hresp.
  exists user, (inserted_row (issued_token m e 0 user src) d).
  split; [reflexivity|]. split; [exact Hpw|].
  do 5 (split; [reflexivity|]).
  split.
  { exact (token_by_value_appended d _
             (inserted_row (issued_token m e 0 user src) d) Hnew eq_refl _ _). }
  split; [reflexivity|].
  by apply user_by_email_Some in Huser as (_ & ? & _).
Qed.

Example sample_login_run :
  run (authUseCase.Login (service sample_manager)
         (login_request "a@x.com" "pw123456")) (sample_env 2000 1 "u2")
    sample_db
  = (Ok sample_response2, two_token_db, sample_login_calls).
Proof. vm_compute. reflexivity. Qed.

Lemma Login_success_effects_witness :
  ∃ (user : domain.User) (row : domain.RefreshToken),
    user_by_email sample_db "a@x.com" = Some user
    ∧ bcrypt_CompareHashAndPassword (sample_env 2000 1 "u2")
        (domain.Password user) "pw123456" = None
    ∧ users two_token_db = users sample_db
    ∧ refresh_tokens two_token_db = refresh_tokens sample_db ++ [row]
    ∧ domain.UserID row = domain.User_ID user
    ∧ domain.IsRevoked row = false
    ∧ domain.ExpiresAt row
      = clock (sample_env 2000 1 "u2") 3
        + jwt.refreshTokenDuration sample_manager
    ∧ token_by_value two_token_db (usecase.RefreshToken sample_response2)
      = Some row
    ∧ usecase.UserResponse_ID (usecase.User sample_response2)
      = domain.User_ID user
    ∧ usecase.UserResponse_Email (usecase.User sample_response2) = "a@x.com".
Proof.
  apply (Login_success_effects sample_manager (sample_env 2000 1 "u2")
           sample_db two_token_db "a@x.com" "pw123456" sample_response2
           sample_login_calls).
  vm_compute. reflexivity.
Defined.

(** X6.  Register, then Login: after a successful Register on a
    well-formed database, a Login with the same email and password
    succeeds for the same account whenever bcrypt accepts the password
    for the hash it produced and the collaborators answer; the refresh
    token of the registration stays active beside the new one. *)
Theorem Register_then_Login (m : jwt.JWTManager) (e e2 : Env) (d d' : DB)
    (req : usecase.RegisterRequest) (resp : usecase.AuthResponse)
    (calls : list Call) (hashed signed : string) (src : nat → byte) :
  wf d →
  run (authUseCase.Register (service m) req) e d = (Ok resp, d', calls) →
  bcrypt_GenerateFromPassword e (usecase.RegisterRequest_Password req)
    = inl hashed →
  bcrypt_CompareHashAndPassword e2 hashed (usecase.RegisterRequest_Password req)
    = None →
  (∀ c, db_fault e2 c = None) →
  rsa_sign e2 (access_claims m e2 0 (gonanoid_Generate e)
                 (usecase.RegisterRequest_Email req)) = inl signed →
  entropy e2 = Some src →
  token_by_value d' (hex.EncodeToString (map src (seq 0 32))) = None →
  ∃ (d'' : DB) (calls2 : list Call) (first second : domain.RefreshToken),
    run (authUseCase.Login (service m)
           (login_request (usecase.RegisterRequest_Email req)
              (usecase.RegisterRequest_Password req))) e2 d'
    = (Ok (auth_response m signed (hex.EncodeToString (map src (seq 0 32)))
             (registered_user e hashed req)), d'', calls2)
    ∧ token_by_value d'' (usecase.RefreshToken resp) = Some first
    ∧ domain.IsRevoked first = false
    ∧ token_by_value d'' (hex.EncodeToString (map src (seq 0 32))) = Some second
    ∧ domain.IsRevoked second = false
    ∧ domain.UserID first = gonanoid_Generate e
    ∧ domain.UserID second = gonanoid_Generate e.
Proof.
  intros Hwf Hreg Hhash Hpw Hfault Hsign Hsrc Hfresh.
  assert (Hwf' : wf d').
  { pose proof (Register_evolves m req e (Build_World d 0 [])) as Hev.
    rewrite run_unfold in Hreg. injection Hreg as _ <- _.
    exact (wf_evolves _ _ Hev Hwf). }
  destruct (Register_ok_inv _ _ _ _ _ _ _ Hreg)
    as (hashed' & signed1 & src1 & Hhash' & Hnone & Hins & Hnew & Hd' & Hresp).
  assert (hashed' = hashed) as -> by congruence.
  set (user := registered_user e hashed req) in *.
  set (d1 := with_user user d) in *.
  set (row := inserted_row (issued_token m e 1 user src1) d1) in *.
  assert (Huser : user_by_email d' (usecase.RegisterRequest_Email req)
                  = Some user).
  { rewrite Hd'. unfold user_by_email, with_token. cbn [users].
    exact (user_by_email_with_user user d eq_refl Hnone). }
  assert (Hlive : is_Some (user_by_id d' (domain.User_ID user))).
  { apply user_by_email_Some in Huser as (Hin & _ & Hl).
    by apply user_by_id_live. }
  assert (Hfirst : token_by_value d' (usecase.RefreshToken resp) = Some row).
  { rewrite Hd', Hresp.
    exact (token_by_value_appended _ _ _ Hnew eq_refl _ _). }
  rewrite run_unfold. unfold login_request. rewrite Login_run.
  cbn [db reads trace app]. rewrite Hfault, Huser.
  change (domain.Password user) with hashed. rewrite Hpw.
  rewrite (generateTokens_success m user e2 (Build_World d' 0 _) signed src);
    [|exact Hwf'|exact Hlive|exact Hsign|exact Hsrc|apply Hfault|exact Hfresh].
  cbn [fst snd db reads trace].
  eexists _, _, row, _. split; [reflexivity|].
  split.
  { unfold token_by_value, with_token. cbn [refresh_tokens].
    by apply find_app_Some. }
  split; [reflexivity|].
  split.
  { exact (token_by_value_appended d' _
             (inserted_row (issued_token m e2 0 user src) d') Hfresh eq_refl
             _ _). }
  done.
Qed.

Lemma Register_then_Login_witness :
  ∃ (d'' : DB) (calls2 : list Call) (first second : domain.RefreshToken),
    run (authUseCase.Login (service sample_manager)
           (login_request (usecase.RegisterRequest_Email sample_register)
              (usecase.RegisterRequest_Password sample_register)))
      (sample_env 2000 1 "u2") sample_db
    = (Ok (auth_response sample_manager "signed:u1"
             (hex.EncodeToString (map (λ k, sample_byte (1 + k)) (seq 0 32)))
             (registered_user (sample_env 1000 0 "u1") "bcrypt:pw123456"
                sample_register)), d'', calls2)
    ∧ token_by_value d'' (usecase.RefreshToken sample_response) = Some first
    ∧ domain.IsRevoked first = false
    ∧ token_by_value d''
        (hex.EncodeToString (map (λ k, sample_byte (1 + k)) (seq 0 32)))
      = Some second
    ∧ domain.IsRevoked second = false
    ∧ domain.UserID first = gonanoid_Generate (sample_env 1000 0 "u1")
    ∧ domain.UserID second = gonanoid_Generate (sample_env 1000 0 "u1").
Proof.
  apply (Register_then_Login sample_manager (sample_env 1000 0 "u1")
           (sample_env 2000 1 "u2") empty_db sample_db sample_register
           sample_response sample_register_calls "bcrypt:pw123456" "signed:u1"
           (λ k, sample_byte (1 + k))).
  - exact wf_empty.
  - vm_compute. reflexivity.
  - reflexivity.
  - reflexivity.
  - intros c. reflexivity.
  - reflexivity.
  - reflexivity.
  - vm_compute. reflexivity.
Defined.

(** ** Accounts *)

(** X7.  No use-case method and none of the store operations it invokes
    removes or changes an account: after any sequence of them the
    accounts table is the earlier one with rows added at the end, and
    every account that could be found by its email or by its identifier
    is still found, with the same data. *)
Theorem accounts_are_only_added (m : jwt.JWTManager)
    (os : list (Operation * Env)) (d : DB) :
  (∃ us : list domain.User, users (apply_ops m os d) = users d ++ us)
  ∧ (∀ (email : string) (user : domain.User),
       user_by_email d email = Some user →
       user_by_email (apply_ops m os d) email = Some user)
  ∧ (∀ (id : string) (user : domain.User),
       user_by_id d id = Some user →
       user_by_id (apply_ops m os d) id = Some user).
Proof.
  split; [apply apply_ops_users|]. split.
  - intros email user. apply user_by_email_apply_ops.
  - intros id user. apply user_by_id_apply_ops.
Qed.

Lemma unique_accounts_insert_user user d :
  unique_accounts d → unique_accounts (insert_user user d).1.
Proof.
  intros [Hids Hemails].
  destruct (insert_user user d).2 eqn:Hins.
  { by rewrite (insert_user_failed _ _ _ Hins). }
  rewrite (insert_user_ok _ _ Hins).
  pose proof (insert_user_ok_fresh _ _ Hins) as Hfresh.
  split; cbn [users]; rewrite fmap_app; apply NoDup_app;
    (split; [done|]); (split; [|apply NoDup_singleton]);
    intros x Hx Hx'; apply list_elem_of_singleton in Hx'; subst x;
    apply list_elem_of_fmap in Hx as (u & Hu & Hin);
    destruct (Hfresh u Hin); congruence.
Qed.

Lemma unique_accounts_same_users d d' :
  users d' = users d → unique_accounts d → unique_accounts d'.
Proof. unfold unique_accounts. by intros ->. Qed.

Lemma unique_accounts_evolves d d' :
  evolves d d' → unique_accounts d → unique_accounts d'.
Proof.
  induction 1 as [d | cond now d d' _ IH | user d d' _ IH
                  | token d d' _ _ _ IH]; intros Hu.
  - exact Hu.
  - apply IH. exact Hu.
  - apply IH. by apply unique_accounts_insert_user.
  - apply IH.
    exact (unique_accounts_same_users _ _ (insert_refresh_token_users _ _) Hu).
Qed.

Lemma unique_accounts_store s e d :
  unique_accounts d → unique_accounts (store s e d).
Proof.
  intros Hu.
  destruct s as [user|id|email|token|tok|tok|uid]; unfold store;
    rewrite run_unfold; cbn [fst snd].
  - rewrite user_Create_run. cbv zeta.
    destruct (db_fault e _); [exact Hu|]. cbn [snd db].
    by apply unique_accounts_insert_user.
  - rewrite FindByID_run. exact Hu.
  - rewrite FindByEmail_run. exact Hu.
  - rewrite token_Create_run. cbv zeta.
    destruct (db_fault e _); [exact Hu|]. cbn [snd db].
    exact (unique_accounts_same_users _ _ (insert_refresh_token_users _ _) Hu).
  - rewrite FindByToken_run. exact Hu.
  - rewrite Revoke_run. destruct (db_fault e _); exact Hu.
  - rewrite RevokeAllByUserID_run. destruct (db_fault e _); exact Hu.
Qed.

(** X8.  The identifiers and the emails of the stored accounts, deleted
    ones included, stay pairwise distinct under every sequence of
    use-case methods and store operations: an insertion that would
    repeat one is refused. *)
Theorem accounts_stay_unique (m : jwt.JWTManager)
    (os : list (Operation * Env)) (d : DB) :
  unique_accounts d → unique_accounts (apply_ops m os d).
Proof.
  revert d. induction os as [|[o e] os IH]; intros d Hu; [exact Hu|].
  cbn [apply_ops]. apply IH. destruct o as [r|s].
  - exact (unique_accounts_evolves _ _ (serve_evolves m r e d) Hu).
  - by apply unique_accounts_store.
Qed.

Lemma unique_accounts_empty : unique_accounts empty_db.
Proof. split; apply NoDup_nil_2. Qed.

Lemma accounts_stay_unique_witness :
  unique_accounts
    (apply_ops sample_manager
       [(UseCase (ReqRegister sample_register), sample_env 1000 0 "u1");
        (UseCase (ReqRegister sample_register), sample_env 2000 1 "u2")]
       empty_db).
Proof.
  apply (accounts_stay_unique sample_manager
           [(UseCase (ReqRegister sample_register), sample_env 1000 0 "u1");
            (UseCase (ReqRegister sample_register), sample_env 2000 1 "u2")]
           empty_db).
  exact unique_accounts_empty.
Defined.

(** ** Deleted accounts *)

Lemma Delete_run (id : string) (e : Env) (w : World) :
  userRepository.Delete id e w =
  match db_fault e (UserRepository_Delete id) with
  | Some text =>
      (Some (domain.library_error text),
       Build_World (db w) (S (reads w)) (trace w ++ [UserRepository_Delete id]))
  | None =>
      (None,
       Build_World (soft_delete_user id (clock e (reads w)) (db w))
         (S (reads w)) (trace w ++ [UserRepository_Delete id]))
  end.
Proof.
  unfold userRepository.Delete. munfold. cbn [db reads trace].
  destruct (db_fault e _); reflexivity.
Qed.

Lemma GetUserByID_run m id e w :
  authUseCase.GetUserByID (service m) id e w =
  (match db_fault e (UserRepository_FindByID id) with
   | Some text => Err (domain.library_error text)
   | None => match user_by_id (db w) id with
             | Some user =>
                 Ok {| usecase.UserResponse_ID := domain.User_ID user;
                       usecase.UserResponse_Email := domain.Email user;
                       usecase.UserResponse_Name := domain.Name user |}
             | None => Err domain.ErrUserNotFound
             end
   end,
   Build_World (db w) (reads w) (trace w ++ [UserRepository_FindByID id])).
Proof.
  unfold authUseCase.GetUserByID. service_unfold. rewrite FindByID_run.
  destruct (db_fault e _); [reflexivity|].
  destruct (user_by_id _ _); reflexivity.
Qed.

Lemma soft_delete_user_rows id now d :
  users (soft_delete_user id now d)
  = map (λ u, if String.eqb (domain.User_ID u) id && live u
              then deleted_at now u else u) (users d).
Proof. reflexivity. Qed.

Lemma user_by_id_soft_delete id now d :
  user_by_id (soft_delete_user id now d) id = None.
Proof.
  unfold user_by_id. rewrite soft_delete_user_rows.
  induction (users d) as [|u us IH]; [reflexivity|].
  cbn [map List.find].
  destruct (String.eqb (domain.User_ID u) id && live u) eqn:E.
  - cbn [deleted_at domain.User_ID live domain.DeletedAt].
    rewrite andb_false_r. exact IH.
  - rewrite E. exact IH.
Qed.

Lemma find_none_not_in {A : Type} (f : A → bool) (l : list A) :
  (∀ x, x ∈ l → f x = false) → List.find f l = None.
Proof.
  induction l as [|a l IH]; intros H; [reflexivity|]. cbn [List.find].
  rewrite (H a) by left. apply IH. intros x Hx. apply H. by right.
Qed.

Lemma user_by_email_soft_delete d email user now :
  NoDup (domain.Email <$> users d) →
  user_by_email d email = Some user →
  user_by_email (soft_delete_user (domain.User_ID user) now d) email = None.
Proof.
  unfold user_by_email. rewrite soft_delete_user_rows.
  induction (users d) as [|u us IH]; [discriminate|].
  rewrite fmap_cons. intros [Hnotin Hnodup]%NoDup_cons.
  cbn [map List.find].
  destruct (String.eqb (domain.Email u) email) eqn:Hemail.
  - apply String.eqb_eq in Hemail.
    assert (Hrest : ∀ (g : domain.User → domain.User),
              (∀ x, domain.Email (g x) = domain.Email x) →
              List.find (λ x, String.eqb (domain.Email x) email && live x)
                (map g us) = None).
    { intros g Hg. apply find_none_not_in. intros x Hx.
      apply list_elem_of_fmap in Hx as (y & -> & Hy).
      rewrite Hg. destruct (String.eqb (domain.Email y) email) eqn:E;
        [|reflexivity].
      apply String.eqb_eq in E. exfalso. apply Hnotin.
      apply list_elem_of_fmap. exists y. split; [congruence|done]. }
    destruct (live u) eqn:Hlive; cbn [andb].
    + intros [= ->]. rewrite String.eqb_refl. cbn [andb].
      cbn [deleted_at domain.Email live domain.DeletedAt].
      rewrite andb_false_r. apply Hrest. intros x. by destruct (_ && _).
    + intros Hfind. exfalso.
      apply find_some in Hfind as [Hin Hc].
      apply andb_true_iff in Hc as [Hc _]. apply String.eqb_eq in Hc.
      apply Hnotin. apply list_elem_of_fmap. exists user.
      split; [congruence | by apply list_elem_of_In].
  - cbn [andb]. intros Hfind.
    assert (Hhead : String.eqb
                      (domain.Email
                         (if String.eqb (domain.User_ID u) (domain.User_ID user)
                             && live u
                          then deleted_at now u else u)) email = false).
    { by destruct (_ && _). }
    rewrite Hhead. cbn [andb]. by apply IH.
Qed.

Lemma existsb_email_soft_delete d email user id now :
  user_by_email d email = Some user →
  existsb (λ u, String.eqb (domain.Email u) email)
    (users (soft_delete_user id now d)) = true.
Proof.
  intros Hfind. apply user_by_email_Some in Hfind as (Hin & Hemail & _).
  rewrite soft_delete_user_rows. apply existsb_exists.
  eexists. split.
  - apply in_map. apply list_elem_of_In. exact Hin.
  - cbv beta. destruct (_ && _); cbn [deleted_at domain.Email];
      by rewrite Hemail, String.eqb_refl.
Qed.

(** X9.  A deleted account is locked out.  Once [Delete] has soft-deleted
    the account that owns an email, Login with that email fails with
    [ErrInvalidCredentials] whatever the password, GetUserByID with its
    identifier fails with [ErrUserNotFound], and Register with that
    email fails at the insertion (the unique index on the email covers
    the deleted row) with the wrapped error, leaving the tables as they
    were. *)
Theorem deleted_account_is_locked_out (m : jwt.JWTManager) (e0 : Env)
    (d d1 : DB) (email : string) (user : domain.User) (calls : list Call) :
  NoDup (domain.Email <$> users d) →
  user_by_email d email = Some user →
  run (userRepository.Delete (domain.User_ID user)) e0 d = (None, d1, calls) →
  (∀ (e : Env) (password : string),
     db_fault e (UserRepository_FindByEmail email) = None →
     run (authUseCase.Login (service m) (login_request email password)) e d1
     = (Err domain.ErrInvalidCredentials, d1,
        [UserRepository_FindByEmail email]))
  ∧ (∀ e : Env,
       db_fault e (UserRepository_FindByID (domain.User_ID user)) = None →
       run (authUseCase.GetUserByID (service m) (domain.User_ID user)) e d1
       = (Err domain.ErrUserNotFound, d1,
          [UserRepository_FindByID (domain.User_ID user)]))
  ∧ (∀ (e : Env) (req : usecase.RegisterRequest) (hashed : string),
       usecase.RegisterRequest_Email req = email →
       db_fault e (UserRepository_FindByEmail email) = None →
       db_fault e (UserRepository_Create email) = None →
       bcrypt_GenerateFromPassword e (usecase.RegisterRequest_Password req)
         = inl hashed →
       ∃ inner : domain.error,
         run (authUseCase.Register (service m) req) e d1
         = (Err (domain.Errorf "failed to create user" inner), d1,
            [UserRepository_FindByEmail email; UserRepository_Create email])).
Proof.
  intros Hnodup Huser. rewrite run_unfold, Delete_run. cbn [db reads trace app].
  destruct (db_fault e0 (UserRepository_Delete _)); [discriminate|].
  cbn [fst snd db trace]. intros H. injection H as <- _.
  pose proof (user_by_email_soft_delete d email user (clock e0 0) Hnodup Huser)
    as Hgone.
  split; [|split].
  - intros e password Hf. rewrite run_unfold. unfold login_request.
    rewrite Login_run. cbn [db reads trace app]. by rewrite Hf, Hgone.
  - intros e Hf. rewrite run_unfold, GetUserByID_run. cbn [db reads trace app].
    by rewrite Hf, user_by_id_soft_delete.
  - intros e req hashed Hemail Hf1 Hf2 Hhash.
    rewrite run_unfold, Register_run. cbn [db reads trace app]. cbv zeta.
    rewrite Hemail, Hf1, Hgone, Hhash, Hf2.
    set (new := prepared_user _ _ _).
    assert (Hsome : is_Some (insert_user new
                      (soft_delete_user (domain.User_ID user) (clock e0 0) d)).2).
    { unfold insert_user. destruct (existsb _ _); [eauto|].
      change (domain.Email new) with (usecase.RegisterRequest_Email req).
      rewrite Hemail.
      rewrite (existsb_email_soft_delete d email user _ _ Huser). eauto. }
    destruct Hsome as [err Herr]. rewrite Herr.
    rewrite (insert_user_failed _ _ _ Herr). cbn [fst snd db trace]. eauto.
Qed.

Lemma deleted_account_is_locked_out_witness :
  (∀ (e : Env) (password : string),
     db_fault e (UserRepository_FindByEmail "a@x.com") = None →
     run (authUseCase.Login (service sample_manager)
            (login_request "a@x.com" password)) e orphan_db
     = (Err domain.ErrInvalidCredentials, orphan_db,
        [UserRepository_FindByEmail "a@x.com"]))
  ∧ (∀ e : Env,
       db_fault e (UserRepository_FindByID (domain.User_ID sample_user))
         = None →
       run (authUseCase.GetUserByID (service sample_manager)
              (domain.User_ID sample_user)) e orphan_db
       = (Err domain.ErrUserNotFound, orphan_db,
          [UserRepository_FindByID (domain.User_ID sample_user)]))
  ∧ (∀ (e : Env) (req : usecase.RegisterRequest) (hashed : string),
       usecase.RegisterRequest_Email req = "a@x.com" →
       db_fault e (UserRepository_FindByEmail "a@x.com") = None →
       db_fault e (UserRepository_Create "a@x.com") = None →
       bcrypt_GenerateFromPassword e (usecase.RegisterRequest_Password req)
         = inl hashed →
       ∃ inner : domain.error,
         run (authUseCase.Register (service sample_manager) req) e orphan_db
         = (Err (domain.Errorf "failed to create user" inner), orphan_db,
            [UserRepository_FindByEmail "a@x.com";
             UserRepository_Create "a@x.com"])).
Proof.
  apply (deleted_account_is_locked_out sample_manager (sample_env 1500 5 "u9")
           sample_db orphan_db "a@x.com" sample_user
           [UserRepository_Delete "u1"]).
  - apply (NoDup_singleton "a@x.com").
  - reflexivity.
  - vm_compute. reflexivity.
Defined.

(** ** The refresh-token repository: listing and sweeping *)

Lemma FindByUserID_run (uid : string) (e : Env) (w : World) :
  refreshTokenRepository.FindByUserID uid e w =
  (match db_fault e (RefreshTokenRepository_FindByUserID uid) with
   | Some text => ([], Some (domain.library_error text))
   | None =>
       (List.filter (λ r, String.eqb (domain.UserID r) uid
                          && negb (domain.IsRevoked r)) (refresh_tokens (db w)),
        None)
   end,
   Build_World (db w) (reads w)
     (trace w ++ [RefreshTokenRepository_FindByUserID uid])).
Proof.
  unfold refreshTokenRepository.FindByUserID. munfold. cbn [db reads trace].
  destruct (db_fault e _); [reflexivity|]. by destruct w.
Qed.

Lemma DeleteExpired_run (e : Env) (w : World) :
  refreshTokenRepository.DeleteExpired e w =
  match db_fault e RefreshTokenRepository_DeleteExpired with
  | Some text =>
      (Some (domain.library_error text),
       Build_World (db w) (S (reads w))
         (trace w ++ [RefreshTokenRepository_DeleteExpired]))
  | None =>
      (None,
       Build_World (delete_expired (clock e (reads w)) (db w)) (S (reads w))
         (trace w ++ [RefreshTokenRepository_DeleteExpired]))
  end.
Proof.
  unfold refreshTokenRepository.DeleteExpired. munfold. cbn [db reads trace].
  destruct (db_fault e _); reflexivity.
Qed.

Lemma List_filter_sublist {A : Type} (f : A → bool) (l : list A) :
  List.filter f l `sublist_of` l.
Proof.
  induction l as [|a l IH]; cbn [List.filter]; [constructor|].
  destruct (f a); by constructor.
Qed.

Lemma RefreshToken_revoked_iff (m : jwt.JWTManager) (e : Env) (d : DB)
    (tok : string) (rt : domain.RefreshToken) :
  db_fault e (RefreshTokenRepository_FindByToken tok) = None →
  token_by_value d tok = Some rt →
  (run (authUseCase.RefreshToken (service m) (refresh_request tok)) e d).1.1
    = Err domain.ErrRefreshTokenRevoked
  ↔ domain.IsRevoked rt = true.
Proof.
  intros Hf Hrt. rewrite run_unfold. cbn [fst]. unfold refresh_request.
  rewrite RefreshToken_run. cbn [db reads trace app]. rewrite Hf, Hrt.
  destruct (domain.IsRevoked rt); [done|].
  destruct (time.After _ _); [done|].
  destruct (db_fault e (UserRepository_FindByID _)); [done|].
  destruct (user_by_id d _); [|done].
  destruct (db_fault e (RefreshTokenRepository_Revoke tok)); [done|].
  destruct (authUseCase.generateTokens _ _ _ _) as [[resp|err] w'] eqn:Hgen;
    [done|].
  destruct (generateTokens_err_inv _ _ _ _ _ _ Hgen)
    as (_ & _ & inner & [-> | [-> | ->]]); done.
Qed.

Lemma wf_stale_db : wf stale_db.
Proof.
  split.
  - intros r Hr. repeat (apply elem_of_cons in Hr as [->|Hr]); [| |inversion Hr];
      vm_compute; discriminate.
  - intros r Hr. repeat (apply elem_of_cons in Hr as [->|Hr]); [| |inversion Hr];
      vm_compute; eauto.
  - vm_compute. repeat constructor; intros H; inversion H; subst;
      try discriminate; match goal with H : _ ∈ [] |- _ => inversion H
                        | H : _ ∈ _ :: _ |- _ => inversion H end.
Qed.

(** X10.  [FindByUserID] and RefreshToken agree on which sessions of an
    account are open.  Where refresh-token values are unique, the
    records [FindByUserID] returns are records of the account, and a
    record of the account is among them exactly when RefreshToken does
    not refuse its value as revoked; nothing is changed by the
    listing. *)
Theorem FindByUserID_agrees_with_RefreshToken (m : jwt.JWTManager)
    (uid : string) (e e' : Env) (d : DB) :
  NoDup (domain.Token <$> refresh_tokens d) →
  db_fault e (RefreshTokenRepository_FindByUserID uid) = None →
  (∀ tok, db_fault e' (RefreshTokenRepository_FindByToken tok) = None) →
  ∃ rows : list domain.RefreshToken,
    run (refreshTokenRepository.FindByUserID uid) e d
    = ((rows, None), d, [RefreshTokenRepository_FindByUserID uid])
    ∧ (∀ r, r ∈ rows → r ∈ refresh_tokens d ∧ domain.UserID r = uid)
    ∧ ∀ r, r ∈ refresh_tokens d → domain.UserID r = uid →
        (r ∈ rows
         ↔ (run (authUseCase.RefreshToken (service m)
                   (refresh_request (domain.Token r))) e' d).1.1
           ≠ Err domain.ErrRefreshTokenRevoked).
Proof.
  intros Hnodup Hf Hf'. rewrite run_unfold, FindByUserID_run, Hf.
  cbn [db trace app fst snd]. eexists. split; [reflexivity|].
  assert (Hin : ∀ r, r ∈ List.filter
                         (λ r, String.eqb (domain.UserID r) uid
                               && negb (domain.IsRevoked r)) (refresh_tokens d)
                     ↔ r ∈ refresh_tokens d ∧ domain.UserID r = uid
                       ∧ domain.IsRevoked r = false).
  { intros r. rewrite !list_elem_of_In, filter_In.
    rewrite andb_true_iff, String.eqb_eq, negb_true_iff. tauto. }
  split.
  - intros r Hr. apply Hin in Hr. tauto.
  - intros r Hr Howner.
    pose proof (token_by_value_stored d r Hnodup Hr) as Hfind.
    rewrite (RefreshToken_revoked_iff m e' d _ r (Hf' _) Hfind), Hin.
    destruct (domain.IsRevoked r); split; intros H; try tauto; try done.
    by destruct H as (_ & _ & H).
Qed.

Lemma FindByUserID_agrees_with_RefreshToken_witness :
  ∃ rows : list domain.RefreshToken,
    run (refreshTokenRepository.FindByUserID "u1") (sample_env 4000 3 "u4")
      stale_db
    = ((rows, None), stale_db, [RefreshTokenRepository_FindByUserID "u1"])
    ∧ (∀ r, r ∈ rows → r ∈ refresh_tokens stale_db ∧ domain.UserID r = "u1")
    ∧ ∀ r, r ∈ refresh_tokens stale_db → domain.UserID r = "u1" →
        (r ∈ rows
         ↔ (run (authUseCase.RefreshToken (service sample_manager)
                   (refresh_request (domain.Token r)))
              (sample_env 5000 4 "u5") stale_db).1.1
           ≠ Err domain.ErrRefreshTokenRevoked).
Proof.
  apply (FindByUserID_agrees_with_RefreshToken sample_manager "u1"
           (sample_env 4000 3 "u4") (sample_env 5000 4 "u5") stale_db).
  - exact (wf_tokens stale_db wf_stale_db).
  - reflexivity.
  - intros tok. reflexivity.
Defined.

Lemma filter_nil_iff {A : Type} (f : A → bool) (l : list A) :
  (∀ x, x ∈ l → f x = false) → List.filter f l = [].
Proof.
  induction l as [|a l IH]; intros H; [reflexivity|]. cbn [List.filter].
  rewrite (H a) by left. apply IH. intros x Hx. apply H. by right.
Qed.

(** X11.  After a [RevokeAllByUserID] that returns nil, [FindByUserID]
    lists nothing for that account, and for every other account it lists
    what it listed before. *)
Theorem FindByUserID_after_RevokeAllByUserID (uid : string) (e e2 : Env)
    (d d' : DB) (calls : list Call) :
  run (refreshTokenRepository.RevokeAllByUserID uid) e d = (None, d', calls) →
  (db_fault e2 (RefreshTokenRepository_FindByUserID uid) = None →
   run (refreshTokenRepository.FindByUserID uid) e2 d'
   = (([], None), d', [RefreshTokenRepository_FindByUserID uid]))
  ∧ ∀ other : string,
      other ≠ uid →
      (run (refreshTokenRepository.FindByUserID other) e2 d').1.1
      = (run (refreshTokenRepository.FindByUserID other) e2 d).1.1.
Proof.
  rewrite run_unfold, RevokeAllByUserID_run. cbn [db reads trace app].
  destruct (db_fault e (RefreshTokenRepository_RevokeAllByUserID uid));
    [discriminate|].
  cbn [fst snd db trace]. intros H. injection H as <- _.
  split.
  - intros Hf. rewrite run_unfold, FindByUserID_run, Hf.
    cbn [db trace app fst snd]. rewrite revoke_where_rows.
    rewrite filter_nil_iff; [reflexivity|].
    intros r Hr. apply list_elem_of_fmap in Hr as (r0 & -> & _).
    unfold revoke_row.
    destruct (String.eqb (domain.UserID r0) uid) eqn:E.
    + cbn [set_revoked domain.UserID domain.IsRevoked]. by rewrite E.
    + by rewrite E.
  - intros other Hother. rewrite !run_unfold, !FindByUserID_run.
    cbn [db fst]. destruct (db_fault e2 _); [reflexivity|].
    rewrite revoke_where_rows. f_equal.
    induction (refresh_tokens d) as [|r rs IH]; [reflexivity|].
    cbn [map List.filter]. rewrite IH. unfold revoke_row.
    destruct (String.eqb (domain.UserID r) uid) eqn:E; [|reflexivity].
    apply String.eqb_eq in E.
    cbn [set_revoked domain.UserID domain.IsRevoked].
    assert (String.eqb (domain.UserID r) other = false) as ->; [|reflexivity].
    apply String.eqb_neq. congruence.
Qed.

Lemma FindByUserID_after_RevokeAllByUserID_witness :
  (db_fault (sample_env 4000 3 "u4") (RefreshTokenRepository_FindByUserID "u1")
   = None →
   run (refreshTokenRepository.FindByUserID "u1") (sample_env 4000 3 "u4")
     logged_out_db
   = (([], None), logged_out_db, [RefreshTokenRepository_FindByUserID "u1"]))
  ∧ ∀ other : string,
      other ≠ "u1" →
      (run (refreshTokenRepository.FindByUserID other)
         (sample_env 4000 3 "u4") logged_out_db).1.1
      = (run (refreshTokenRepository.FindByUserID other)
           (sample_env 4000 3 "u4") two_token_db).1.1.
Proof.
  apply (FindByUserID_after_RevokeAllByUserID "u1" (sample_env 3000 2 "u3")
           (sample_env 4000 3 "u4") two_token_db logged_out_db
           [RefreshTokenRepository_RevokeAllByUserID "u1"]).
  vm_compute. reflexivity.
Defined.

(** X12.  [DeleteExpired] removes exactly the records that [IsExpired]
    reports as expired at the same clock reading: a record whose expiry
    is the reading itself or later is kept, revoked or not, and the
    accounts and the sequence are untouched. *)
Theorem DeleteExpired_removes_exactly_the_expired (e : Env) (d : DB) :
  db_fault e RefreshTokenRepository_DeleteExpired = None →
  ∃ d' : DB,
    run refreshTokenRepository.DeleteExpired e d
    = (None, d', [RefreshTokenRepository_DeleteExpired])
    ∧ users d' = users d
    ∧ refresh_tokens_id_seq d' = refresh_tokens_id_seq d
    ∧ refresh_tokens d' `sublist_of` refresh_tokens d
    ∧ ∀ r, r ∈ refresh_tokens d' ↔
           r ∈ refresh_tokens d
           ∧ (run (RefreshToken.IsExpired r) e d).1.1 = false.
Proof.
  intros Hf. rewrite run_unfold, DeleteExpired_run, Hf.
  cbn [db reads trace app fst snd]. eexists. split; [reflexivity|].
  do 2 (split; [reflexivity|]). split; [apply List_filter_sublist|].
  intros r. cbn [delete_expired refresh_tokens].
  rewrite !list_elem_of_In, filter_In.
  rewrite negb_true_iff. reflexivity.
Qed.

Example swept_db_served :
  run refreshTokenRepository.DeleteExpired
    (sample_env 604800000001005 0 "u9") stale_db
  = (None, swept_db, [RefreshTokenRepository_DeleteExpired]).
Proof. vm_compute. reflexivity. Qed.

Lemma DeleteExpired_removes_exactly_the_expired_witness :
  ∃ d' : DB,
    run refreshTokenRepository.DeleteExpired
      (sample_env 604800000001005 0 "u9") stale_db
    = (None, d', [RefreshTokenRepository_DeleteExpired])
    ∧ users d' = users stale_db
    ∧ refresh_tokens_id_seq d' = refresh_tokens_id_seq stale_db
    ∧ refresh_tokens d' `sublist_of` refresh_tokens stale_db
    ∧ ∀ r, r ∈ refresh_tokens d' ↔
           r ∈ refresh_tokens stale_db
           ∧ (run (RefreshToken.IsExpired r)
                (sample_env 604800000001005 0 "u9") stale_db).1.1 = false.
Proof.
  apply (DeleteExpired_removes_exactly_the_expired
           (sample_env 604800000001005 0 "u9") stale_db).
  reflexivity.
Defined.

Lemma find_filter_first {A : Type} (f g : A → bool) (l : list A) (x : A) :
  List.find f l = Some x → g x = true →
  List.find f (List.filter g l) = Some x.
Proof.
  induction l as [|a l IH]; [discriminate|]. cbn [List.find List.filter].
  destruct (f a) eqn:Ef.
  - intros [= ->] Hg. rewrite Hg. cbn [List.find]. by rewrite Ef.
  - intros Hfind Hg. destruct (g a); [cbn [List.find]; rewrite Ef|]; by apply IH.
Qed.

Lemma wf_delete_expired now d : wf d → wf (delete_expired now d).
Proof.
  intros [Hids Howners Htokens]. split; cbn [delete_expired refresh_tokens].
  - intros r Hr. apply Hids. apply list_elem_of_In in Hr.
    apply filter_In in Hr as [Hr _]. by apply list_elem_of_In.
  - intros r Hr. apply list_elem_of_In in Hr.
    apply filter_In in Hr as [Hr _]. apply list_elem_of_In in Hr.
    exact (Howners r Hr).
  - apply (sublist_NoDup _ (domain.Token <$> refresh_tokens d));
      [exact Htokens | apply fmap_sublist, List_filter_sublist].
Qed.

(** X13.  The sweep and the refresh flow.  On a well-formed database,
    after a [DeleteExpired] that returns nil the database is still
    well-formed; a record that had expired before the sweep is gone, so
    that RefreshToken with its value now fails with [ErrInvalidToken]
    (and no longer with [ErrRefreshTokenExpired] or
    [ErrRefreshTokenRevoked]); a record that had not expired is still
    found, unchanged. *)
Theorem DeleteExpired_then_RefreshToken (m : jwt.JWTManager) (e : Env)
    (d d' : DB) (tok : string) (rt : domain.RefreshToken) (calls : list Call) :
  wf d →
  token_by_value d tok = Some rt →
  run refreshTokenRepository.DeleteExpired e d = (None, d', calls) →
  wf d'
  ∧ (domain.ExpiresAt rt < clock e 0 →
     ∀ e2 : Env,
       db_fault e2 (RefreshTokenRepository_FindByToken tok) = None →
       run (authUseCase.RefreshToken (service m) (refresh_request tok)) e2 d'
       = (Err domain.ErrInvalidToken, d',
          [RefreshTokenRepository_FindByToken tok]))
  ∧ (clock e 0 <= domain.ExpiresAt rt → token_by_value d' tok = Some rt).
Proof.
  intros Hwf Hrt. rewrite run_unfold, DeleteExpired_run.
  cbn [db reads trace app].
  destruct (db_fault e RefreshTokenRepository_DeleteExpired); [discriminate|].
  cbn [fst snd db trace]. intros H. injection H as <- _.
  split; [by apply wf_delete_expired|]. split.
  - intros Hexp e2 Hf.
    assert (Hgone : token_by_value (delete_expired (clock e 0) d) tok = None).
    { apply token_by_value_None. intros Hin.
      apply list_elem_of_fmap in Hin as (r & Htok & Hr).
      cbn [delete_expired refresh_tokens] in Hr.
      apply list_elem_of_In, filter_In in Hr as [Hr Hkeep].
      apply list_elem_of_In in Hr.
      pose proof (token_by_value_stored d r (wf_tokens d Hwf) Hr) as Hfind.
      rewrite <- Htok, Hrt in Hfind. injection Hfind as ->.
      apply negb_true_iff, Z.ltb_ge in Hkeep. lia. }
    rewrite run_unfold. unfold refresh_request. rewrite RefreshToken_run.
    cbn [db reads trace app]. by rewrite Hf, Hgone.
  - intros Hkeep. unfold token_by_value in *.
    cbn [delete_expired refresh_tokens].
    apply find_filter_first; [exact Hrt|].
    apply negb_true_iff, Z.ltb_ge. exact Hkeep.
Qed.

Lemma DeleteExpired_then_RefreshToken_witness :
  wf swept_db
  ∧ (domain.ExpiresAt sample_record
     < clock (sample_env 604800000001005 0 "u9") 0 →
     ∀ e2 : Env,
       db_fault e2 (RefreshTokenRepository_FindByToken sample_token) = None →
       run (authUseCase.RefreshToken (service sample_manager)
              (refresh_request sample_token)) e2 swept_db
       = (Err domain.ErrInvalidToken, swept_db,
          [RefreshTokenRepository_FindByToken sample_token]))
  ∧ (clock (sample_env 604800000001005 0 "u9") 0
     <= domain.ExpiresAt sample_record →
     token_by_value swept_db sample_token = Some sample_record).
Proof.
  apply (DeleteExpired_then_RefreshToken sample_manager
           (sample_env 604800000001005 0 "u9") stale_db swept_db sample_token
           sample_record [RefreshTokenRepository_DeleteExpired]).
  - exact wf_stale_db.
  - reflexivity.
  - vm_compute. reflexivity.
Defined.

(** ** The claims of an access token *)

Lemma Truncate_Second_le (t : time.Time) : time.Truncate t time.Second <= t.
Proof.
  unfold time.Truncate, time.Second. cbn [Z.leb Z.compare].
  pose proof (Z.mod_pos_bound (t - time.zero) 1000000000 eq_refl). lia.
Qed.

Lemma Truncate_Second_gt (t : time.Time) :
  t - time.Second < time.Truncate t time.Second.
Proof.
  unfold time.Truncate, time.Second. cbn [Z.leb Z.compare].
  pose proof (Z.mod_pos_bound (t - time.zero) 1000000000 eq_refl). lia.
Qed.

Lemma Truncate_Second_whole (t : time.Time) :
  (time.Truncate t time.Second) mod time.Second = 0.
Proof.
  unfold time.Truncate, time.zero, time.Second. cbn [Z.leb Z.compare].
  set (x := t - -62135596800 * 1000000000).
  pose proof (Z.div_mod x 1000000000 ltac:(lia)) as Hx.
  replace (t - x mod 1000000000)
    with ((x / 1000000000 - 62135596800) * 1000000000) by lia.
  apply Z.mod_mul. lia.
Qed.

Lemma Truncate_Second_mono (t u : time.Time) :
  t <= u → time.Truncate t time.Second <= time.Truncate u time.Second.
Proof.
  intros Htu. unfold time.Truncate, time.Second. cbn [Z.leb Z.compare].
  pose proof (Z.div_le_mono (t - time.zero) (u - time.zero) 1000000000
                eq_refl ltac:(lia)) as Hdiv.
  pose proof (Z.div_mod (t - time.zero) 1000000000 ltac:(lia)).
  pose proof (Z.div_mod (u - time.zero) 1000000000 ltac:(lia)).
  lia.
Qed.

(** X14.  The claims [GenerateAccessToken] signs.  When it returns a
    token, the signer was given claims whose subject and user
    identifier are the account's identifier, whose issuer is
    [auth-service], whose three dates are whole seconds, and whose
    expiry lies at most [accessTokenDuration] and less than a second
    short of it after the first clock reading; if the clock does not go
    back between the three readings, the token is issued not after it
    becomes valid and is already valid when it is returned.  The
    database is not touched. *)
Theorem GenerateAccessToken_claims (m : jwt.JWTManager) (userID email : string)
    (e : Env) (w w' : World) (signed : string) :
  JWTManager.GenerateAccessToken m userID email e w = ((signed, None), w') →
  clock e (reads w) <= clock e (S (reads w)) →
  clock e (S (reads w)) <= clock e (S (S (reads w))) →
  ∃ claims : jwt.Claims,
    rsa_sign e claims = inl signed
    ∧ jwt.Subject claims = userID
    ∧ jwt.UserID claims = userID
    ∧ jwt.Email claims = email
    ∧ jwt.Issuer claims = "auth-service"
    ∧ jwt.ExpiresAt claims mod time.Second = 0
    ∧ jwt.IssuedAt claims mod time.Second = 0
    ∧ jwt.NotBefore claims mod time.Second = 0
    ∧ clock e (reads w) + jwt.accessTokenDuration m - time.Second
      < jwt.ExpiresAt claims
      <= clock e (reads w) + jwt.accessTokenDuration m
    ∧ jwt.IssuedAt claims <= jwt.NotBefore claims
      <= clock e (S (S (reads w)))
    ∧ jwt.ExpiresAt claims - jwt.IssuedAt claims
      < jwt.accessTokenDuration m + time.Second
    ∧ db w' = db w.
Proof.
  rewrite GenerateAccessToken_run.
  destruct (rsa_sign e _) as [s|text] eqn:Hsign; [|discriminate].
  intros H Hc1 Hc2. injection H as <- <-.
  exists (access_claims m e (reads w) userID email).
  split; [exact Hsign|]. do 4 (split; [reflexivity|]).
  cbn [access_claims jwt.ExpiresAt jwt.IssuedAt jwt.NotBefore db].
  unfold jwt.NewNumericDate, time.Add.
  do 3 (split; [apply Truncate_Second_whole|]).
  pose proof (Truncate_Second_le (clock e (reads w) + jwt.accessTokenDuration m)).
  pose proof (Truncate_Second_gt (clock e (reads w) + jwt.accessTokenDuration m)).
  pose proof (Truncate_Second_le (clock e (S (S (reads w))))).
  pose proof (Truncate_Second_gt (clock e (S (reads w)))).
  pose proof (Truncate_Second_mono _ _ Hc2).
  unfold time.Second in *. repeat split; try lia.
Qed.

Lemma GenerateAccessToken_claims_witness :
  ∃ claims : jwt.Claims,
    rsa_sign (sample_env 1000 0 "u1") claims = inl "signed:u1"
    ∧ jwt.Subject claims = "u1"
    ∧ jwt.UserID claims = "u1"
    ∧ jwt.Email claims = "a@x.com"
    ∧ jwt.Issuer claims = "auth-service"
    ∧ jwt.ExpiresAt claims mod time.Second = 0
    ∧ jwt.IssuedAt claims mod time.Second = 0
    ∧ jwt.NotBefore claims mod time.Second = 0
    ∧ clock (sample_env 1000 0 "u1") (reads (Build_World empty_db 0 []))
        + jwt.accessTokenDuration sample_manager - time.Second
      < jwt.ExpiresAt claims
      <= clock (sample_env 1000 0 "u1") (reads (Build_World empty_db 0 []))
         + jwt.accessTokenDuration sample_manager
    ∧ jwt.IssuedAt claims <= jwt.NotBefore claims
      <= clock (sample_env 1000 0 "u1")
           (S (S (reads (Build_World empty_db 0 []))))
    ∧ jwt.ExpiresAt claims - jwt.IssuedAt claims
      < jwt.accessTokenDuration sample_manager + time.Second
    ∧ db (Build_World empty_db 3 [JWTManager_GenerateAccessToken "u1" "a@x.com"])
      = db (Build_World empty_db 0 []).
Proof.
  apply (GenerateAccessToken_claims sample_manager "u1" "a@x.com"
           (sample_env 1000 0 "u1") (Build_World empty_db 0 [])
           (Build_World empty_db 3
              [JWTManager_GenerateAccessToken "u1" "a@x.com"]) "signed:u1").
  - vm_compute. reflexivity.
  - vm_compute. discriminate.
  - vm_compute. discriminate.
Defined.

(** ** The authorization header *)

Lemma Split_not_nil (s : string) (sep : ascii) : strings.Split s sep ≠ [].
Proof.
  destruct s as [|c rest]; [discriminate|]. cbn [strings.Split].
  destruct (Ascii.eqb c sep); [discriminate|].
  destruct (strings.Split rest sep); discriminate.
Qed.

Lemma Split_one (s : string) (sep : ascii) (a : string) :
  strings.Split s sep = [a] ↔ s = a ∧ no_byte sep a = true.
Proof.
  revert a. induction s as [|c rest IH]; intros a; cbn [strings.Split].
  - split; [intros [= <-]; done | intros [<- _]; done].
  - destruct (Ascii.eqb c sep) eqn:E.
    + split.
      * intros [= _ H]. by apply Split_not_nil in H.
      * intros [<- H]. cbn [no_byte] in H. rewrite E in H. discriminate.
    + destruct (strings.Split rest sep) as [|p ps] eqn:Hsplit in |- *.
      { by apply Split_not_nil in Hsplit. }
      split.
      * intros [= <- ->]. apply (IH p) in Hsplit as [-> Hp].
        split; [reflexivity|]. cbn [no_byte]. by rewrite E, Hp.
      * intros [<- H]. cbn [no_byte] in H. rewrite E in H. cbn [negb andb] in H.
        pose proof (proj2 (IH rest) (conj eq_refl H)) as Hr.
        rewrite Hsplit in Hr. by injection Hr as -> ->.
Qed.

Lemma Split_two (s : string) (sep : ascii) (a b : string) :
  strings.Split s sep = [a; b] ↔
  s = a +:+ String sep b ∧ no_byte sep a = true ∧ no_byte sep b = true.
Proof.
  revert a. induction s as [|c rest IH]; intros a; cbn [strings.Split].
  - split; [discriminate|]. intros [H _]. destruct a; discriminate.
  - destruct (Ascii.eqb c sep) eqn:E.
    + apply Ascii.eqb_eq in E as ->. split.
      * intros [= <- H]. apply Split_one in H as [-> Hb]. done.
      * intros (H & Ha & Hb). destruct a as [|c' a'].
        -- cbn in H. injection H as ->. f_equal. by apply Split_one.
        -- cbn in H. injection H as <- _. cbn [no_byte] in Ha.
           by rewrite Ascii.eqb_refl in Ha.
    + destruct (strings.Split rest sep) as [|p ps] eqn:Hsplit in |- *.
      { by apply Split_not_nil in Hsplit. }
      split.
      * intros [= <- ->]. apply (IH p) in Hsplit as (-> & Hp & Hb).
        split; [reflexivity|]. split; [|exact Hb].
        cbn [no_byte]. by rewrite E, Hp.
      * intros (H & Ha & Hb). destruct a as [|c' a'].
        -- cbn in H. injection H as -> _. by rewrite Ascii.eqb_refl in E.
        -- cbn in H. injection H as <- ->. cbn [no_byte] in Ha.
           rewrite E in Ha. cbn [negb andb] in Ha.
           pose proof (proj2 (IH a') (conj eq_refl (conj Ha Hb))) as Hr.
           rewrite Hsplit in Hr. by injection Hr as -> ->.
Qed.

Lemma ValidateAccessToken_run m token e w :
  authUseCase.ValidateAccessToken (service m) token e w =
  (match rsa_verify e token with
   | inl claims => Ok claims
   | inr _ => Err domain.ErrInvalidToken
   end, validated token w).
Proof.
  unfold authUseCase.ValidateAccessToken, JWTManager.ValidateToken, validated.
  service_unfold. cbv beta iota zeta delta [called].
  destruct (rsa_verify e token); reflexivity.
Qed.

Lemma AuthMiddleware_verified {A : Type} (m : jwt.JWTManager)
    (next : fiber.Handler A) (c : fiber.Ctx A) (e : Env) (w : World)
    (token : string) (claims : jwt.Claims) :
  fiber.Get c "Authorization" = "Bearer " +:+ token →
  no_byte " " token = true →
  rsa_verify e token = inl claims →
  http.AuthMiddleware (service m) next c e w
  = next (authenticated claims c) e (validated token w).
Proof.
  intros Hheader Hfree Hverify.
  unfold http.AuthMiddleware. rewrite Hheader.
  change (String.eqb ("Bearer " +:+ token) "") with false. cbv iota zeta.
  assert (Hsplit : strings.Split ("Bearer " +:+ token) " " = ["Bearer"; token]).
  { apply Split_two. done. }
  rewrite Hsplit. cbn [length Nat.eqb nth negb orb].
  change (String.eqb "Bearer" "Bearer") with true. cbn [negb].
  cbv beta iota zeta delta [mbind M_bind].
  rewrite ValidateAccessToken_run, Hverify. reflexivity.
Qed.

Lemma authenticated_userID {A : Type} (claims : jwt.Claims) (c : fiber.Ctx A) :
  http.GetUserIDFromContext (authenticated claims c)
  = (jwt.UserID claims, true).
Proof.
  unfold http.GetUserIDFromContext, authenticated, fiber.SetLocals.
  cbn [fiber.Locals]. rewrite lookup_insert_ne by done.
  by rewrite lookup_insert_eq.
Qed.

Lemma authenticated_email {A : Type} (claims : jwt.Claims) (c : fiber.Ctx A) :
  http.GetEmailFromContext (authenticated claims c)
  = (jwt.Email claims, true).
Proof.
  unfold http.GetEmailFromContext, authenticated, fiber.SetLocals.
  cbn [fiber.Locals]. by rewrite lookup_insert_eq.
Qed.

(** X15.  [AuthMiddleware] lets a request through when its
    [Authorization] header is [Bearer], one space, and a token without a
    space that the verifier accepts: the rest of the chain runs with the
    user identifier and the email of the verified claims in the locals,
    and the database has not been consulted. *)
Theorem AuthMiddleware_passes {A : Type} (m : jwt.JWTManager)
    (next : fiber.Handler A) (c : fiber.Ctx A) (e : Env) (w : World)
    (token : string) (claims : jwt.Claims) :
  fiber.Get c "Authorization" = "Bearer " +:+ token →
  no_byte " " token = true →
  rsa_verify e token = inl claims →
  http.AuthMiddleware (service m) next c e w
  = next (authenticated claims c) e (validated token w)
  ∧ http.GetUserIDFromContext (authenticated claims c)
    = (jwt.UserID claims, true)
  ∧ http.GetEmailFromContext (authenticated claims c)
    = (jwt.Email claims, true).
Proof.
  intros Hheader Hfree Hverify.
  split; [by apply AuthMiddleware_verified|].
  split; [apply authenticated_userID | apply authenticated_email].
Qed.

(** X16.  [AuthMiddleware] stops every other request: when the header is
    not of that form, or the verifier refuses the token, the answer is
    401 with one of three fixed messages, the rest of the chain does not
    run, and the database and the clock are left alone. *)
Theorem AuthMiddleware_rejects {A : Type} (m : jwt.JWTManager)
    (next : fiber.Handler A) (c : fiber.Ctx A) (e : Env) (w : World) :
  (∀ (token : string) (claims : jwt.Claims),
     fiber.Get c "Authorization" = "Bearer " +:+ token →
     no_byte " " token = true →
     rsa_verify e token ≠ inl claims) →
  ∃ (msg : string) (w' : World),
    http.AuthMiddleware (service m) next c e w
    = ({| fiber.StatusCode := fiber.StatusUnauthorized;
          fiber.JSON := fiber.Map_error msg |}, w')
    ∧ msg ∈ ["missing authorization header";
             "invalid authorization header format";
             "invalid or expired token"]
    ∧ db w' = db w ∧ reads w' = reads w.
Proof.
  intros Hno. unfold http.AuthMiddleware.
  destruct (String.eqb (fiber.Get c "Authorization") "") eqn:Hempty.
  { eexists _, w. split; [reflexivity|]. split; [|done].
    apply list_elem_of_In. cbn. tauto. }
  cbv zeta.
  destruct (negb (length (strings.Split (fiber.Get c "Authorization") " ") =? 2)%nat
            || negb (String.eqb
                       (nth 0 (strings.Split (fiber.Get c "Authorization") " ") "")
                       "Bearer")) eqn:Hformat.
  { eexists _, w. split; [reflexivity|]. split; [|done].
    apply list_elem_of_In. cbn. tauto. }
  apply orb_false_iff in Hformat as [Hlen Hfirst].
  apply negb_false_iff in Hlen, Hfirst.
  apply Nat.eqb_eq in Hlen. apply String.eqb_eq in Hfirst.
  destruct (strings.Split (fiber.Get c "Authorization") " ")
    as [|p0 [|token [|]]] eqn:Hsplit; try discriminate Hlen.
  cbn [nth] in Hfirst |- *. subst p0.
  apply Split_two in Hsplit as (Hheader & _ & Hfree).
  cbv beta iota zeta delta [mbind M_bind].
  rewrite ValidateAccessToken_run.
  destruct (rsa_verify e token) as [claims|text] eqn:Hverify.
  { exfalso. exact (Hno token claims Hheader Hfree Hverify). }
  eexists _, (validated token w). split; [reflexivity|]. split; [|done].
  apply list_elem_of_In. cbn. tauto.
Qed.

Lemma AuthMiddleware_passes_witness :
  http.AuthMiddleware (service sample_manager)
    (AuthHandler.GetProfile (SetupRoutes.authHandler sample_manager))
    (bearer_request "Bearer signed:u1") (verifying_env 2000 1 "u2")
    (Build_World sample_db 0 [])
  = AuthHandler.GetProfile (SetupRoutes.authHandler sample_manager)
      (authenticated sample_claims (bearer_request "Bearer signed:u1"))
      (verifying_env 2000 1 "u2")
      (validated "signed:u1" (Build_World sample_db 0 []))
  ∧ http.GetUserIDFromContext
      (authenticated sample_claims (bearer_request "Bearer signed:u1"))
    = (jwt.UserID sample_claims, true)
  ∧ http.GetEmailFromContext
      (authenticated sample_claims (bearer_request "Bearer signed:u1"))
    = (jwt.Email sample_claims, true).
Proof.
  apply (AuthMiddleware_passes sample_manager
           (AuthHandler.GetProfile (SetupRoutes.authHandler sample_manager))
           (bearer_request "Bearer signed:u1") (verifying_env 2000 1 "u2")
           (Build_World sample_db 0 []) "signed:u1" sample_claims);
    reflexivity.
Defined.

Lemma AuthMiddleware_rejects_witness :
  ∃ (msg : string) (w' : World),
    http.AuthMiddleware (service sample_manager)
      (AuthHandler.GetProfile (SetupRoutes.authHandler sample_manager))
      (bearer_request "bearer signed:u1") (verifying_env 2000 1 "u2")
      (Build_World sample_db 0 [])
    = ({| fiber.StatusCode := fiber.StatusUnauthorized;
          fiber.JSON := fiber.Map_error msg |}, w')
    ∧ msg ∈ ["missing authorization header";
             "invalid authorization header format";
             "invalid or expired token"]
    ∧ db w' = db (Build_World sample_db 0 [])
    ∧ reads w' = reads (Build_World sample_db 0 []).
Proof.
  apply (AuthMiddleware_rejects sample_manager
           (AuthHandler.GetProfile (SetupRoutes.authHandler sample_manager))
           (bearer_request "bearer signed:u1") (verifying_env 2000 1 "u2")
           (Build_World sample_db 0 [])).
  intros token claims H. vm_compute in H. discriminate H.
Defined.

(** ** The handlers *)

(** X17.  The Register handler answers 400 exactly when the body cannot
    be decoded, the email, the password or the name is empty, or the
    password is shorter than 8 bytes; it then has not called the use
    case: the world is as it was. *)
Theorem Register_handler_validates_first (m : jwt.JWTManager)
    (c : fiber.Ctx usecase.RegisterRequest) (e : Env) (w : World) :
  let invalid :=
    fiber.BodyParser c = None
    ∨ ∃ req, fiber.BodyParser c = Some req
             ∧ (usecase.RegisterRequest_Email req = ""
                ∨ usecase.RegisterRequest_Password req = ""
                ∨ usecase.RegisterRequest_Name req = ""
                ∨ (String.length (usecase.RegisterRequest_Password req) < 8)%nat)
  in
  (fiber.StatusCode (SetupRoutes.register m c e w).1 = fiber.StatusBadRequest
   ↔ invalid)
  ∧ (invalid → (SetupRoutes.register m c e w).2 = w).
Proof.
  cbv zeta. unfold SetupRoutes.register, AuthHandler.Register.
  destruct (fiber.BodyParser c) as [req|]; [|split; [split|]; auto].
  destruct (String.eqb (usecase.RegisterRequest_Email req) "") eqn:E1.
  { apply String.eqb_eq in E1. split; [split|]; eauto 6. }
  destruct (String.eqb (usecase.RegisterRequest_Password req) "") eqn:E2.
  { apply String.eqb_eq in E2. split; [split|]; eauto 6. }
  destruct (String.eqb (usecase.RegisterRequest_Name req) "") eqn:E3.
  { apply String.eqb_eq in E3. split; [split|]; eauto 7. }
  cbn [orb].
  destruct (String.length (usecase.RegisterRequest_Password req) <? 8)%nat
    eqn:E4.
  { apply Nat.ltb_lt in E4. split; [split|]; eauto 7. }
  apply String.eqb_neq in E1, E2, E3. apply Nat.ltb_ge in E4.
  assert (Hvalid : ¬ (Some req = None
            ∨ ∃ req0, Some req = Some req0
                ∧ (usecase.RegisterRequest_Email req0 = ""
                   ∨ usecase.RegisterRequest_Password req0 = ""
                   ∨ usecase.RegisterRequest_Name req0 = ""
                   ∨ (String.length (usecase.RegisterRequest_Password req0) < 8)%nat))).
  { intros [H|(req0 & [= <-] & [H|[H|[H|H]]])]; try done. lia. }
  cbv beta iota zeta delta [mbind M_bind].
  destruct (authUseCase.Register _ req e w) as [[resp|err] w'].
  - split; [split|]; [discriminate | tauto | tauto].
  - destruct (domain.error_eqb err domain.ErrUserAlreadyExists);
      (split; [split|]; [discriminate | tauto | tauto]).
Qed.

Lemma Register_handler_validates_first_witness :
  let c := body_request short_password_register in
  let e := sample_env 1000 0 "u1" in
  let w := Build_World empty_db 0 [] in
  let invalid :=
    fiber.BodyParser c = None
    ∨ ∃ req, fiber.BodyParser c = Some req
             ∧ (usecase.RegisterRequest_Email req = ""
                ∨ usecase.RegisterRequest_Password req = ""
                ∨ usecase.RegisterRequest_Name req = ""
                ∨ (String.length (usecase.RegisterRequest_Password req) < 8)%nat)
  in
  (fiber.StatusCode (SetupRoutes.register sample_manager c e w).1
     = fiber.StatusBadRequest
   ↔ invalid)
  ∧ (invalid → (SetupRoutes.register sample_manager c e w).2 = w).
Proof.
  exact (Register_handler_validates_first sample_manager
           (body_request short_password_register) (sample_env 1000 0 "u1")
           (Build_World empty_db 0 [])).
Defined.

Ltac fixed_message :=
  intros [= <-]; unfold handler_errors;
  repeat first [apply list_elem_of_here | apply list_elem_of_further].

Lemma AuthMiddleware_error_message {A : Type} m (next : fiber.Handler A)
    (c : fiber.Ctx A) e w msg :
  (∀ c' w', fiber.JSON (next c' e w').1 = fiber.Map_error msg →
            msg ∈ handler_errors) →
  fiber.JSON (http.AuthMiddleware (service m) next c e w).1
    = fiber.Map_error msg →
  msg ∈ handler_errors.
Proof.
  intros Hnext. unfold http.AuthMiddleware.
  destruct (String.eqb _ ""); [fixed_message|]. cbv zeta.
  destruct (_ || _); [fixed_message|].
  cbv beta iota zeta delta [mbind M_bind].
  rewrite ValidateAccessToken_run.
  destruct (rsa_verify e _); [apply Hnext | fixed_message].
Qed.

(** X18.  Whatever the request, the environment and the database, an
    error answer of a route carries one of twenty fixed messages: the
    text of a driver or library error never reaches the client. *)
Theorem routes_answer_with_fixed_messages (m : jwt.JWTManager) (e : Env)
    (w : World) (msg : string) :
  (∀ c, fiber.JSON (SetupRoutes.register m c e w).1 = fiber.Map_error msg →
        msg ∈ handler_errors)
  ∧ (∀ c, fiber.JSON (SetupRoutes.login m c e w).1 = fiber.Map_error msg →
          msg ∈ handler_errors)
  ∧ (∀ c, fiber.JSON (SetupRoutes.refresh m c e w).1 = fiber.Map_error msg →
          msg ∈ handler_errors)
  ∧ (∀ c, fiber.JSON (SetupRoutes.logout m c e w).1 = fiber.Map_error msg →
          msg ∈ handler_errors)
  ∧ (∀ (A : Type) (c : fiber.Ctx A),
       fiber.JSON (SetupRoutes.profile m c e w).1 = fiber.Map_error msg →
       msg ∈ handler_errors)
  ∧ (∀ (A : Type) (c : fiber.Ctx A),
       fiber.JSON (SetupRoutes.logout_all m c e w).1 = fiber.Map_error msg →
       msg ∈ handler_errors).
Proof.
  repeat split.
  - intros c. unfold SetupRoutes.register, AuthHandler.Register.
    destruct (fiber.BodyParser c) as [req|]; [|fixed_message].
    destruct (_ || _); [fixed_message|].
    destruct (_ <? _)%nat; [fixed_message|].
    cbv beta iota zeta delta [mbind M_bind].
    destruct (authUseCase.Register _ req e w) as [[resp|err] w'];
      [discriminate|].
    destruct (domain.error_eqb err _); fixed_message.
  - intros c. unfold SetupRoutes.login, AuthHandler.Login.
    destruct (fiber.BodyParser c) as [req|]; [|fixed_message].
    destruct (_ || _); [fixed_message|].
    cbv beta iota zeta delta [mbind M_bind].
    destruct (authUseCase.Login _ req e w) as [[resp|err] w'];
      [discriminate|].
    destruct (domain.error_eqb err _); fixed_message.
  - intros c. unfold SetupRoutes.refresh, AuthHandler.RefreshToken.
    destruct (fiber.BodyParser c) as [req|]; [|fixed_message].
    destruct (String.eqb _ ""); [fixed_message|].
    cbv beta iota zeta delta [mbind M_bind].
    destruct (authUseCase.RefreshToken _ req e w) as [[resp|err] w'];
      [discriminate|].
    destruct err; cbn [domain.error_eqb orb domain.Error]; fixed_message.
  - intros c. unfold SetupRoutes.logout, AuthHandler.Logout.
    destruct (fiber.BodyParser c) as [req|]; [|fixed_message].
    destruct (String.eqb _ ""); [fixed_message|].
    cbv beta iota zeta delta [mbind M_bind].
    destruct (authUseCase.Logout _ _ e w) as [[err|] w'];
      [fixed_message | discriminate].
  - intros A c. unfold SetupRoutes.profile. apply AuthMiddleware_error_message.
    intros c' w'. unfold AuthHandler.GetProfile.
    destruct (http.GetUserIDFromContext c') as [userID [|]];
      [|fixed_message].
    cbv beta iota zeta delta [mbind M_bind negb].
    destruct (authUseCase.GetUserByID _ _ e w') as [[user|err] w''];
      [discriminate | fixed_message].
  - intros A c. unfold SetupRoutes.logout_all.
    apply AuthMiddleware_error_message.
    intros c' w'. unfold AuthHandler.LogoutAll.
    destruct (http.GetUserIDFromContext c') as [userID [|]];
      [|fixed_message].
    cbv beta iota zeta delta [mbind M_bind negb].
    destruct (authUseCase.LogoutAll _ _ e w') as [[err|] w''];
      [fixed_message | discriminate].
Qed.

(** X19.  At the HTTP level too, a login for an unknown email and a
    login with a wrong password get the same answer: 401 with the
    message [invalid credentials]. *)
Theorem Login_handler_unknown_and_wrong_password_alike (m : jwt.JWTManager)
    (c : fiber.Ctx usecase.LoginRequest) (email password : string)
    (e1 e2 : Env) (d1 d2 : DB) (user : domain.User) (text : string) :
  fiber.BodyParser c = Some (login_request email password) →
  email ≠ "" → password ≠ "" →
  db_fault e1 (UserRepository_FindByEmail email) = None →
  db_fault e2 (UserRepository_FindByEmail email) = None →
  user_by_email d1 email = None →
  user_by_email d2 email = Some user →
  bcrypt_CompareHashAndPassword e2 (domain.Password user) password
    = Some text →
  (run (SetupRoutes.login m c) e1 d1).1.1
  = {| fiber.StatusCode := fiber.StatusUnauthorized;
       fiber.JSON := fiber.Map_error "invalid credentials" |}
  ∧ (run (SetupRoutes.login m c) e2 d2).1.1
    = (run (SetupRoutes.login m c) e1 d1).1.1.
Proof.
  intros Hbody Hemail Hpw Hf1 Hf2 Hnone Hsome Hwrong.
  apply String.eqb_neq in Hemail, Hpw.
  assert (H1 : (run (SetupRoutes.login m c) e1 d1).1.1
               = {| fiber.StatusCode := fiber.StatusUnauthorized;
                    fiber.JSON := fiber.Map_error "invalid credentials" |}).
  { rewrite run_unfold. cbn [fst].
    unfold SetupRoutes.login, AuthHandler.Login. rewrite Hbody.
    cbn [login_request usecase.LoginRequest_Email usecase.LoginRequest_Password].
    rewrite Hemail, Hpw. cbn [orb]. cbv beta iota zeta delta [mbind M_bind].
    change (http.authUseCase (SetupRoutes.authHandler m)) with (service m).
    unfold login_request. rewrite Login_run. cbn [db reads trace].
    by rewrite Hf1, Hnone. }
  split; [exact H1|]. rewrite H1.
  rewrite run_unfold. cbn [fst].
  unfold SetupRoutes.login, AuthHandler.Login. rewrite Hbody.
  cbn [login_request usecase.LoginRequest_Email usecase.LoginRequest_Password].
  rewrite Hemail, Hpw. cbn [orb]. cbv beta iota zeta delta [mbind M_bind].
  change (http.authUseCase (SetupRoutes.authHandler m)) with (service m).
  unfold login_request. rewrite Login_run. cbn [db reads trace].
  by rewrite Hf2, Hsome, Hwrong.
Qed.

Lemma Login_handler_unknown_and_wrong_password_alike_witness :
  (run (SetupRoutes.login sample_manager
          (body_request (login_request "a@x.com" "guess")))
     (sample_env 2000 1 "u2") empty_db).1.1
  = {| fiber.StatusCode := fiber.StatusUnauthorized;
       fiber.JSON := fiber.Map_error "invalid credentials" |}
  ∧ (run (SetupRoutes.login sample_manager
            (body_request (login_request "a@x.com" "guess")))
       (sample_env 2000 1 "u2") sample_db).1.1
    = (run (SetupRoutes.login sample_manager
              (body_request (login_request "a@x.com" "guess")))
         (sample_env 2000 1 "u2") empty_db).1.1.
Proof.
  apply (Login_handler_unknown_and_wrong_password_alike sample_manager
           (body_request (login_request "a@x.com" "guess")) "a@x.com" "guess"
           (sample_env 2000 1 "u2") (sample_env 2000 1 "u2") empty_db sample_db
           sample_user "hashedPassword is not the hash of the given password");
    [reflexivity | discriminate | discriminate | reflexivity | reflexivity
    | reflexivity | reflexivity | reflexivity].
Defined.

(** X20.  The protected logout-all route acts for the subject of the
    access token and for nobody else: with a verified bearer token it
    revokes exactly the refresh tokens whose owner is the user
    identifier of the claims, whatever the body of the request says, and
    answers 200. *)
Theorem logout_all_route_acts_for_the_token_subject {A : Type}
    (m : jwt.JWTManager) (c : fiber.Ctx A) (e : Env) (d : DB)
    (token : string) (claims : jwt.Claims) :
  fiber.Get c "Authorization" = "Bearer " +:+ token →
  no_byte " " token = true →
  rsa_verify e token = inl claims →
  db_fault e (RefreshTokenRepository_RevokeAllByUserID (jwt.UserID claims))
    = None →
  run (SetupRoutes.logout_all m c) e d
  = ({| fiber.StatusCode := fiber.StatusOK;
        fiber.JSON :=
          fiber.Map_message "successfully logged out from all devices" |},
     revoke_where (λ r, String.eqb (domain.UserID r) (jwt.UserID claims))
       (clock e 0) d,
     [JWTManager_ValidateToken token;
      RefreshTokenRepository_RevokeAllByUserID (jwt.UserID claims)]).
Proof.
  intros Hheader Hfree Hverify Hfault. rewrite run_unfold.
  unfold SetupRoutes.logout_all.
  rewrite (AuthMiddleware_verified m
             (AuthHandler.LogoutAll (SetupRoutes.authHandler m)) c e
             (Build_World d 0 []) token claims Hheader Hfree Hverify).
  unfold AuthHandler.LogoutAll. rewrite authenticated_userID. cbn [negb].
  cbv beta iota zeta delta [mbind M_bind].
  change (http.authUseCase (SetupRoutes.authHandler m)) with (service m).
  rewrite LogoutAll_run, RevokeAllByUserID_run. unfold validated.
  cbn [db reads trace app]. rewrite Hfault. reflexivity.
Qed.

Lemma logout_all_route_acts_for_the_token_subject_witness :
  run (SetupRoutes.logout_all sample_manager
         (bearer_request "Bearer signed:u1")) (verifying_env 3000 2 "u3")
    two_token_db
  = ({| fiber.StatusCode := fiber.StatusOK;
        fiber.JSON :=
          fiber.Map_message "successfully logged out from all devices" |},
     revoke_where
       (λ r, String.eqb (domain.UserID r) (jwt.UserID sample_claims))
       (clock (verifying_env 3000 2 "u3") 0) two_token_db,
     [JWTManager_ValidateToken "signed:u1";
      RefreshTokenRepository_RevokeAllByUserID (jwt.UserID sample_claims)]).
Proof.
  apply (logout_all_route_acts_for_the_token_subject sample_manager
           (bearer_request "Bearer signed:u1") (verifying_env 3000 2 "u3")
           two_token_db "signed:u1" sample_claims); reflexivity.
Defined.

Lemma GetProfile_verified {A : Type} (m : jwt.JWTManager) (c : fiber.Ctx A)
    (e : Env) (d : DB) (token : string) (claims : jwt.Claims) :
  fiber.Get c "Authorization" = "Bearer " +:+ token →
  no_byte " " token = true →
  rsa_verify e token = inl claims →
  db_fault e (UserRepository_FindByID (jwt.UserID claims)) = None →
  run (SetupRoutes.profile m c) e d
  = (match user_by_id d (jwt.UserID claims) with
     | Some user =>
         {| fiber.StatusCode := fiber.StatusOK;
            fiber.JSON :=
              fiber.UserResponse
                {| usecase.UserResponse_ID := domain.User_ID user;
                   usecase.UserResponse_Email := domain.Email user;
                   usecase.UserResponse_Name := domain.Name user |} |}
     | None =>
         {| fiber.StatusCode := fiber.StatusInternalServerError;
            fiber.JSON := fiber.Map_error "failed to get user profile" |}
     end, d,
     [JWTManager_ValidateToken token;
      UserRepository_FindByID (jwt.UserID claims)]).
Proof.
  intros Hheader Hfree Hverify Hfault. rewrite run_unfold.
  unfold SetupRoutes.profile.
  rewrite (AuthMiddleware_verified m
             (AuthHandler.GetProfile (SetupRoutes.authHandler m)) c e
             (Build_World d 0 []) token claims Hheader Hfree Hverify).
  unfold AuthHandler.GetProfile. rewrite authenticated_userID. cbn [negb].
  cbv beta iota zeta delta [mbind M_bind].
  change (http.authUseCase (SetupRoutes.authHandler m)) with (service m).
  rewrite GetUserByID_run. unfold validated. cbn [db reads trace app].
  rewrite Hfault. by destruct (user_by_id d _).
Qed.

(** X21.  Access tokens are not tied to the stored sessions: the
    middleware does not consult the database, so after a successful
    logout-all the same access token still opens the profile route, as
    long as the verifier accepts it and the account is live. *)
Theorem access_token_outlives_logout_all {A : Type} (m : jwt.JWTManager)
    (c : fiber.Ctx A) (e e2 : Env) (d d' : DB) (token : string)
    (claims : jwt.Claims) (user : domain.User) (resp : fiber.Response)
    (calls : list Call) :
  fiber.Get c "Authorization" = "Bearer " +:+ token →
  no_byte " " token = true →
  rsa_verify e token = inl claims →
  rsa_verify e2 token = inl claims →
  db_fault e (RefreshTokenRepository_RevokeAllByUserID (jwt.UserID claims))
    = None →
  db_fault e2 (UserRepository_FindByID (jwt.UserID claims)) = None →
  user_by_id d (jwt.UserID claims) = Some user →
  run (SetupRoutes.logout_all m c) e d = (resp, d', calls) →
  fiber.StatusCode resp = fiber.StatusOK
  ∧ (∀ r, r ∈ refresh_tokens d' →
          domain.UserID r = jwt.UserID claims → domain.IsRevoked r = true)
  ∧ run (SetupRoutes.profile m c) e2 d'
    = ({| fiber.StatusCode := fiber.StatusOK;
          fiber.JSON :=
            fiber.UserResponse
              {| usecase.UserResponse_ID := domain.User_ID user;
                 usecase.UserResponse_Email := domain.Email user;
                 usecase.UserResponse_Name := domain.Name user |} |}, d',
       [JWTManager_ValidateToken token;
        UserRepository_FindByID (jwt.UserID claims)]).
Proof.
  intros Hheader Hfree Hverify Hverify2 Hfault Hfault2 Huser.
  rewrite run_unfold. unfold SetupRoutes.logout_all.
  rewrite (AuthMiddleware_verified m
             (AuthHandler.LogoutAll (SetupRoutes.authHandler m)) c e
             (Build_World d 0 []) token claims Hheader Hfree Hverify).
  unfold AuthHandler.LogoutAll. rewrite authenticated_userID. cbn [negb].
  cbv beta iota zeta delta [mbind M_bind].
  change (http.authUseCase (SetupRoutes.authHandler m)) with (service m).
  rewrite LogoutAll_run, RevokeAllByUserID_run. unfold validated.
  cbn [db reads trace app]. rewrite Hfault. cbn [fst snd db trace].
  intros H. injection H as <- <- _.
  split; [reflexivity|]. split.
  - intros r Hr Howner. rewrite revoke_where_rows in Hr.
    apply list_elem_of_fmap in Hr as (r0 & -> & _). unfold revoke_row in *.
    destruct (String.eqb (domain.UserID r0) (jwt.UserID claims)) eqn:E;
      [reflexivity|].
    apply String.eqb_neq in E. done.
  - rewrite (GetProfile_verified m c e2 _ token claims Hheader Hfree Hverify2
               Hfault2).
    change (user_by_id (revoke_where _ _ d) (jwt.UserID claims))
      with (user_by_id d (jwt.UserID claims)).
    by rewrite Huser.
Qed.

Lemma access_token_outlives_logout_all_witness :
  fiber.StatusCode
    {| fiber.StatusCode := fiber.StatusOK;
       fiber.JSON :=
         fiber.Map_message "successfully logged out from all devices" |}
  = fiber.StatusOK
  ∧ (∀ r, r ∈ refresh_tokens logged_out_db →
          domain.UserID r = jwt.UserID sample_claims →
          domain.IsRevoked r = true)
  ∧ run (SetupRoutes.profile sample_manager
           (bearer_request "Bearer signed:u1")) (verifying_env 4000 3 "u4")
      logged_out_db
    = ({| fiber.StatusCode := fiber.StatusOK;
          fiber.JSON :=
            fiber.UserResponse
              {| usecase.UserResponse_ID := domain.User_ID sample_user;
                 usecase.UserResponse_Email := domain.Email sample_user;
                 usecase.UserResponse_Name := domain.Name sample_user |} |},
       logged_out_db,
       [JWTManager_ValidateToken "signed:u1";
        UserRepository_FindByID (jwt.UserID sample_claims)]).
Proof.
  apply (access_token_outlives_logout_all sample_manager
           (bearer_request "Bearer signed:u1") (verifying_env 3000 2 "u3")
           (verifying_env 4000 3 "u4") two_token_db logged_out_db "signed:u1"
           sample_claims sample_user
           {| fiber.StatusCode := fiber.StatusOK;
              fiber.JSON :=
                fiber.Map_message "successfully logged out from all devices" |}
           [JWTManager_ValidateToken "signed:u1";
            RefreshTokenRepository_RevokeAllByUserID "u1"]);
    [reflexivity | reflexivity | reflexivity | reflexivity | reflexivity
    | reflexivity | reflexivity | vm_compute; reflexivity].
Defined.

(** X22.  The Logout handler does not tell whether the refresh token
    existed: for a given request and environment its answer is the same
    on every database. *)
Theorem Logout_handler_hides_token_existence (m : jwt.JWTManager)
    (c : fiber.Ctx usecase.RefreshTokenRequest) (e : Env) (d1 d2 : DB) :
  (run (SetupRoutes.logout m c) e d1).1.1
  = (run (SetupRoutes.logout m c) e d2).1.1.
Proof.
  rewrite !run_unfold. cbn [fst].
  unfold SetupRoutes.logout, AuthHandler.Logout.
  destruct (fiber.BodyParser c) as [req|]; [|reflexivity].
  destruct (String.eqb _ ""); [reflexivity|].
  cbv beta iota zeta delta [mbind M_bind].
  change (http.authUseCase (SetupRoutes.authHandler m)) with (service m).
  rewrite !Logout_run, !Revoke_run.
  destruct (db_fault e _); reflexivity.
Qed.

(** X23.  The RefreshToken handler answers 401 exactly when the
    presented value is unknown, revoked or expired.  Every other failure
    of the use case (a deleted owner, a driver error, a failure to issue
    the new pair) is answered with 500, and success with 200. *)
Theorem RefreshToken_handler_401_exactly_for_bad_tokens (m : jwt.JWTManager)
    (c : fiber.Ctx usecase.RefreshTokenRequest) (tok : string) (e : Env)
    (d : DB) :
  fiber.BodyParser c = Some (refresh_request tok) →
  tok ≠ "" →
  db_fault e (RefreshTokenRepository_FindByToken tok) = None →
  fiber.StatusCode (run (SetupRoutes.refresh m c) e d).1.1
    = fiber.StatusUnauthorized
  ↔ (token_by_value d tok = None
     ∨ ∃ rt, token_by_value d tok = Some rt
             ∧ (domain.IsRevoked rt = true
                ∨ domain.ExpiresAt rt < clock e 0)).
Proof.
  intros Hbody Htok Hfault. apply String.eqb_neq in Htok.
  rewrite run_unfold. cbn [fst].
  unfold SetupRoutes.refresh, AuthHandler.RefreshToken. rewrite Hbody.
  cbn [refresh_request usecase.RefreshTokenRequest_RefreshToken].
  rewrite Htok. cbv beta iota zeta delta [mbind M_bind].
  change (http.authUseCase (SetupRoutes.authHandler m)) with (service m).
  rewrite RefreshToken_run. cbn [db reads trace app]. rewrite Hfault.
  destruct (token_by_value d tok) as [rt|]; [|split; [auto|reflexivity]].
  destruct (domain.IsRevoked rt) eqn:Hrevoked.
  { split; [eauto|reflexivity]. }
  unfold time.After.
  destruct (domain.ExpiresAt rt <? clock e 0) eqn:Hexp.
  { apply Z.ltb_lt in Hexp. split; [eauto|reflexivity]. }
  apply Z.ltb_ge in Hexp.
  assert (Hgood : ¬ (Some rt = None
            ∨ ∃ rt0, Some rt = Some rt0
                ∧ (domain.IsRevoked rt0 = true
                   ∨ domain.ExpiresAt rt0 < clock e 0))).
  { intros [H|(rt0 & [= <-] & [H|H])]; [done|congruence|lia]. }
  destruct (db_fault e (UserRepository_FindByID (domain.UserID rt))).
  { split; [discriminate|tauto]. }
  destruct (user_by_id d (domain.UserID rt)) as [user|].
  2:{ split; [discriminate|tauto]. }
  destruct (db_fault e (RefreshTokenRepository_Revoke tok)).
  { split; [discriminate|tauto]. }
  destruct (authUseCase.generateTokens _ _ _ _) as [[resp|err] w'] eqn:Hgen.
  { split; [discriminate|tauto]. }
  destruct (generateTokens_err_inv _ _ _ _ _ _ Hgen)
    as (_ & _ & inner & [-> | [-> | ->]]);
    (split; [discriminate|tauto]).
Qed.

Lemma RefreshToken_handler_401_exactly_for_bad_tokens_witness :
  fiber.StatusCode
    (run (SetupRoutes.refresh sample_manager
            (body_request (refresh_request sample_token)))
       (sample_env 4000 3 "u4") logged_out_db).1.1
    = fiber.StatusUnauthorized
  ↔ (token_by_value logged_out_db sample_token = None
     ∨ ∃ rt, token_by_value logged_out_db sample_token = Some rt
             ∧ (domain.IsRevoked rt = true
                ∨ domain.ExpiresAt rt < clock (sample_env 4000 3 "u4") 0)).
Proof.
  apply (RefreshToken_handler_401_exactly_for_bad_tokens sample_manager
           (body_request (refresh_request sample_token)) sample_token
           (sample_env 4000 3 "u4") logged_out_db);
    [reflexivity | discriminate | reflexivity].
Defined.

(** ** Configuration *)

(** X24.  A refresh-token lifetime that [time.ParseDuration] refuses is
    not replaced by the default of 168 hours: [parseDuration] falls back
    to 15 minutes for both lifetimes, so the manager then issues refresh
    tokens that live 15 minutes.  An unset or empty variable does give
    what the parser makes of [168h]. *)
Theorem Load_refresh_token_duration (os_Getenv : string → string)
    (time_ParseDuration : string → option time.Duration) :
  let cfg := config.Load os_Getenv time_ParseDuration in
  (os_Getenv "JWT_REFRESH_TOKEN_DURATION" ≠ "" →
   time_ParseDuration (os_Getenv "JWT_REFRESH_TOKEN_DURATION") = None →
   jwt.refreshTokenDuration (config.manager cfg) = 900 * time.Second)
  ∧ (os_Getenv "JWT_REFRESH_TOKEN_DURATION" = "" →
     ∀ duration, time_ParseDuration "168h" = Some duration →
     jwt.refreshTokenDuration (config.manager cfg) = duration).
Proof.
  cbv zeta. split.
  - intros Hset Hparse. apply String.eqb_neq in Hset.
    cbn [config.manager config.Load config.JWT config.RefreshTokenDuration
         jwt.refreshTokenDuration].
    unfold config.parseDuration, config.getEnv. rewrite Hset. cbn [negb].
    rewrite Hparse. reflexivity.
  - intros Hunset duration Hparse.
    cbn [config.manager config.Load config.JWT config.RefreshTokenDuration
         jwt.refreshTokenDuration].
    unfold config.parseDuration, config.getEnv. rewrite Hunset.
    change (String.eqb "" "") with true. cbn [negb]. by rewrite Hparse.
Qed.

Lemma Load_refresh_token_duration_witness :
  let cfg := config.Load sample_getenv sample_ParseDuration in
  (sample_getenv "JWT_REFRESH_TOKEN_DURATION" ≠ "" →
   sample_ParseDuration (sample_getenv "JWT_REFRESH_TOKEN_DURATION") = None →
   jwt.refreshTokenDuration (config.manager cfg) = 900 * time.Second)
  ∧ (sample_getenv "JWT_REFRESH_TOKEN_DURATION" = "" →
     ∀ duration, sample_ParseDuration "168h" = Some duration →
     jwt.refreshTokenDuration (config.manager cfg) = duration).
Proof.
  exact (Load_refresh_token_duration sample_getenv sample_ParseDuration).
Defined.
